(** * esm.sh build pipeline: a shallow embedding of [server/build.go]

    The development follows the Go source function by function.  Go strings
    and byte slices are byte sequences and are modelled by [string] (a list
    of 8-bit [ascii]); Go maps are [gmap]s; the key/value store and the file
    system are explicit components of a [World] that is threaded through the
    build. *)

From Stdlib Require Import ZArith NArith List Ascii String Bool Lia Permutation Sorted.
From stdpp Require Import base tactics option list sorting strings gmap fin_maps fin_sets.

Import ListNotations.
Local Open Scope string_scope.
Local Open Scope list_scope.

(** ** Strings as byte sequences *)

Module Str.

Definition bytes (s : string) : list N := map N_of_ascii (list_ascii_of_string s).

(** [strings.HasPrefix] *)
Fixpoint HasPrefix (s p : string) : bool :=
  match p, s with
  | EmptyString, _ => true
  | String c p', String d s' => if Ascii.eqb c d then HasPrefix s' p' else false
  | String _ _, EmptyString => false
  end.

(** [strings.HasSuffix] *)
Definition HasSuffix (s suffix : string) : bool :=
  HasPrefix (String.rev s) (String.rev suffix).

(** [strings.Contains] / [bytes.Contains] *)
Fixpoint Contains (s sub : string) : bool :=
  HasPrefix s sub ||
  match s with
  | EmptyString => false
  | String _ s' => Contains s' sub
  end.

Fixpoint drop (n : nat) (s : string) : string :=
  match n, s with
  | O, _ => s
  | S n', String _ s' => drop n' s'
  | S _, EmptyString => EmptyString
  end.

(** [strings.ReplaceAll old new] for a non-empty [old]: non-overlapping
    occurrences are replaced from left to right.  [fuel] bounds the number
    of bytes skipped after a match and is the length of the input. *)
Fixpoint ReplaceAll_go (fuel : nat) (s old new : string) : string :=
  match fuel with
  | O => s
  | S fuel' =>
      match s with
      | EmptyString => EmptyString
      | String c s' =>
          if HasPrefix s old
          then new +:+ ReplaceAll_go fuel' (drop (String.length old) s) old new
          else String c (ReplaceAll_go fuel' s' old new)
      end
  end.

Definition ReplaceAll (s old new : string) : string :=
  match old with
  | EmptyString => s
  | _ => ReplaceAll_go (String.length s) s old new
  end.

(** [strings.Split s sep] for a one-byte separator. *)
Fixpoint Split_go (sep : ascii) (s cur : string) : list string :=
  match s with
  | EmptyString => [String.rev cur]
  | String c s' =>
      if Ascii.eqb c sep
      then String.rev cur :: Split_go sep s' EmptyString
      else Split_go sep s' (String c cur)
  end.

Definition Split (s : string) (sep : ascii) : list string :=
  Split_go sep s EmptyString.

(** [strings.Join] *)
Fixpoint Join (l : list string) (sep : string) : string :=
  match l with
  | [] => EmptyString
  | [x] => x
  | x :: l' => x +:+ sep +:+ Join l' sep
  end.

Definition lower_byte (c : ascii) : ascii :=
  let n := N_of_ascii c in
  if ((65 <=? n) && (n <=? 90))%N then ascii_of_N (n + 32) else c.

(** [strings.ToLower] on ASCII text (the only text it is applied to here:
    a base32 digest and a target name). *)
Fixpoint ToLower (s : string) : string :=
  match s with
  | EmptyString => EmptyString
  | String c s' => String (lower_byte c) (ToLower s')
  end.

(** [strings.TrimSuffix] *)
Definition TrimSuffix (s suffix : string) : string :=
  if HasSuffix s suffix
  then String.substring 0 (String.length s - String.length suffix) s
  else s.

(** Decimal rendering of a non-negative integer ([%d]). *)
Fixpoint digits (fuel : nat) (n : N) (acc : string) : string :=
  match fuel with
  | O => acc
  | S fuel' =>
      let acc' := String (ascii_of_N (48 + n mod 10)) acc in
      if (n / 10 =? 0)%N then acc' else digits fuel' (n / 10)%N acc'
  end.

Definition itoa (n : N) : string := digits (S (N.to_nat (N.log2 n))) n EmptyString.

(** [%v] of a Go bool *)
Definition of_bool (b : bool) : string := if b then "true" else "false".

End Str.

(** ** [path] : lexical path manipulation (Go standard library) *)

Module Path.

Definition slash : ascii := "/"%char.

(** One step of [Clean] over the components of a path: empty and [.]
    components vanish, [..] removes the component before it, is dropped at
    the root and is kept at the start of a relative path. *)
Fixpoint clean_go (rooted : bool) (comps : list string) (out : list string) : list string :=
  match comps with
  | [] => rev out
  | c :: comps' =>
      if decide (c = "" ∨ c = ".") then clean_go rooted comps' out
      else if decide (c = "..") then
        match out with
        | o :: out' =>
            if decide (o = "..") then clean_go rooted comps' (c :: out)
            else clean_go rooted comps' out'
        | [] =>
            if rooted then clean_go rooted comps' []
            else clean_go rooted comps' [c]
        end
      else clean_go rooted comps' (c :: out)
  end.

(** [path.Clean] *)
Definition Clean (p : string) : string :=
  match p with
  | EmptyString => "."
  | _ =>
      let rooted := Str.HasPrefix p "/" in
      let body := Str.Join (clean_go rooted (Str.Split p slash) []) "/" in
      if rooted then "/" +:+ body
      else match body with EmptyString => "." | _ => body end
  end.

(** [path.Join]: empty elements are ignored, the rest is joined with
    slashes and cleaned; the result is empty when every element is. *)
Definition Join (elem : list string) : string :=
  match filter (λ e, e ≠ "") elem with
  | [] => ""
  | es => Clean (Str.Join es "/")
  end.

Fixpoint strip_trailing_slashes_rev (r : string) : string :=
  match r with
  | String c r' => if Ascii.eqb c slash then strip_trailing_slashes_rev r' else r
  | EmptyString => EmptyString
  end.

(** [path.Base] *)
Definition Base (p : string) : string :=
  match p with
  | EmptyString => "."
  | _ =>
      let p1 := String.rev (strip_trailing_slashes_rev (String.rev p)) in
      let p2 := List.last (Str.Split p1 slash) p1 in
      match p2 with EmptyString => "/" | _ => p2 end
  end.

(** [path.Dir] *)
Definition Dir (p : string) : string :=
  let comps := Str.Split p slash in
  match rev comps with
  | [] | [_] => Clean ""
  | _ :: front => Clean (Str.Join (rev front) "/" +:+ "/")
  end.

End Path.

(** ** [crypto/sha1] : SHA-1 (FIPS 180-1) on 32-bit words held in [Z] *)

Module SHA1.
Local Open Scope Z_scope.

Definition w32 (x : Z) : Z := Z.land x 4294967295.

Definition add32 (x y : Z) : Z := w32 (x + y).

Definition rotl (n : Z) (x : Z) : Z :=
  w32 (Z.lor (Z.shiftl x n) (Z.shiftr x (32 - n))).

Definition not32 (x : Z) : Z := Z.lxor x 4294967295.

(** Big-endian rendering of [x] on [n] bytes. *)
Fixpoint be_bytes (n : nat) (x : Z) : list Z :=
  match n with
  | O => []
  | S n' => Z.land (Z.shiftr x (8 * Z.of_nat n')) 255 :: be_bytes n' x
  end.

(** Message padding: a [0x80] byte, zeros up to 56 modulo 64, then the
    length in bits on eight bytes. *)
Definition pad (msg : list Z) : list Z :=
  let len := Z.of_nat (List.length msg) in
  let zeros := Z.to_nat ((55 - len) mod 64) in
  msg ++ [128] ++ repeat 0 zeros ++ be_bytes 8 (8 * len).

Fixpoint words_of (fuel : nat) (bs : list Z) : list Z :=
  match fuel, bs with
  | S fuel', b0 :: b1 :: b2 :: b3 :: rest =>
      (Z.shiftl b0 24 + Z.shiftl b1 16 + Z.shiftl b2 8 + b3) :: words_of fuel' rest
  | _, _ => []
  end.

(** The message schedule, kept newest-first: [rw] holds [W(t-1), W(t-2), ...]. *)
Fixpoint schedule (n : nat) (rw : list Z) : list Z :=
  match n with
  | O => rw
  | S n' =>
      let x := Z.lxor (Z.lxor (nth 2 rw 0) (nth 7 rw 0))
                      (Z.lxor (nth 13 rw 0) (nth 15 rw 0)) in
      schedule n' (rotl 1 x :: rw)
  end.

Record state := State { ha : Z; hb : Z; hc : Z; hd : Z; he : Z }.

Definition init : state :=
  State 1732584193 4023233417 2562383102 271733878 3285377520.

Definition round (t : nat) (s : state) (wt : Z) : state :=
  let '(State a b c d e) := s in
  let '(f, k) :=
    if (t <? 20)%nat then (Z.lor (Z.land b c) (Z.land (not32 b) d), 1518500249)
    else if (t <? 40)%nat then (Z.lxor (Z.lxor b c) d, 1859775393)
    else if (t <? 60)%nat then
      (Z.lor (Z.lor (Z.land b c) (Z.land b d)) (Z.land c d), 2400959708)
    else (Z.lxor (Z.lxor b c) d, 3395469782) in
  let temp := add32 (add32 (add32 (add32 (rotl 5 a) f) e) k) wt in
  State temp a (rotl 30 b) c d.

Fixpoint rounds (t : nat) (ws : list Z) (s : state) : state :=
  match ws with
  | [] => s
  | wt :: ws' => rounds (S t) ws' (round t s wt)
  end.

Definition block (s : state) (blk : list Z) : state :=
  let w16 := words_of 16 blk in
  let w80 := rev (schedule 64 (rev w16)) in
  let s' := rounds 0 w80 s in
  State (add32 (ha s) (ha s')) (add32 (hb s) (hb s')) (add32 (hc s) (hc s'))
        (add32 (hd s) (hd s')) (add32 (he s) (he s')).

Fixpoint blocks (fuel : nat) (s : state) (bs : list Z) : state :=
  match fuel, bs with
  | S fuel', _ :: _ => blocks fuel' (block s (firstn 64 bs)) (skipn 64 bs)
  | _, _ => s
  end.

(** [sha1.New()], one [Write] of [msg], then [Sum(nil)]: twenty bytes. *)
Definition sum (msg : list Z) : list Z :=
  let p := pad msg in
  let s := blocks (List.length p) init p in
  be_bytes 4 (ha s) ++ be_bytes 4 (hb s) ++ be_bytes 4 (hc s) ++
  be_bytes 4 (hd s) ++ be_bytes 4 (he s).

Definition sum_string (s : string) : list Z :=
  sum (map Z.of_N (Str.bytes s)).

End SHA1.

(** ** [encoding/base32] : the standard alphabet with padding (RFC 4648) *)

Module Base32.

Definition alphabet : string := "ABCDEFGHIJKLMNOPQRSTUVWXYZ234567".

Fixpoint bits_of (n : nat) (x : Z) : list bool :=
  match n with
  | O => []
  | S n' => Z.testbit x (Z.of_nat n') :: bits_of n' x
  end.

Definition value_of (bs : list bool) : nat :=
  fold_left (λ acc (b : bool), 2 * acc + (if b then 1 else 0)) bs 0.

Definition digit (bs : list bool) : ascii :=
  match String.get (value_of bs) alphabet with
  | Some c => c
  | None => "="%char
  end.

(** Groups of five bits, the last one completed with zero bits. *)
Fixpoint quintets (fuel : nat) (bs : list bool) : list (list bool) :=
  match fuel, bs with
  | S fuel', _ :: _ =>
      let g := firstn 5 bs in
      (g ++ repeat false (5 - List.length g)) :: quintets fuel' (skipn 5 bs)
  | _, _ => []
  end.

(** [base32.StdEncoding.EncodeToString] *)
Definition EncodeToString (src : list Z) : string :=
  let bs := concat (map (bits_of 8) src) in
  let ds := map digit (quintets (List.length bs) bs) in
  let padding := (8 - List.length ds mod 8) mod 8 in
  string_of_list_ascii (ds ++ repeat "="%char padding).

End Base32.

(** ** Data model *)

(** [module]: a package reference of a request. *)
Record module := Module_ {
  name : string;
  version : string;
  submodule : string;
}.

Global Instance module_eq_dec : EqDecision module.
Proof. solve_decision. Defined.

(** [moduleSlice] is a Go slice of modules. *)
Abbreviation moduleSlice := (list module).

(** Modelled from the spec: [module.ImportPath] is not part of the sources at
    hand; the glossary gives the import path as [<name>[/<submodule>]]. *)
Definition ImportPath (m : module) : string :=
  if decide (submodule m = "") then name m
  else name m +:+ "/" +:+ submodule m.

(** Three-way comparison of modules by name, then version, then submodule,
    each compared bytewise as Go compares strings. *)
Definition module_compare (a b : module) : comparison :=
  match String.compare (name a) (name b) with
  | Eq =>
      match String.compare (version a) (version b) with
      | Eq => String.compare (submodule a) (submodule b)
      | c => c
      end
  | c => c
  end.

(** Modelled from the spec: [moduleSlice.Less] is not part of the sources at
    hand; the data model requires the order to be total, lexicographic by
    name, then version, then submodule. *)
Definition Less (a b : module) : bool :=
  match module_compare a b with Lt => true | _ => false end.

(** [sort.Sort] (Go standard library) rearranges a slice in place so that no
    element is [Less] than one before it.  It is modelled by insertion into
    an ordered list; [Sort_unique] below shows that with the order above the
    outcome is the same for any sorting procedure. *)
Fixpoint Sort_insert (x : module) (l : moduleSlice) : moduleSlice :=
  match l with
  | [] => [x]
  | y :: l' => if Less y x then y :: Sort_insert x l' else x :: l
  end.

Fixpoint Sort (l : moduleSlice) : moduleSlice :=
  match l with
  | [] => []
  | x :: l' => Sort_insert x (Sort l')
  end.

(** [notAfter a b]: [b] is not [Less] than [a], the relation a sorted slice
    satisfies between each element and the ones after it. *)
Definition notAfter (a b : module) : Prop := Less b a = false.

(** [NpmPackage]: the manifest fields the build consumes. *)
Record NpmPackage := {
  Name : string;
  Version : string;
  Main : string;
  Module : string;
  Type_ : string;
  Types : string;
  Typings : string;
  DefinedExports : gmap string string;
  Dependencies : gmap string string;
  PeerDependencies : gmap string string;
}.

Definition emptyPackage : NpmPackage :=
  {| Name := ""; Version := ""; Main := ""; Module := ""; Type_ := "";
     Types := ""; Typings := ""; DefinedExports := ∅; Dependencies := ∅;
     PeerDependencies := ∅ |}.

(** [ImportMeta]: the manifest (embedded by pointer in Go) with the computed
    export names and the path of the type declarations. *)
Record ImportMeta := {
  Npm : NpmPackage;
  Exports : list string;
  Dts : string;
}.

Definition setMain (v : string) (m : ImportMeta) : ImportMeta :=
  {| Npm := {| Name := Name (Npm m); Version := Version (Npm m); Main := v;
               Module := Module (Npm m); Type_ := Type_ (Npm m);
               Types := Types (Npm m); Typings := Typings (Npm m);
               DefinedExports := DefinedExports (Npm m);
               Dependencies := Dependencies (Npm m);
               PeerDependencies := PeerDependencies (Npm m) |};
     Exports := Exports m; Dts := Dts m |}.

Definition setModule (v : string) (m : ImportMeta) : ImportMeta :=
  {| Npm := {| Name := Name (Npm m); Version := Version (Npm m); Main := Main (Npm m);
               Module := v; Type_ := Type_ (Npm m);
               Types := Types (Npm m); Typings := Typings (Npm m);
               DefinedExports := DefinedExports (Npm m);
               Dependencies := Dependencies (Npm m);
               PeerDependencies := PeerDependencies (Npm m) |};
     Exports := Exports m; Dts := Dts m |}.

Definition setTypes (v : string) (m : ImportMeta) : ImportMeta :=
  {| Npm := {| Name := Name (Npm m); Version := Version (Npm m); Main := Main (Npm m);
               Module := Module (Npm m); Type_ := Type_ (Npm m);
               Types := v; Typings := Typings (Npm m);
               DefinedExports := DefinedExports (Npm m);
               Dependencies := Dependencies (Npm m);
               PeerDependencies := PeerDependencies (Npm m) |};
     Exports := Exports m; Dts := Dts m |}.

Definition setTypings (v : string) (m : ImportMeta) : ImportMeta :=
  {| Npm := {| Name := Name (Npm m); Version := Version (Npm m); Main := Main (Npm m);
               Module := Module (Npm m); Type_ := Type_ (Npm m);
               Types := Types (Npm m); Typings := v;
               DefinedExports := DefinedExports (Npm m);
               Dependencies := Dependencies (Npm m);
               PeerDependencies := PeerDependencies (Npm m) |};
     Exports := Exports m; Dts := Dts m |}.

Definition setExports (v : list string) (m : ImportMeta) : ImportMeta :=
  {| Npm := Npm m; Exports := v; Dts := Dts m |}.

Definition setDts (v : string) (m : ImportMeta) : ImportMeta :=
  {| Npm := Npm m; Exports := Exports m; Dts := v |}.

Record buildOptions := {
  packages : moduleSlice;
  external : moduleSlice;
  target : string;
  isDev : bool;
}.

Record buildResult := {
  buildID : string;
  importMeta : gmap string ImportMeta;
  hasCSS : bool;
}.

(** Go errors.  Two of them are told apart by the build: the store's
    [postdb.ErrNotFound] and the file system's "does not exist"
    ([os.IsNotExist]); the others only carry a message. *)
Inductive error :=
  | ErrNotFound
  | ErrNotExist (path : string)
  | Err (msg : string).

Global Instance error_eq_dec : EqDecision error.
Proof. solve_decision. Defined.

Definition error_Error (e : error) : string :=
  match e with
  | ErrNotFound => "record not found"
  | ErrNotExist p => "open " +:+ p +:+ ": no such file or directory"
  | Err m => m
  end.

Definition buildVersion : N := 1.

Definition jsCopyrightName : string := "esm.sh".

(** ** The world a build runs in

    [db] is the key/value store ([postdb]): a record per alias, each record a
    [q.KV] map from keys to byte strings.  [files] is the file system (path
    to contents) and [dirs] the directories created so far.  [cwd] is the
    current directory of the process, which [os.Chdir] changes and from
    which every relative path is taken. *)
Record World := {
  db : gmap string (gmap string string);
  files : gmap string string;
  dirs : gset string;
  cwd : string;
}.

Definition set_db (d : gmap string (gmap string string)) (w : World) : World :=
  {| db := d; files := files w; dirs := dirs w; cwd := cwd w |}.

Definition set_files (f : gmap string string) (w : World) : World :=
  {| db := db w; files := f; dirs := dirs w; cwd := cwd w |}.

Definition set_dirs (d : gset string) (w : World) : World :=
  {| db := db w; files := files w; dirs := d; cwd := cwd w |}.

Definition set_cwd (d : string) (w : World) : World :=
  {| db := db w; files := files w; dirs := dirs w; cwd := d |}.

(** The file or directory a path names: an absolute path names itself, a
    relative one is joined to the current directory of the process. *)
Definition resolve (w : World) (p : string) : string :=
  if Str.HasPrefix p "/" then p else Path.Join [cwd w; p].

(** The four places where [build] calls the store. *)
Inductive dbCall :=
  | GetRecord
  | DeleteUndecodable
  | DeleteOrphan
  | PutRecord.

(** ** The bundler interface ([esbuild/pkg/api]) *)

Record OnResolveArgs := { Path_ : string; Importer : string }.

Record OnResolveResult := { ResolvedPath : string; External : bool }.

Record OutputFile := { FilePath : string; Contents : string }.

Record BuildResult := {
  OutputFiles : list OutputFile;
  Warnings : list string;
  Errors : list string;
}.

Record BuildOptions := {
  StdinContents : string;
  ResolveDir : string;
  Target : string;
  Minify : bool;
  Define : list (string * string);
  ResolveFilter : string;
}.

(** ** Collaborators

    Everything [build] calls that lives outside [build.go]: helpers of the
    repository that are not part of the sources at hand, the registry client,
    the installer, the module-shape probers, the bundler, and the outcomes of
    store and file-system calls that the build cannot influence. *)
Class Collaborators := {
  (** [moduleSlice.String] *)
  moduleSlice_String : moduleSlice → string;
  (** the message of the error a store call fails with, if it fails *)
  dbFault : dbCall → option string;
  (** [json.Unmarshal] into the import-meta map: what was decoded, and the
      decoding error if there is one *)
  json_Unmarshal : string → gmap string ImportMeta * option error;
  (** [utils.MustEncodeJSON] *)
  MustEncodeJSON : gmap string ImportMeta → string;
  (** [nodeEnv.getPackageInfo name version] *)
  getPackageInfo : string → string → error + NpmPackage;
  (** [os.TempDir()], the directory of the system for temporary files,
      which is an absolute path ([/tmp] unless the environment names
      another), and the random suffix [rs.Hex.String(16)] *)
  TempDir : string;
  TempDir_rooted : Str.HasPrefix TempDir "/" = true;
  randomHex : string;
  (** failure of [os.Chdir], [os.Create] and [io.Copy] on a path, if any *)
  chdirFault : string → option error;
  createFault : string → option error;
  copyFault : string → option error;
  (** [yarnAdd]: its error if any, and the files it leaves in the current
      directory (paths relative to it) *)
  yarnAdd : list string → option error * list (string * string);
  (** JSON decoding of a manifest, the second half of [utils.ParseJSONFile] *)
  parseManifest : string → error + NpmPackage;
  (** [parseESModuleExports buildDir importPath] and
      [parseCJSModuleExports buildDir importPath]; both read the installed tree *)
  parseESModuleExports : gmap string string → string → string → list string * bool * option error;
  parseCJSModuleExports : gmap string string → string → string → error + list string;
  (** [copyDTS external hostname nodeModulesDir saveDir types]: its error if
      any, and the declaration files it writes *)
  copyDTS : gmap string string → moduleSlice → string → string → string → string →
            option error * list (string * string);
  (** [ensureExt path ext] *)
  ensureExt : string → string → string;
  (** the tables [builtInNodeModules], [denoStdNodeModules] (their keys, in
      iteration order) and [polyfilledBuiltInNodeModules] *)
  builtInNodeModules : list string;
  denoStdNodeModules : list string;
  polyfilledBuiltInNodeModules : gmap string string;
  (** whether [embedFS.Open] finds a file *)
  embedFS_Open : string → option error;
  (** the line terminator [EOL] *)
  EOL : string;
  (** [api.Build]: given the options and the resolve callback of the
      plugin, the result and the resolve calls made, in order *)
  api_Build : BuildOptions → (OnResolveArgs → OnResolveResult * option error) →
              BuildResult * list OnResolveArgs;
}.

(** ** Fingerprint (build.go, lines 74-95) *)

Section Fingerprint.
Context `{Collaborators}.

Definition singleBuildID (pkg : module) (options : buildOptions) : string :=
  let filename := Path.Base (name pkg) in
  let target :=
    match external options with
    | [] => target options
    | _ => "external=" +:+
           Str.ReplaceAll (moduleSlice_String (external options)) "/" "_" +:+
           "/" +:+ target options
    end in
  let filename := if decide (submodule pkg ≠ "") then submodule pkg else filename in
  let filename := if isDev options then filename +:+ ".development" else filename in
  "v" +:+ Str.itoa buildVersion +:+ "/" +:+ name pkg +:+ "@" +:+ version pkg +:+
  "/" +:+ target +:+ "/" +:+ filename.

(** The string written to the hash in the multi-package case; the slices
    have been sorted by then. *)
Definition canonical (options : buildOptions) : string :=
  "v" +:+ Str.itoa buildVersion +:+ "/" +:+ moduleSlice_String (packages options) +:+
  "/" +:+ moduleSlice_String (external options) +:+ "/" +:+ target options +:+
  "/" +:+ Str.of_bool (isDev options).

Definition bundleBuildID (options : buildOptions) : string :=
  "bundle-" +:+ Str.ToLower (Base32.EncodeToString (SHA1.sum_string (canonical options))).

(** The two [sort.Sort] calls reorder the slices of [options] in place. *)
Definition sortOptions (options : buildOptions) : buildOptions :=
  {| packages := Sort (packages options); external := Sort (external options);
     target := target options; isDev := isDev options |}.

(** The build identifier, together with the options as the rest of the
    build sees them.  The package list is not empty here. *)
Definition fingerprint (options : buildOptions) : string * buildOptions :=
  match packages options with
  | [pkg] => (singleBuildID pkg options, options)
  | _ => let options' := sortOptions options in (bundleBuildID options', options')
  end.

End Fingerprint.

(** ** The single-package identifier in the words of the specification

    [v<BV>/<name>@<version>/<targetSegment>/<filename>], to be compared with
    what [fingerprint] computes. *)

Section SpecWording.
Context `{Collaborators}.

(** The external refs joined, with every slash replaced by an underscore. *)
Definition spec_joined (options : buildOptions) : string :=
  Str.ReplaceAll (moduleSlice_String (external options)) "/" "_".

(** The target, or [external=<joined>/<target>] when externals are present. *)
Definition spec_targetSegment (options : buildOptions) : string :=
  if decide (external options = []) then target options
  else "external=" +:+ spec_joined options +:+ "/" +:+ target options.

(** The submodule when present, else the base name of the package, with
    [.development] appended in development mode. *)
Definition spec_filename (pkg : module) (options : buildOptions) : string :=
  (if decide (submodule pkg = "") then Path.Base (name pkg) else submodule pkg) +:+
  (if isDev options then ".development" else "").

Definition spec_singleBuildID (pkg : module) (options : buildOptions) : string :=
  "v" +:+ Str.itoa buildVersion +:+ "/" +:+ name pkg +:+ "@" +:+ version pkg +:+ "/" +:+
  spec_targetSegment options +:+ "/" +:+ spec_filename pkg options.

End SpecWording.

(** ** Store and file-system primitives *)

Section Primitives.
Context `{Collaborators}.

(** [p.KV.Get key]: the bytes under [key], empty when there are none. *)
Definition KV_Get (kv : gmap string string) (key : string) : string :=
  default "" (kv !! key).

(** [db.Get(q.Alias(id), ...)]: the record, [postdb.ErrNotFound] when there
    is none, or the error of a store that fails. *)
Definition db_Get (id : string) (w : World) : error + gmap string string :=
  match dbFault GetRecord with
  | Some msg => inl (Err msg)
  | None =>
      match db w !! id with
      | Some kv => inr kv
      | None => inl ErrNotFound
      end
  end.

(** [db.Delete(q.Alias(id))]: a failing call leaves the store as it was. *)
Definition db_Delete (call : dbCall) (id : string) (w : World) : World * option error :=
  match dbFault call with
  | Some msg => (w, Some (Err msg))
  | None => (set_db (delete id (db w)) w, None)
  end.

(** [db.Put(q.Alias(id), q.Tags("build"), kv)] *)
Definition db_Put (id : string) (kv : gmap string string) (w : World) : World * option error :=
  match dbFault PutRecord with
  | Some msg => (w, Some (Err msg))
  | None => (set_db (<[id := kv]> (db w)) w, None)
  end.

(** Modelled from the spec: [fileExists] is not part of the sources at hand;
    a sidecar exists when there is a file at its path. *)
Definition fileExists (w : World) (p : string) : bool :=
  bool_decide (is_Some (files w !! resolve w p)).

(** Modelled from the spec: [ensureDir] is not part of the sources at hand;
    the working directory is created under the system temp directory. *)
Definition ensureDir (d : string) (w : World) : World :=
  set_dirs ({[resolve w d]} ∪ dirs w) w.

(** Whether [p] is [d] or lies under it. *)
Definition under (d p : string) : bool :=
  bool_decide (p = d) || Str.HasPrefix p (d +:+ "/").

(** [os.RemoveAll d]: [d] and everything under it is gone. *)
Definition RemoveAll (d : string) (w : World) : World :=
  let d := resolve w d in
  {| db := db w;
     files := filter (λ kv, under d kv.1 = false) (files w);
     dirs := filter (λ p, under d p = false) (dirs w);
     cwd := cwd w |}.

(** [os.Chdir d]: on success the current directory is [d]. *)
Definition Chdir (d : string) (w : World) : World * option error :=
  match chdirFault d with
  | Some e => (w, Some e)
  | None => (set_cwd (resolve w d) w, None)
  end.

(** [utils.ParseJSONFile path]: read the file, then decode it. *)
Definition ParseJSONFile (w : World) (p : string) : error + NpmPackage :=
  match files w !! resolve w p with
  | None => inl (ErrNotExist p)
  | Some content => parseManifest content
  end.

(** [os.IsNotExist] *)
Definition IsNotExist (e : error) : bool :=
  match e with ErrNotExist _ => true | _ => false end.

(** [os.Create path] followed by [io.Copy] of [content] into it.  The file
    is there once it has been created, even if the copy then fails. *)
Definition createAndCopy (p content : string) (w : World) : World * option error :=
  match createFault p with
  | Some e => (w, Some e)
  | None =>
      match copyFault p with
      | Some e => (set_files (<[resolve w p := ""]> (files w)) w, Some e)
      | None => (set_files (<[resolve w p := content]> (files w)) w, None)
      end
  end.

(** Files written by a collaborator that runs in the current directory,
    each at a path relative to it. *)
Definition writeHere (l : list (string * string)) (w : World) : World :=
  set_files (foldr (λ pc fs, <[Path.Join [cwd w; pc.1] := pc.2]> fs) (files w) l) w.

(** Files written by a collaborator, each at the path it names. *)
Definition writeFiles (l : list (string * string)) (w : World) : World :=
  set_files (foldr (λ pc fs, <[resolve w pc.1 := pc.2]> fs) (files w) l) w.

End Primitives.

(** ** Cache lookup (build.go, lines 97-123) *)

(** How the lookup leaves [build]: by one of its [return] statements, with
    the result and error as they are then, or by falling through to the
    build proper. *)
Inductive lookupResult :=
  | Returned (ret : buildResult) (err : option error)
  | Proceed (ret : buildResult).

Section Lookup.
Context `{Collaborators}.

Definition cssBit : string := String "001"%char "".
Definition noCssBit : string := String "000"%char "".

Definition sidecar (storageDir id ext : string) : string :=
  Path.Join [storageDir; "builds"; id +:+ ext].

Definition lookup (storageDir id : string) (w : World) : World * lookupResult :=
  let ret := {| buildID := id; importMeta := ∅; hasCSS := false |} in
  match db_Get id w with
  | inr kv =>
      let '(decoded, uerr) := json_Unmarshal (KV_Get kv "importMeta") in
      let ret := {| buildID := id; importMeta := decoded; hasCSS := false |} in
      let '(w, derr) :=
        match uerr with
        | Some _ => db_Delete DeleteUndecodable id w
        | None => (w, None)
        end in
      match derr with
      | Some e => (w, Returned ret (Some e))
      | None =>
          let ret :=
            if decide (KV_Get kv "css" = cssBit)
            then {| buildID := id; importMeta := decoded;
                    hasCSS := fileExists w (sidecar storageDir id ".css") |}
            else ret in
          if fileExists w (sidecar storageDir id ".js")
          then (w, Returned ret None)
          else
            match db_Delete DeleteOrphan id w with
            | (w, Some e) => (w, Returned ret (Some e))
            | (w, None) => (w, Proceed ret)
            end
      end
  | inl ErrNotFound => (w, Proceed ret)
  | inl e => (w, Returned ret (Some e))
  end.

End Lookup.

(** ** The build proper: a state-and-error monad over the world

    A step either yields a value, fails with a Go error (the [return] that
    follows [if err != nil]), or runs out of the fuel that bounds the bundler
    retry loop. *)
Inductive outcome (A : Type) : Type :=
  | Ok (a : A)
  | Failed (e : error)
  | OutOfFuel.

Arguments Ok {A} a.
Arguments Failed {A} e.
Arguments OutOfFuel {A}.

Definition M (A : Type) : Type := World → World * outcome A.

Definition pure {A : Type} (a : A) : M A := λ w, (w, Ok a).

Definition fail {A : Type} (e : error) : M A := λ w, (w, Failed e).

Definition bind {A B : Type} (m : M A) (k : A → M B) : M B :=
  λ w, match m w with
       | (w', Ok a) => k a w'
       | (w', Failed e) => (w', Failed e)
       | (w', OutOfFuel) => (w', OutOfFuel)
       end.

Notation "'do' x <- m ; k" := (bind m (λ x, k))
  (at level 10, x pattern, m at level 100, k at level 200).

(** Reading the world, changing it, and lifting a Go [(value, error)] pair. *)
Definition ask {A : Type} (f : World → A) : M A := λ w, (w, Ok (f w)).

Definition getWorld : M World := λ w, (w, Ok w).

Definition update (f : World → World) : M unit := λ w, (f w, Ok tt).

Definition lift {A : Type} (r : error + A) : M A :=
  match r with
  | inl e => fail e
  | inr a => pure a
  end.

Definition check (e : option error) : M unit :=
  match e with
  | Some e => fail e
  | None => pure tt
  end.

(** A world-changing call that reports an optional error. *)
Definition effect (f : World → World * option error) : M unit :=
  λ w, match f w with
       | (w', Some e) => (w', Failed e)
       | (w', None) => (w', Ok tt)
       end.

(** [for _, x := range l { ... }] threading an accumulator. *)
Fixpoint forM {A S : Type} (l : list A) (s : S) (body : A → S → M S) : M S :=
  match l with
  | [] => pure s
  | x :: l' => do s' <- body x s; forM l' s' body
  end.

(** ** Metadata resolution (build.go, lines 129-209) *)

Section Metadata.
Context `{Collaborators}.

(** The three manifest rules of lines 163-174, in the order of the source. *)
Definition moduleFromType (meta : ImportMeta) : ImportMeta :=
  if decide (Module (Npm meta) = "" ∧ Type_ (Npm meta) = "module")
  then setModule (Main (Npm meta)) meta else meta.

Definition moduleFromExports (meta : ImportMeta) : ImportMeta :=
  let imp := default "" (DefinedExports (Npm meta) !! "import") in
  if decide (Module (Npm meta) = "" ∧ imp ≠ "")
  then setModule imp meta else meta.

Definition applySubmodule (pkg : module) (meta : ImportMeta) : ImportMeta :=
  if decide (submodule pkg ≠ "")
  then setTypings "" (setTypes "" (setModule "" (setMain (submodule pkg) meta)))
  else meta.

Definition manifestRules (pkg : module) (meta : ImportMeta) : ImportMeta :=
  applySubmodule pkg (moduleFromExports (moduleFromType meta)).

(** Lines 146-151: the peers a manifest declares are recorded, later
    packages overwriting earlier ones; [react] as a peer of [react-dom] is
    pinned to the version of [react-dom]. *)
Definition recordPeers (p : NpmPackage) (peerDependencies : gmap string string)
  : gmap string string :=
  map_imap (λ peer v,
      Some (if decide (peer = "react" ∧ Name p = "react-dom") then Version p else v))
    (PeerDependencies p) ∪ peerDependencies.

(** Lines 152-162: when the manifest declares no types and the package is
    not scoped, [@types/<name>] is looked up and installed if it is usable;
    "not found" is not an error. *)
Definition typesPackage (pkg : module) (p : NpmPackage) (installList : list string)
  : M (list string) :=
  if decide (Types p = "" ∧ Typings p = "" ∧ Str.HasPrefix (name pkg) "@" = false) then
    match getPackageInfo ("@types/" +:+ name pkg) "latest" with
    | inr info =>
        if decide (Types info ≠ "" ∨ Typings info ≠ "" ∨ Main info ≠ "")
        then pure (installList ++ [Name info +:+ "@" +:+ Version info])
        else pure installList
    | inl e =>
        if decide (error_Error e ≠ "npm: package '@types/" +:+ name pkg +:+ "' not found")
        then fail e
        else pure installList
    end
  else pure installList.

(** The state of the loop of lines 137-176. *)
Record metaState := {
  installList : list string;
  metas : gmap string ImportMeta;
  peerDependencies : gmap string string;
}.

Definition collectOne (pkg : module) (st : metaState) : M metaState :=
  do p <- lift (getPackageInfo (name pkg) (version pkg));
  let meta := {| Npm := p; Exports := []; Dts := "" |} in
  let peers := recordPeers p (peerDependencies st) in
  do il <- typesPackage pkg p (installList st);
  pure {| installList := il;
         metas := <[ImportPath pkg := manifestRules pkg meta]> (metas st);
         peerDependencies := peers |}.

Definition collectMeta (options : buildOptions) : M metaState :=
  let il := map (λ pkg, name pkg +:+ "@" +:+ version pkg) (packages options) in
  forM (packages options)
       {| installList := il; metas := ∅; peerDependencies := ∅ |}
       collectOne.

(** Lines 180-196: is the peer [peer] supplied by the request itself? *)
Definition isRequested (options : buildOptions) (peer : string) : bool :=
  existsb (λ pkg, bool_decide (name pkg = peer)) (packages options).

Definition isDependency (metas : gmap string ImportMeta) (peer : string) : bool :=
  existsb (λ km, existsb (λ dv, bool_decide (dv.1 = peer))
                         (map_to_list (Dependencies (Npm km.2))))
          (map_to_list metas).

Definition isTruePeer (options : buildOptions) (metas : gmap string ImportMeta)
    (peer : string) : bool :=
  if isRequested options peer then false
  else negb (isDependency metas peer).

(** Modelled from the spec: [moduleSlice.Get] is not part of the sources at
    hand; an external override is found by name. *)
Definition moduleSlice_Get (a : moduleSlice) (n : string) : option module :=
  List.find (λ m, bool_decide (name m = n)) a.

(** Lines 201-206: the version of a true peer is that of the first external
    override of the same name, if there is one. *)
Definition peerVersion (options : buildOptions) (peer v : string) : string :=
  match List.find (λ m, bool_decide (name m = peer)) (external options) with
  | Some m => version m
  | None => v
  end.

Definition namedPackage (n : string) : NpmPackage :=
  {| Name := n; Version := ""; Main := ""; Module := ""; Type_ := "";
     Types := ""; Typings := ""; DefinedExports := ∅; Dependencies := ∅;
     PeerDependencies := ∅ |}.

(** Lines 178-209, over the collected peers in the iteration order of the map. *)
Definition classifyPeers (options : buildOptions) (metas : gmap string ImportMeta)
    (peers : list (string * string)) (installList : list string)
  : gmap string NpmPackage * list string :=
  fold_left (λ acc nv,
      if isTruePeer options metas nv.1
      then (<[nv.1 := namedPackage nv.1]> acc.1,
            acc.2 ++ [nv.1 +:+ "@" +:+ peerVersion options nv.1 nv.2])
      else acc)
    peers (∅, installList).

End Metadata.

(** ** Installation and module shapes (build.go, lines 213-292) *)

Section Install.
Context `{Collaborators}.

Definition buildDirOf : string := Path.Join [TempDir; "esmd-build"; randomHex].

Definition nodeModulesOf (buildDir : string) : string :=
  Path.Join [buildDir; "node_modules"].

(** Lines 218-226: change into the working directory and run the installer
    there. *)
Definition install (buildDir : string) (installList : list string) : M unit :=
  do _ <- effect (Chdir buildDir);
  let '(err, tree) := yarnAdd installList in
  do _ <- update (writeHere tree);
  check err.

(** The entry of the import-meta map for a requested package.  In Go the
    map holds pointers and every requested package has its entry; a missing
    one would be a nil dereference. *)
Definition metaOf (metas : gmap string ImportMeta) (pkg : module) : M ImportMeta :=
  match metas !! ImportPath pkg with
  | Some meta => pure meta
  | None => fail (Err "invalid memory address or nil pointer dereference")
  end.

(** Lines 245-258: the manifest [p] found in the directory of the submodule
    overrides what it declares. *)
Definition submoduleManifest (pkg : module) (p : NpmPackage) (meta : ImportMeta)
  : ImportMeta :=
  let sub := submodule pkg in
  let meta := if decide (Main p ≠ "")
              then setMain (Path.Join [sub; Main p]) meta else meta in
  let meta := if decide (Module p ≠ "")
              then setModule (Path.Join [sub; Module p]) meta
              else if decide (Type_ (Npm meta) = "module" ∧ Main p ≠ "")
                   then setModule (Path.Join [sub; Main p]) meta else meta in
  let meta := if decide (Types p ≠ "")
              then setTypes (Path.Join [sub; Types p]) meta else meta in
  let meta := if decide (Typings p ≠ "")
              then setTypings (Path.Join [sub; Typings p]) meta else meta in
  meta.

(** Lines 273-291: probe the declared module as an ES module; fall back to
    CommonJS, clearing a module that turned out not to be one. *)
Definition probeEntry (buildDir : string) (pkg : module) (meta : ImportMeta)
  : M ImportMeta :=
  do fs <- ask files;
  do meta' <-
    (if decide (Module (Npm meta) ≠ "") then
       let '(exports, esm, e) :=
         parseESModuleExports fs buildDir (Path.Join [Name (Npm meta); Module (Npm meta)]) in
       do _ <- check e;
       if esm then pure (inl (setExports exports meta))
       else pure (inr (setModule "" meta))
     else pure (inr meta));
  match meta' with
  | inl done => pure done
  | inr meta =>
      do exports <- lift (parseCJSModuleExports fs buildDir (ImportPath pkg));
      pure (setExports exports meta)
  end.

(** Lines 233-292, one package. *)
Definition probeOne (buildDir : string) (pkg : module) (metas : gmap string ImportMeta)
  : M (gmap string ImportMeta) :=
  let importPath := ImportPath pkg in
  do meta <- metaOf metas pkg;
  let pkgDir := Path.Join [nodeModulesOf buildDir; Name (Npm meta)] in
  do fs <- ask files;
  do w <- getWorld;
  do meta' <-
    (if decide (submodule pkg ≠ "") then
       let manifest := Path.Join [pkgDir; submodule pkg; "package.json"] in
       if fileExists w manifest then
         do p <- lift (ParseJSONFile w manifest);
         pure (inr (submoduleManifest pkg p meta))
       else
         let '(exports, esm, e) :=
           parseESModuleExports fs buildDir (Path.Join [Name (Npm meta); submodule pkg]) in
         do _ <- check e;
         if esm then pure (inl (setExports exports (setModule (submodule pkg) meta)))
         else pure (inr meta)
     else pure (inr meta));
  do final <-
    match meta' with
    | inl done => pure done
    | inr meta => probeEntry buildDir pkg meta
    end;
  pure (<[importPath := final]> metas).

Definition probeAll (buildDir : string) (options : buildOptions)
    (metas : gmap string ImportMeta) : M (gmap string ImportMeta) :=
  forM (packages options) metas (probeOne buildDir).

End Install.

(** ** Types discovery (build.go, lines 294-337 and [getTypesPath]) *)

Section TypesDiscovery.
Context `{Collaborators}.

Definition getTypesPath (w : World) (nodeModulesDir : string) (p : NpmPackage)
    (subpath : string) : string :=
  let types :=
    if decide (subpath ≠ "") then
      let subpkgJSONFile := Path.Join [nodeModulesDir; Name p; subpath; "package.json"] in
      let subtypes :=
        if fileExists w subpkgJSONFile then
          match ParseJSONFile w subpkgJSONFile with
          | inr subpkg =>
              if decide (Types subpkg ≠ "") then Types subpkg
              else if decide (Typings subpkg ≠ "") then Typings subpkg
              else ""
          | inl _ => ""
          end
        else "" in
      if decide (subtypes ≠ "") then Path.Join ["/"; subpath; subtypes] else subpath
    else
      if decide (Types p ≠ "") then Types p
      else if decide (Typings p ≠ "") then Typings p
      else if decide (Main p ≠ "") then Str.TrimSuffix (Main p) ".js"
      else "index.d.ts" in
  Name p +:+ "@" +:+ Version p +:+ ensureExt (Path.Join ["/"; types]) ".d.ts".

(** Lines 297-324: where the declarations of a package are, if anywhere. *)
Definition findTypes (w : World) (nodeModulesDir : string) (pkg : module)
    (meta : ImportMeta) : error + string :=
  let nv := Name (Npm meta) +:+ "@" +:+ Version (Npm meta) in
  if decide (Types (Npm meta) ≠ "" ∨ Typings (Npm meta) ≠ "") then
    inr (getTypesPath w nodeModulesDir (Npm meta) "")
  else if decide (submodule pkg = "") then
    if fileExists w (Path.Join [nodeModulesDir; name pkg; "index.d.ts"]) then
      inr (nv +:+ "/" +:+ "index.d.ts")
    else if negb (Str.HasPrefix (name pkg) "@") then
      match ParseJSONFile w (Path.Join [nodeModulesDir; "@types"; name pkg; "package.json"]) with
      | inr info => inr (getTypesPath w nodeModulesDir info "")
      | inl e => if IsNotExist e then inr "" else inl e
      end
    else inr ""
  else
    let sub := submodule pkg in
    if fileExists w (Path.Join [nodeModulesDir; name pkg; sub; "index.d.ts"]) then
      inr (nv +:+ "/" +:+ Path.Join [sub; "index.d.ts"])
    else if fileExists w (Path.Join [nodeModulesDir; name pkg; ensureExt sub ".d.ts"]) then
      inr (nv +:+ "/" +:+ ensureExt sub ".d.ts")
    else if fileExists w (Path.Join [nodeModulesDir; "@types"; name pkg; sub; "index.d.ts"]) then
      inr ("@types/" +:+ nv +:+ "/" +:+ Path.Join [sub; "index.d.ts"])
    else if fileExists w (Path.Join [nodeModulesDir; "@types"; name pkg; ensureExt sub ".d.ts"]) then
      inr ("@types/" +:+ nv +:+ "/" +:+ ensureExt sub ".d.ts")
    else inr "".

Definition typesOne (storageDir hostname buildDir : string) (options : buildOptions)
    (pkg : module) (metas : gmap string ImportMeta) : M (gmap string ImportMeta) :=
  do meta <- metaOf metas pkg;
  do w <- getWorld;
  do types <- lift (findTypes w (nodeModulesOf buildDir) pkg meta);
  if decide (types ≠ "") then
    let saveDir := Path.Join [storageDir; "types"; "v" +:+ Str.itoa buildVersion] in
    let '(err, written) :=
      copyDTS (files w) (external options) hostname (nodeModulesOf buildDir) saveDir types in
    do _ <- update (writeFiles written);
    match err with
    | Some e => fail (Err ("copyDTS(" +:+ types +:+ "): " +:+ error_Error e))
    | None => pure (<[ImportPath pkg := setDts ("/" +:+ types) meta]> metas)
    end
  else pure metas.

Definition typesAll (storageDir hostname buildDir : string) (options : buildOptions)
    (metas : gmap string ImportMeta) : M (gmap string ImportMeta) :=
  forM (packages options) metas (typesOne storageDir hostname buildDir options).

End TypesDiscovery.

(** ** Externals (build.go, lines 339-375) *)

Section Externals.
Context `{Collaborators}.

(** Lines 341-350: the manifest of every true peer is read from the
    installed tree, and the peer becomes an external. *)
Definition peerOne (buildDir : string) (peer : string * NpmPackage)
    (st : gmap string NpmPackage * list string) : M (gmap string NpmPackage * list string) :=
  do w <- getWorld;
  do p <- lift (ParseJSONFile w (Path.Join [nodeModulesOf buildDir; peer.1; "package.json"]));
  pure (<[peer.1 := p]> st.1, st.2 ++ [peer.1]).

Definition notRequested (options : buildOptions) (n : string) : bool :=
  negb (existsb (λ pkg, bool_decide (name pkg = n)) (packages options)).

Definition computeExternals (buildDir : string) (options : buildOptions)
    (peerPackages : gmap string NpmPackage) : M (gmap string NpmPackage * list string) :=
  do st <- forM (map_to_list peerPackages) (peerPackages, []) (peerOne buildDir);
  let builtins := List.filter (notRequested options) builtInNodeModules in
  let overrides := List.filter (notRequested options) (map name (external options)) in
  pure (st.1, st.2 ++ builtins ++ overrides).

End Externals.

(** ** Entry synthesis and bundling (build.go, lines 377-609) *)

(** The double quote, as a byte and as a one-byte string. *)
Definition dquote : ascii := "034"%char.
Definition dq : string := String dquote "".

(** [identify] *)
Fixpoint identify (importPath : string) : string :=
  match importPath with
  | EmptyString => EmptyString
  | String c rest =>
      String (if decide (c = "/" ∨ c = "-" ∨ c = "@" ∨ c = ".")%char then "_"%char else c)
             (identify rest)
  end.

(** [url.QueryEscape] (Go standard library) *)
Definition hexDigit (n : N) : ascii :=
  if (n <? 10)%N then ascii_of_N (48 + n) else ascii_of_N (55 + n).

Definition unreserved (c : ascii) : bool :=
  let n := N_of_ascii c in
  ((48 <=? n) && (n <=? 57) || (65 <=? n) && (n <=? 90) || (97 <=? n) && (n <=? 122))%N
  || bool_decide (c = "-" ∨ c = "_" ∨ c = "." ∨ c = "~")%char.

Fixpoint QueryEscape (s : string) : string :=
  match s with
  | EmptyString => EmptyString
  | String c rest =>
      if unreserved c then String c (QueryEscape rest)
      else if decide (c = " "%char) then String "+"%char (QueryEscape rest)
      else let n := N_of_ascii c in
           String "%"%char (String (hexDigit (n / 16)) (String (hexDigit (n mod 16))
                  (QueryEscape rest)))
  end.

(** [utils.SplitByFirstByte], first component *)
Definition beforeFirstByte (s : string) (c : ascii) : string :=
  hd s (Str.Split s c).

Section Bundle.
Context `{Collaborators}.

Definition envOf (options : buildOptions) : string :=
  if isDev options then "development" else "production".

(** Lines 383-391: the export names of the single package, without
    [default] and [import]. *)
Definition namedExports (meta : ImportMeta) : list string :=
  List.filter (λ n, negb (bool_decide (n = "default")) && negb (bool_decide (n = "import")))
              (Exports meta).

Definition hasDefault (meta : ImportMeta) : bool :=
  existsb (λ n, bool_decide (n = "default")) (Exports meta).

Definition emptyMeta : ImportMeta := {| Npm := emptyPackage; Exports := []; Dts := "" |}.

(** Lines 378-406 *)
Definition singleStub (pkg : module) (meta : ImportMeta) : string :=
  let importPath := ImportPath pkg in
  let importIdentifier := "__" +:+ identify importPath in
  let exports := namedExports meta in
  if decide (Module (Npm meta) ≠ "") then
    (if decide (exports ≠ [])
     then "export * from " +:+ dq +:+ importPath +:+ dq +:+ ";" +:+ EOL else "") +:+
    (if hasDefault meta
     then "export { default } from " +:+ dq +:+ importPath +:+ dq +:+ ";" else "")
  else
    "import " +:+ importIdentifier +:+ "_default from " +:+ dq +:+ importPath +:+ dq +:+ ";" +:+ EOL +:+
    (if decide (exports ≠ [])
     then "import * as " +:+ importIdentifier +:+ "_star from " +:+ dq +:+ importPath +:+ dq +:+ ";" +:+ EOL +:+
          "export const { " +:+ Str.Join exports "," +:+ " } = " +:+ importIdentifier +:+ "_star;" +:+ EOL
     else "") +:+
    "export default " +:+ importIdentifier +:+ "_default;".

(** Lines 408-434, one package of several *)
Definition multiStub (pkg : module) (meta : ImportMeta) : string :=
  let importPath := ImportPath pkg in
  let importIdentifier := identify importPath in
  if decide (Module (Npm meta) ≠ "") then
    "export * as " +:+ importIdentifier +:+ "_star from " +:+ dq +:+ importPath +:+ dq +:+ ";" +:+ EOL +:+
    (if hasDefault meta
     then "export {default as " +:+ importIdentifier +:+ "_default} from " +:+ dq +:+ importPath +:+ dq +:+ ";"
     else "")
  else if decide (Main (Npm meta) ≠ "") then
    (if hasDefault meta
     then "import " +:+ importIdentifier +:+ " from " +:+ dq +:+ importPath +:+ dq +:+ ";" +:+ EOL
     else "import * as " +:+ importIdentifier +:+ " from " +:+ dq +:+ importPath +:+ dq +:+ ";" +:+ EOL) +:+
    "export {" +:+ importIdentifier +:+ " as " +:+ importIdentifier +:+ "_default};"
  else
    "export const " +:+ importIdentifier +:+ "_default = null;".

Definition entryStub (options : buildOptions) (metas : gmap string ImportMeta) : string :=
  let metaFor pkg := default emptyMeta (metas !! ImportPath pkg) in
  match packages options with
  | [pkg] => singleStub pkg (metaFor pkg)
  | pkgs => fold_left (λ buf pkg, buf +:+ multiStub pkg (metaFor pkg)) pkgs ""
  end.

(** Lines 442-458 *)
Definition defineTable (hostname id : string) (options : buildOptions)
  : list (string * string) :=
  let env := dq +:+ envOf options +:+ dq in
  [ ("__filename", dq +:+ "https://" +:+ hostname +:+ "/" +:+ id +:+ ".js" +:+ dq);
    ("__dirname", dq +:+ "https://" +:+ hostname +:+ "/" +:+ Path.Dir id +:+ dq);
    ("process", "__process$");
    ("Buffer", "__Buffer$");
    ("setImmediate", "__setImmediate$");
    ("clearImmediate", "clearTimeout");
    ("require.resolve", "__rResolve$");
    ("process.env.NODE_ENV", env);
    ("global", "__global$");
    ("global.process", "__process$");
    ("global.Buffer", "__Buffer$");
    ("global.setImmediate", "__setImmediate$");
    ("global.clearImmediate", "clearTimeout");
    ("global.require.resolve", "__rResolve$");
    ("global.process.env.NODE_ENV", env) ].

(** What the resolve callback needs from the build. *)
Record resolveContext := {
  rcWorld : World;
  rcHostname : string;
  rcOptions : buildOptions;
  rcMetas : gmap string ImportMeta;
  rcBuildDir : string;
  rcPeers : gmap string NpmPackage;
}.

Definition cdnPath (packageName v tgt file : string) : string :=
  "/v" +:+ Str.itoa buildVersion +:+ "/" +:+ packageName +:+ "@" +:+ v +:+ "/" +:+
  tgt +:+ "/" +:+ file.

(** The callback of the [rewrite-external-path] plugin (lines 480-578): its
    result, and the entry it sets in [peerModulesForCommonjs], if any. *)
Definition onResolve (c : resolveContext) (args : OnResolveArgs)
  : (OnResolveResult * option error) * option (string * string) :=
  let options := rcOptions c in
  let nodeModulesDir := nodeModulesOf (rcBuildDir c) in
  let own :=
    match packages options with
    | [pkg] => if decide (Path_ args = ImportPath pkg) then Some pkg else None
    | _ => None
    end in
  match own with
  | Some pkg =>
      let meta := default emptyMeta (rcMetas c !! ImportPath pkg) in
      let p1 := Path.Join [nodeModulesDir; Name (Npm meta); ensureExt (Main (Npm meta)) ".js"] in
      let resolvePath :=
        if fileExists (rcWorld c) p1 then p1
        else Path.Join [nodeModulesDir; Name (Npm meta); Main (Npm meta); "index.js"] in
      if fileExists (rcWorld c) resolvePath
      then (({| ResolvedPath := resolvePath; External := false |}, None), None)
      else (({| ResolvedPath := Path_ args; External := true |}, None), None)
  | None =>
      let known : option string :=
        match moduleSlice_Get (external options) (Path_ args) with
        | Some m => Some (version m)
        | None =>
            match rcPeers c !! Path_ args with
            | Some p => Some (Version p)
            | None => None
            end
        end in
      let resolvePath := Path_ args in
      let esm := (parseESModuleExports (files (rcWorld c)) (rcBuildDir c) (Importer args)).1.2 in
      let externalAt (pathname : string) :=
        if esm then (({| ResolvedPath := pathname; External := true |}, None), None)
        else (({| ResolvedPath := resolvePath; External := true |}, None),
              Some (resolvePath, pathname)) in
      let package (resolvePath v : string) :=
        let packageName :=
          if Str.HasPrefix resolvePath "@" then resolvePath
          else beforeFirstByte resolvePath "/" in
        let filename := Path.Base resolvePath in
        let filename := if isDev options then filename +:+ ".development" else filename in
        let pathname := cdnPath packageName v (target options) (ensureExt filename ".js") in
        if esm then (({| ResolvedPath := pathname; External := true |}, None), None)
        else (({| ResolvedPath := resolvePath; External := true |}, None),
              Some (resolvePath, pathname)) in
      let unknown :=
        if esm then
          let sentinel := "/_error.js?type=resolve&name=" +:+ QueryEscape resolvePath in
          (({| ResolvedPath := if decide (rcHostname c ≠ "localhost")
                               then "https://" +:+ rcHostname c +:+ sentinel else sentinel;
               External := true |}, None), None)
        else (({| ResolvedPath := resolvePath; External := true |}, None),
              Some (resolvePath, "")) in
      match known with
      | Some v => package resolvePath v
      | None =>
          if decide (target options = "deno" ∧ resolvePath ∈ denoStdNodeModules) then
            externalAt ("/v" +:+ Str.itoa buildVersion +:+ "/_deno_std_node_" +:+ resolvePath +:+ ".js")
          else
            match polyfilledBuiltInNodeModules !! resolvePath with
            | Some polyfill =>
                match getPackageInfo polyfill "latest" with
                | inr p => package polyfill (Version p)
                | inl e => (({| ResolvedPath := resolvePath; External := false |}, Some e), None)
                end
            | None =>
                match embedFS_Open ("polyfills/node_" +:+ resolvePath +:+ ".js") with
                | None =>
                    externalAt ("/v" +:+ Str.itoa buildVersion +:+ "/_node_" +:+ resolvePath +:+ ".js")
                | Some _ => unknown
                end
            end
      end
  end.

(** [peerModulesForCommonjs] after the resolve calls of one bundler run. *)
Definition sideMap (c : resolveContext) (calls : list OnResolveArgs) : gmap string string :=
  fold_left (λ m args,
      match (onResolve c args).2 with
      | Some kv => <[kv.1 := kv.2]> m
      | None => m
      end) calls ∅.

(** Line 593: the text between the first two double quotes. *)
Definition missingModule (text : string) : string :=
  nth 1 (Str.Split text dquote) "".

(** Lines 590-604: the errors of one run.  A resolution failure names a
    module, which is noted unless it was before; any other error is fatal. *)
Fixpoint scanErrors (errs : list string) (indirectRequires : gset string)
    (extraExternals : list string) : error + (gset string * list string) :=
  match errs with
  | [] => inr (indirectRequires, extraExternals)
  | text :: errs' =>
      if Str.HasPrefix text ("Could not resolve " +:+ dq) then
        let m := missingModule text in
        if decide (m ≠ "" ∧ m ∉ indirectRequires)
        then scanErrors errs' ({[m]} ∪ indirectRequires) (extraExternals ++ [m])
        else scanErrors errs' indirectRequires extraExternals
      else inl (Err ("esbuild: " +:+ text))
  end.

Definition bundlerOptions (c : resolveContext) (id stub : string) (externals : list string)
  : BuildOptions :=
  {| StdinContents := stub;
     ResolveDir := rcBuildDir c;
     Target := target (rcOptions c);
     Minify := negb (isDev (rcOptions c));
     Define := defineTable (rcHostname c) id (rcOptions c);
     ResolveFilter := "^(" +:+ Str.Join externals "|" +:+ ")$" |}.

(** One pass from the [esbuild:] label (lines 460-609): the bundler runs
    once; then the build goes back to the label with more externals, goes on
    with the result, or returns an error. *)
Inductive runResult :=
  | Retry (externals : list string) (indirectRequires : gset string)
  | Bundled (result : BuildResult) (peerModulesForCommonjs : gmap string string)
  | Fatal (e : error).

Definition esbuildRun (c : resolveContext) (id stub : string)
    (externals : list string) (indirectRequires : gset string) : runResult :=
  let '(result, calls) :=
    api_Build (bundlerOptions c id stub externals) (λ args, (onResolve c args).1) in
  let peerModulesForCommonjs := sideMap c calls in
  match scanErrors (Errors result) indirectRequires [] with
  | inl e => Fatal e
  | inr (_, []) => Bundled result peerModulesForCommonjs
  | inr (indirectRequires', extraExternals) =>
      Retry (externals ++ extraExternals) indirectRequires'
  end.

(** The loop made by [goto esbuild].  Each unit of fuel pays for one run of
    the bundler. *)
Fixpoint esbuildLoop (fuel : nat) (c : resolveContext) (id stub : string)
    (externals : list string) (indirectRequires : gset string)
  : outcome (BuildResult * gmap string string) :=
  match fuel with
  | O => OutOfFuel
  | S fuel' =>
      match esbuildRun c id stub externals indirectRequires with
      | Retry externals' indirectRequires' =>
          esbuildLoop fuel' c id stub externals' indirectRequires'
      | Bundled result peerModulesForCommonjs => Ok (result, peerModulesForCommonjs)
      | Fatal e => Failed e
      end
  end.

End Bundle.

(** ** Post-processing and commit (build.go, lines 611-723) *)

Section PostProcess.
Context `{Collaborators}.

Definition eolOf (options : buildOptions) : string :=
  if isDev options then EOL else "".

(** Line 619 *)
Definition banner (options : buildOptions) : string :=
  "/* " +:+ jsCopyrightName +:+ " - esbuild bundle(" +:+ moduleSlice_String (packages options) +:+
  ") " +:+ Str.ToLower (target options) +:+ " " +:+ envOf options +:+ " */" +:+ EOL.

(** Lines 620-638: in development mode, the dependencies of the requested
    packages are listed in a comment. *)
Definition bundledDependencies (options : buildOptions) (metas : gmap string ImportMeta)
  : string :=
  if isDev options then
    let deps : gmap string string :=
      fold_left (λ deps pkg,
          match metas !! ImportPath pkg with
          | Some meta => Dependencies (Npm meta) ∪ deps
          | None => deps
          end) (packages options) ∅ in
    if decide (deps ≠ ∅) then
      "/*" +:+ EOL +:+ " * bundled dependencies:" +:+ EOL +:+
      fold_left (λ buf nv, buf +:+ " *   - " +:+ nv.1 +:+ ": " +:+ nv.2 +:+ EOL)
                (map_to_list deps) "" +:+
      " */" +:+ EOL
    else ""
  else "".

Definition processPrelude (eol env : string) : string :=
  "import __process$ from " +:+ dq +:+ "/v" +:+ Str.itoa buildVersion +:+ "/_node_process.js" +:+ dq +:+ ";" +:+
  eol +:+ "__process$.env.NODE_ENV=" +:+ dq +:+ env +:+ dq +:+ ";" +:+ eol.

Definition bufferPrelude (eol : string) : string :=
  "import { Buffer as __Buffer$ } from " +:+ dq +:+ "/v" +:+ Str.itoa buildVersion +:+ "/_node_buffer.js" +:+ dq +:+ ";" +:+ eol.

Definition peerPrelude (eol name importPath : string) : string :=
  "import __" +:+ identify name +:+ "$ from " +:+ dq +:+ importPath +:+ dq +:+ ";" +:+ eol.

Definition globalPrelude (eol : string) : string :=
  "if (typeof __global$ === " +:+ dq +:+ "undefined" +:+ dq +:+ ") var __global$ = window;" +:+ eol.

Definition setImmediateShim (eol : string) : string :=
  "__setImmediate$ = (cb, args) => setTimeout(cb, 0, ...args);" +:+ eol.

Definition rResolvePrelude (eol : string) : string :=
  "var __rResolve$ = v => v;" +:+ eol.

(** Lines 651-664: every CommonJS peer with a URL gets an import, and its
    [require] calls in the output are replaced by the imported name. *)
Definition rewirePeers (eol : string) (entries : list (string * string))
    (outputContent : string) : list string * string :=
  fold_left (λ acc entry,
      let '(name, importPath) := entry in
      if decide (importPath ≠ "") then
        (acc.1 ++ [peerPrelude eol name importPath],
         Str.ReplaceAll acc.2 ("require(" +:+ dq +:+ name +:+ dq +:+ ")")
                              ("__" +:+ identify name +:+ "$"))
      else acc)
    entries ([], outputContent).

(** Lines 643-679: the lines put before one [.js] output file, in order,
    and the content that follows them. *)
Definition jsPreludes (options : buildOptions) (peerModulesForCommonjs : gmap string string)
    (contents : string) : list string * string :=
  let eol := eolOf options in
  let p1 := if Str.Contains contents "__process$"
            then [processPrelude eol (envOf options)] else [] in
  let p2 := if Str.Contains contents "__Buffer$" then [bufferPrelude eol] else [] in
  let '(p3, outputContent) :=
    rewirePeers eol (map_to_list peerModulesForCommonjs) contents in
  let p4 := if Str.Contains outputContent "__global$" then [globalPrelude eol] else [] in
  let p5 := if Str.Contains outputContent "__setImmediate$$"
            then [setImmediateShim eol] else [] in
  let p6 := if Str.Contains outputContent "__rResolve$" then [rResolvePrelude eol] else [] in
  (p1 ++ p2 ++ p3 ++ p4 ++ p5 ++ p6, outputContent).

Definition processJS (options : buildOptions) (peerModulesForCommonjs : gmap string string)
    (contents : string) (jsContentBuf : string) : string :=
  let '(preludes, outputContent) := jsPreludes options peerModulesForCommonjs contents in
  jsContentBuf +:+ fold_right String.app "" preludes +:+ outputContent.

(** Lines 641-696, one output file: [.js] files go to the buffer, a [.css]
    file is written to its sidecar at once. *)
Definition outputOne (storageDir id : string) (options : buildOptions)
    (peerModulesForCommonjs : gmap string string) (file : OutputFile)
    (st : string * bool) : M (string * bool) :=
  if Str.HasSuffix (FilePath file) ".js" then
    pure (processJS options peerModulesForCommonjs (Contents file) st.1, st.2)
  else if Str.HasSuffix (FilePath file) ".css" then
    let saveFilePath := sidecar storageDir id ".css" in
    do _ <- update (ensureDir (Path.Dir saveFilePath));
    do _ <- effect (createAndCopy saveFilePath (Contents file));
    pure (st.1, true)
  else pure st.

Definition postProcess (storageDir id : string) (options : buildOptions)
    (metas : gmap string ImportMeta) (result : BuildResult)
    (peerModulesForCommonjs : gmap string string) : M (string * bool) :=
  let jsContentBuf := banner options +:+ bundledDependencies options metas in
  forM (OutputFiles result) (jsContentBuf, false)
       (outputOne storageDir id options peerModulesForCommonjs).

(** Lines 698-722: the [.js] sidecar is written, then the record is put.
    The result of [db.Put] is dropped. *)
Definition commit (storageDir id : string) (metas : gmap string ImportMeta)
    (js : string) (css : bool) : M (gmap string ImportMeta * bool) :=
  let saveFilePath := sidecar storageDir id ".js" in
  do _ <- update (ensureDir (Path.Dir saveFilePath));
  do _ <- effect (createAndCopy saveFilePath js);
  do _ <- update (λ w,
            (db_Put id {[ "importMeta" := MustEncodeJSON metas;
                          "css" := if css then cssBit else noCssBit ]} w).1);
  pure (metas, css).

End PostProcess.

(** ** [build] *)

(** How a call of [build] ends: with its two results, or not at all when the
    fuel of the retry loop is used up. *)
Inductive buildOutcome :=
  | Finished (ret : buildResult) (err : option error)
  | Unfinished.

Section Build.
Context `{Collaborators}.

(** [defer f]: [f] runs when the function returns, whatever the outcome. *)
Definition deferred {A : Type} (f : World → World) (m : M A) : M A :=
  λ w, let '(w', r) := m w in (f w', r).

(** Lines 218-696: everything between the creation of the working directory
    and the commit.  It yields the import metas, the text of the [.js]
    artifact and whether a [.css] sidecar was written. *)
Definition assemble (fuel : nat) (storageDir hostname id : string) (options : buildOptions)
    (st : metaState) (peerPackages : gmap string NpmPackage) (installList : list string)
  : M (gmap string ImportMeta * (string * bool)) :=
  let buildDir := buildDirOf in
  do _ <- install buildDir installList;
  do metas <- probeAll buildDir options (metas st);
  do metas <- typesAll storageDir hostname buildDir options metas;
  do ext <- computeExternals buildDir options peerPackages;
  do w <- getWorld;
  let c := {| rcWorld := w; rcHostname := hostname; rcOptions := options;
              rcMetas := metas; rcBuildDir := buildDir; rcPeers := ext.1 |} in
  do bundled <- (λ w, (w, esbuildLoop fuel c id (entryStub options metas) ext.2 ∅));
  do out <- postProcess storageDir id options metas bundled.1 bundled.2;
  pure (metas, out).

(** Lines 218-722 *)
Definition buildIn (fuel : nat) (storageDir hostname id : string) (options : buildOptions)
    (st : metaState) (peerPackages : gmap string NpmPackage) (installList : list string)
  : M (gmap string ImportMeta * bool) :=
  do r <- assemble fuel storageDir hostname id options st peerPackages installList;
  commit storageDir id r.1 r.2.1 r.2.2.

(** Lines 125-722: what follows a cache miss. *)
Definition buildBody (fuel : nat) (storageDir hostname id : string) (options : buildOptions)
  : M (gmap string ImportMeta * bool) :=
  do st <- collectMeta options;
  let '(peerPackages, installList) :=
    classifyPeers options (metas st) (map_to_list (peerDependencies st)) (installList st) in
  do _ <- update (ensureDir buildDirOf);
  deferred (RemoveAll buildDirOf)
    (buildIn fuel storageDir hostname id options st peerPackages installList).

Definition build (fuel : nat) (storageDir hostname : string) (options : buildOptions)
    (w : World) : World * buildOutcome :=
  match packages options with
  | [] =>
      (w, Finished {| buildID := ""; importMeta := ∅; hasCSS := false |}
                   (Some (Err "no packages")))
  | _ =>
      let '(id, options) := fingerprint options in
      match lookup storageDir id w with
      | (w, Returned ret err) => (w, Finished ret err)
      | (w, Proceed ret) =>
          match buildBody fuel storageDir hostname id options w with
          | (w, Ok (metas, css)) =>
              (w, Finished {| buildID := id; importMeta := metas; hasCSS := css |} None)
          | (w, Failed e) => (w, Finished ret (Some e))
          | (w, OutOfFuel) => (w, Unfinished)
          end
      end
  end.

End Build.

(** ** Notions used in the statements *)

(** [preserves P m]: the world after the step [m] is related by [P] to the
    world before it. *)
Definition preserves (P : relation World) {A : Type} (m : M A) : Prop :=
  ∀ w w' r, m w = (w', r) → P w w'.

(** [sameStore]: the step leaves the key/value store alone.
    [sameWorld]: it leaves everything alone. *)
Definition sameStore : relation World := λ w w', db w' = db w.
Definition sameWorld : relation World := λ w w', w' = w.

(** A step that [failsClean] has not touched the store when it fails. *)
Definition failsClean {A : Type} (m : M A) : Prop :=
  ∀ w w' e, m w = (w', Failed e) → db w' = db w.

(** [returns m]: the step never runs out of fuel. *)
Definition returns {A : Type} (m : M A) : Prop := ∀ w, (m w).2 ≠ OutOfFuel.

Section RetryNotions.
Context `{Collaborators}.

Definition resolutionPrefix : string := "Could not resolve " +:+ dq.

(** The errors of the bundler run that [esbuildRun] makes. *)
Definition runErrors (c : resolveContext) (id stub : string) (externals : list string)
  : list string :=
  Errors (api_Build (bundlerOptions c id stub externals) (λ args, (onResolve c args).1)).1.

(** [loopReaches c id stub ext ind ext' ind']: the loop entered with the
    externals [ext] and the indirect requires [ind] comes, after some retries
    or none, to a run with [ext'] and [ind']. *)
Inductive loopReaches (c : resolveContext) (id stub : string)
  : list string → gset string → list string → gset string → Prop :=
  | reaches_first (ext : list string) (ind : gset string) :
      loopReaches c id stub ext ind ext ind
  | reaches_retry (ext ext1 ext' : list string) (ind ind1 ind' : gset string) :
      esbuildRun c id stub ext ind = Retry ext1 ind1 →
      loopReaches c id stub ext1 ind1 ext' ind' →
      loopReaches c id stub ext ind ext' ind'.

(** The module names that the runs of this loop fail to resolve all come
    from [U], the names that occur in the sources being bundled. *)
Definition namesWithin (U : gset string) (c : resolveContext) (id stub : string)
    (ext : list string) (ind : gset string) : Prop :=
  ∀ ext' ind' text,
    loopReaches c id stub ext ind ext' ind' →
    text ∈ runErrors c id stub ext' →
    Str.HasPrefix text resolutionPrefix = true →
    missingModule text ≠ "" →
    missingModule text ∈ U.

(** Lines 218-458: the context, the entry and the externals with which the
    loop is entered, as [assemble] computes them. *)
Definition loopEntry (storageDir hostname : string) (options : buildOptions)
    (st : metaState) (peerPackages : gmap string NpmPackage) (installList : list string)
  : M (resolveContext * string * list string) :=
  let buildDir := buildDirOf in
  do _ <- install buildDir installList;
  do metas <- probeAll buildDir options (metas st);
  do metas <- typesAll storageDir hostname buildDir options metas;
  do ext <- computeExternals buildDir options peerPackages;
  do w <- getWorld;
  pure ({| rcWorld := w; rcHostname := hostname; rcOptions := options;
           rcMetas := metas; rcBuildDir := buildDir; rcPeers := ext.1 |},
        entryStub options metas, ext.2).

(** The loop that a call of [build] enters, if it gets that far: the
    context of the resolve callback, the build identifier, the entry and the
    first externals. *)
Definition loopOf (storageDir hostname : string) (options : buildOptions) (w : World)
  : option (resolveContext * string * string * list string) :=
  match packages options with
  | [] => None
  | _ =>
      let '(id, options) := fingerprint options in
      match lookup storageDir id w with
      | (w, Proceed _) =>
          match collectMeta options w with
          | (w, Ok st) =>
              let '(peerPackages, installList) :=
                classifyPeers options (metas st) (map_to_list (peerDependencies st))
                              (installList st) in
              match loopEntry storageDir hostname options st peerPackages installList
                              (ensureDir buildDirOf w) with
              | (_, Ok (c, stub, ext)) => Some (c, id, stub, ext)
              | _ => None
              end
          | _ => None
          end
      | _ => None
      end
  end.

End RetryNotions.

(** A path is [plain] when it is made of ordinary segments: none of them is
    empty, [.] or [..]. *)
Definition plainSegment (c : string) : Prop := c ≠ "" ∧ c ≠ "." ∧ c ≠ "..".

Definition plain (p : string) : Prop := Forall plainSegment (Str.Split p Path.slash).

(** ** A concrete setting

    One choice of collaborators on which [build] runs: a registry with a few
    packages, an installer that drops their manifests and entry files in the
    working directory, and a bundler whose behaviour a scenario picks. *)
Module Sample.

Definition newline : string := String "010"%char "".

Definition moduleString (m : module) : string :=
  name m +:+ "@" +:+ version m +:+
  (if decide (submodule m = "") then "" else "/" +:+ submodule m).

Definition sliceString (a : moduleSlice) : string :=
  Str.Join (map moduleString a) ",".

Definition pkg (n v main mod_ : string) (deps peers : list (string * string)) : NpmPackage :=
  {| Name := n; Version := v; Main := main; Module := mod_; Type_ := "";
     Types := ""; Typings := ""; DefinedExports := ∅;
     Dependencies := list_to_map deps; PeerDependencies := list_to_map peers |}.

Definition preact : NpmPackage :=
  pkg "preact" "10.5.0" "dist/preact.js" "dist/preact.module.js" [] [].

Definition react : NpmPackage :=
  pkg "react" "17.0.2" "index.js" "" [("object-assign", "^4.1.1")] [].

Definition reactDom : NpmPackage :=
  pkg "react-dom" "17.0.2" "index.js" ""
      [("object-assign", "^4.1.1"); ("scheduler", "^0.20.2")] [("react", "17.0.1")].

Definition registry (n v : string) : error + NpmPackage :=
  if decide (n = "preact") then inr preact
  else if decide (n = "react") then inr react
  else if decide (n = "react-dom") then inr reactDom
  else inl (Err ("npm: package '" +:+ n +:+ "' not found")).

(** Manifests on disk are written as the name of the package; decoding
    looks the name up. *)
Definition decodeManifest (content : string) : error + NpmPackage :=
  match registry content "" with
  | inr p => inr p
  | inl _ =>
      if decide (content = "server")
      then inr (pkg "" "" "../cjs/server.js" "" [] [])
      else inl (Err "unexpected end of JSON input")
  end.

Definition installed (installList : list string) : option error * list (string * string) :=
  (None,
   flat_map (λ nv,
      let n := hd "" (Str.Split nv "@") in
      [("node_modules/" +:+ n +:+ "/package.json", n);
       ("node_modules/" +:+ n +:+ "/index.js", "module.exports = {}")]) installList).

Definition sampleMetas : gmap string ImportMeta :=
  {[ "preact" := {| Npm := preact; Exports := ["default"; "h"]; Dts := "" |} ]}.

(** Record contents are decoded by name: ["preact"] stands for an encoded
    import-meta map, anything else does not decode. *)
Definition decodeMetas (content : string) : gmap string ImportMeta * option error :=
  if decide (content = "preact") then (sampleMetas, None)
  else (∅, Some (Err "invalid character 'x' looking for beginning of value")).

Definition withExt (p ext : string) : string :=
  if Str.HasSuffix p ext then p else p +:+ ext.

(** What varies from one scenario to the next. *)
Record Scenario := {
  storeFault : dbCall → option string;
  bundler : BuildOptions → BuildResult;
  resolveCalls : list OnResolveArgs;
  esmEntries : bool;
}.

Definition jsOutput (contents : string) : BuildResult :=
  {| OutputFiles := [ {| FilePath := "/esbuild/stdin.js"; Contents := contents |} ];
     Warnings := []; Errors := [] |}.

Definition collaborators (sc : Scenario) : Collaborators :=
  {| moduleSlice_String := sliceString;
     dbFault := storeFault sc;
     json_Unmarshal := decodeMetas;
     MustEncodeJSON := λ _, "preact";
     getPackageInfo := registry;
     TempDir := "/tmp";
     TempDir_rooted := eq_refl;
     randomHex := "0123456789abcdef";
     chdirFault := λ _, None;
     createFault := λ _, None;
     copyFault := λ _, None;
     yarnAdd := installed;
     parseManifest := decodeManifest;
     parseESModuleExports := λ _ _ _, (["default"; "h"], esmEntries sc, None);
     parseCJSModuleExports := λ _ _ _, inr ["default"; "render"];
     copyDTS := λ _ _ _ _ _ _, (None, []);
     ensureExt := withExt;
     builtInNodeModules := ["fs"; "path"];
     denoStdNodeModules := ["fs"];
     polyfilledBuiltInNodeModules := ∅;
     embedFS_Open := λ p, if decide (p = "polyfills/node_fs.js") then None
                          else Some (ErrNotExist p);
     EOL := newline;
     api_Build := λ o _, (bundler sc o, resolveCalls sc) |}.

Definition noFault : dbCall → option string := λ _, None.

(** The plain scenario: the bundler succeeds at once. *)
Definition plain : Scenario :=
  {| storeFault := noFault;
     bundler := λ _, jsOutput "export{h};";
     resolveCalls := [];
     esmEntries := true |}.

(** The store refuses to put records. *)
Definition putFails : Scenario :=
  {| storeFault := λ c, match c with PutRecord => Some "database not open" | _ => None end;
     bundler := λ _, jsOutput "export{h};";
     resolveCalls := [];
     esmEntries := true |}.

(** The store refuses to delete records. *)
Definition deleteFails : Scenario :=
  {| storeFault := λ c, match c with
                        | DeleteUndecodable | DeleteOrphan => Some "database not open"
                        | _ => None
                        end;
     bundler := λ _, jsOutput "export{h};";
     resolveCalls := [];
     esmEntries := true |}.

(** The bundler cannot resolve [fs] until it is an external known to the
    plugin as an indirect require. *)
Definition indirectFs : Scenario :=
  {| storeFault := noFault;
     bundler := λ o,
       if Str.Contains (ResolveFilter o) "|fs)$" then jsOutput "export{h};"
       else {| OutputFiles := []; Warnings := [];
               Errors := ["Could not resolve " +:+ dq +:+ "fs" +:+ dq +:+
                          " (mark it as external to exclude it from the bundle)"] |};
     resolveCalls := [];
     esmEntries := true |}.

(** The bundler reports a syntax error. *)
Definition bundlerFails : Scenario :=
  {| storeFault := noFault;
     bundler := λ _, {| OutputFiles := []; Warnings := [];
                        Errors := ["Unexpected token"] |};
     resolveCalls := [];
     esmEntries := true |}.

(** A CommonJS importer requires the external override [setImmediate]. *)
Definition requiresSetImmediate : Scenario :=
  {| storeFault := noFault;
     bundler := λ _, jsOutput ("var s='require(" +:+ dq +:+ "setImmediate" +:+ dq +:+ ")$';");
     resolveCalls := [ {| Path_ := "setImmediate"; Importer := "/tmp/x/index.js" |} ];
     esmEntries := false |}.

Definition request (pkgs exts : moduleSlice) (dev : bool) : buildOptions :=
  {| packages := pkgs; external := exts; target := "es2020"; isDev := dev |}.

(** The server runs in [/srv]. *)
Definition emptyWorld : World := {| db := ∅; files := ∅; dirs := ∅; cwd := "/srv" |}.

Definition preactRef : module := Module_ "preact" "10.5.0" "".
Definition preactID : string := "v1/preact@10.5.0/es2020/preact".

(** A world with a record for [preact] whose meta is [content], its [.js]
    sidecar present or not, its css bit set or not, and no [.css] sidecar. *)
Definition cachedWorld (content : string) (js css : bool) : World :=
  {| db := {[ preactID := {[ "importMeta" := content;
                             "css" := if css then cssBit else noCssBit ]} ]};
     files := if js then {[ "/storage/builds/v1/preact@10.5.0/es2020/preact.js" := "export{h};" ]}
              else ∅;
     dirs := ∅; cwd := "/srv" |}.

(** The request [react-dom@17.0.2/server] and a working directory in which
    the submodule has a manifest of its own, whose [main] climbs out of the
    submodule directory. *)
Definition reactDomServer : module := Module_ "react-dom" "17.0.2" "server".

Definition serverManifest : NpmPackage := pkg "" "" "../cjs/server.js" "" [] [].

Definition serverWorld : World :=
  {| db := ∅;
     files := {[ "/tmp/esmd-build/0123456789abcdef/node_modules/react-dom/server/package.json"
                 := "server" ]};
     dirs := ∅; cwd := "/srv" |}.

Definition litHtml : module := Module_ "lit-html" "2.0.0" "".
Definition litElement : module := Module_ "lit-element" "3.0.0" "".
Definition reactOverride : module := Module_ "react" "17.0.2" "".
Definition objectAssign : module := Module_ "object-assign" "4.1.1" "".

End Sample.

(** ** Further notions used in the statements *)

(** The bytes of a text, one by one. *)
Definition chars (s : string) : list ascii := list_ascii_of_string s.


(** The texts between double quotes in a text, in order: the pieces at odd
    positions when the text is split at its double quotes.  In an entry made
    of import and export statements these are the module specifiers. *)
Fixpoint oddOnes (l : list string) : list string :=
  match l with
  | _ :: x :: l' => x :: oddOnes l'
  | _ => []
  end.

Definition quoted (text : string) : list string := oddOnes (Str.Split text dquote).

(** The bytes that [identify] replaces by an underscore. *)
Definition separator (c : ascii) : Prop :=
  (c = "/" ∨ c = "-" ∨ c = "@" ∨ c = ".")%char.

(** The alphabet of a lower-cased base32 text. *)
Definition lowerBase32 (c : ascii) : Prop :=
  c ∈ chars "abcdefghijklmnopqrstuvwxyz234567".

(** The bytes [url.QueryEscape] lets through or produces. *)
Definition querySafe (c : ascii) : Prop :=
  unreserved c = true ∨ (c = "+" ∨ c = "%")%char.

(** [onlyRecord id]: no record but the one under [id] differs between the
    two worlds. *)
Definition onlyRecord (id : string) : relation World :=
  λ w w', ∀ k, k ≠ id → db w' !! k = db w !! k.


(** ** Notions about the resolve callback *)

Section ResolveNotions.
Context `{Collaborators}.

(** Line 513: whether the importer of a resolve call is an ES module. *)
Definition fromESM (c : resolveContext) (args : OnResolveArgs) : bool :=
  (parseESModuleExports (files (rcWorld c)) (rcBuildDir c) (Importer args)).1.2.

(** The path is not the import path of a package requested alone. *)
Definition foreign (c : resolveContext) (args : OnResolveArgs) : Prop :=
  ∀ pkg, packages (rcOptions c) = [pkg] → Path_ args ≠ ImportPath pkg.

(** Lines 496-511: the version known for a path, from an external override
    first, from the manifest of an installed peer otherwise. *)
Definition knownVersion (c : resolveContext) (p : string) : option string :=
  match moduleSlice_Get (external (rcOptions c)) p with
  | Some m => Some (version m)
  | None =>
      match rcPeers c !! p with
      | Some pkg => Some (Version pkg)
      | None => None
      end
  end.

(** The request for one package alone, without externals and submodule. *)
Definition alone (n v tgt : string) (dev : bool) : buildOptions :=
  {| packages := [Module_ n v ""]; external := []; target := tgt; isDev := dev |}.

End ResolveNotions.

(** ** Notions about the output of the bundler *)

(** Lines 643 and 680: an output file is a stylesheet when its path does
    not end in [.js] and ends in [.css]. *)
Definition isStylesheet (f : OutputFile) : bool :=
  negb (Str.HasSuffix (FilePath f) ".js") && Str.HasSuffix (FilePath f) ".css".

(** ** Notions about the import metas *)

(** What identifies the package behind a meta, and what it depends on:
    the fields of the manifest that no step after the registry lookup
    assigns to. *)
Definition identityOf (m : ImportMeta)
  : string * string * string * gmap string string * gmap string string :=
  (Name (Npm m), Version (Npm m), Type_ (Npm m), Dependencies (Npm m),
   PeerDependencies (Npm m)).

(** Everything of a meta but the path of its type declarations. *)
Definition withoutDts (m : ImportMeta) : NpmPackage * list string := (Npm m, Exports m).

(** [sameDir]: the step leaves the process in the directory it was in. *)
Definition sameDir : relation World := λ w w', cwd w' = cwd w.

(** [grows]: the second world has every file of the first, with the same
    content, every directory of the first, the same store and the same
    current directory. *)
Definition grows : relation World :=
  λ w w', files w ⊆ files w' ∧ dirs w ⊆ dirs w' ∧ db w' = db w ∧ cwd w' = cwd w.

(** ** Server start-up ([Serve], the preparation of the storage directory)

    [Serve] parses the flags, opens the log and the store, copies the
    embedded polyfills and type declarations into the storage directory, and
    starts the HTTP server.  The part modelled is the one that writes to the
    file system, lines 94 to 151. *)

(** What [Serve] uses that is declared outside the sources at hand. *)
Class Embedded := {
  (** the constant [VERSION] *)
  VERSION : N;
  (** [postdb.Open]: its error, if any *)
  openStore : string → option error;
  (** [embedFS.ReadDir dir]: the names of the entries *)
  embed_ReadDir : string → error + list string;
  (** [embedFS.Open path], and the bytes [io.Copy] then reads from it *)
  embed_Open : string → error + string;
}.

Section Serve.
Context `{Collaborators} `{Embedded}.

(** Lines 109 and 134: where the embedded file [name] of a kind goes. *)
Definition embeddedTarget (storageDir sub name : string) : string :=
  Path.Join [storageDir; sub +:+ "/v" +:+ Str.itoa VERSION +:+ "/_" +:+ name].

(** Lines 107-126 and 132-151, one entry: the file is copied unless there
    is one already.  [log.Fatal] ends the process: the step fails. *)
Definition installOne (storageDir kind sub name : string) : M unit :=
  let filename := embeddedTarget storageDir sub name in
  do w <- getWorld;
  if fileExists w filename then pure tt
  else
    do content <- lift (embed_Open ("embed/" +:+ kind +:+ "/" +:+ name));
    effect (createAndCopy filename content).

(** Lines 103-126 and 128-151 *)
Definition installEmbedded (storageDir kind sub : string) : M unit :=
  do names <- lift (embed_ReadDir ("embed/" +:+ kind));
  forM names tt (λ name _, installOne storageDir kind sub name).

(** Lines 94-151 *)
Definition prepareStorage (etcDir storageDir : string) : M unit :=
  do _ <- update (ensureDir (Path.Join [storageDir; "builds/v" +:+ Str.itoa VERSION]));
  do _ <- update (ensureDir (Path.Join [storageDir; "types/v" +:+ Str.itoa VERSION]));
  do _ <- update (ensureDir (Path.Join [storageDir; "raw"]));
  do _ <- check (openStore (Path.Join [etcDir; "esm.db"]));
  do _ <- installEmbedded storageDir "polyfills" "builds";
  installEmbedded storageDir "types" "types".

End Serve.

(** ** Further concrete settings *)

Module Cases.

(** A request for [preact] that keeps a submodule of [react] external. *)
Definition jsxRuntime : module := Module_ "react" "17.0.2" "jsx-runtime".

(** The artifacts of an earlier build of [react], which a build of
    [preact] has no business with. *)
Definition reactID : string := "v1/react@17.0.2/es2020/react".

Definition reactRecord : gmap string string :=
  {[ "importMeta" := "react"; "css" := noCssBit ]}.

Definition withReactBuilt : World :=
  {| db := {[ reactID := reactRecord ]};
     files := {[ "/storage/builds/v1/react@17.0.2/es2020/react.js" := "export default{};" ]};
     dirs := ∅; cwd := "/srv" |}.

(** The working directory of the sample collaborators. *)
Definition workDir : string := "/tmp/esmd-build/0123456789abcdef".

(** A working directory in which the peer [react] is installed. *)
Definition reactInstalled : World :=
  {| db := ∅;
     files := {[ workDir +:+ "/node_modules/react/package.json" := "react" ]};
     dirs := ∅; cwd := "/srv" |}.

Definition reactDomRef : module := Module_ "react-dom" "17.0.2" "".

(** A working directory in which [preact] comes with its declarations. *)
Definition preactTyped : World :=
  {| db := ∅;
     files := {[ workDir +:+ "/node_modules/preact/index.d.ts" := "export {};" ]};
     dirs := ∅; cwd := "/srv" |}.

(** A working directory in which the manifest of [@types/preact] is not
    valid JSON. *)
Definition typesBroken : World :=
  {| db := ∅;
     files := {[ workDir +:+ "/node_modules/@types/preact/package.json" := "{" ]};
     dirs := ∅; cwd := "/srv" |}.

(** The output of a bundler run with a script and a stylesheet. *)
Definition scriptAndStyle : BuildResult :=
  {| OutputFiles := [ {| FilePath := "/esbuild/stdin.js"; Contents := "export{h};" |};
                      {| FilePath := "/esbuild/stdin.css"; Contents := "body{margin:0}" |} ];
     Warnings := []; Errors := [] |}.

(** The context of the resolve callback in a build of [react-dom] that
    keeps [react] external. *)
Definition reactDomContext : resolveContext :=
  {| rcWorld := Sample.emptyWorld; rcHostname := "esm.sh";
     rcOptions := Sample.request [reactDomRef] [Sample.reactOverride] false;
     rcMetas := ∅; rcBuildDir := workDir; rcPeers := ∅ |}.

(** The context of the resolve callback in a build of [preact]. *)
Definition preactContext : resolveContext :=
  {| rcWorld := Sample.emptyWorld; rcHostname := "esm.sh";
     rcOptions := Sample.request [Sample.preactRef] [] false;
     rcMetas := Sample.sampleMetas; rcBuildDir := workDir; rcPeers := ∅ |}.

(** A registry in which the package [@scope] declares the peer
    [@scope/core], and the request for the submodule [core] of [@scope]: the
    import path of the request is the name of the peer. *)
Definition scopeRef : module := Module_ "@scope" "1.0.0" "core".

Definition scope : NpmPackage :=
  Sample.pkg "@scope" "1.0.0" "index.js" "" [] [("@scope/core", "^2.0.0")].

Definition scopeCore : NpmPackage :=
  Sample.pkg "@scope/core" "2.0.0" "index.js" "" [] [].

Definition scopedRegistry (n v : string) : error + NpmPackage :=
  if decide (n = "@scope") then inr scope
  else if decide (n = "@scope/core") then inr scopeCore
  else Sample.registry n v.

(** The installer puts the peer where its name says, which is also where
    the submodule [core] of [@scope] is looked for. *)
Definition scopedInstall (installList : list string)
  : option error * list (string * string) :=
  (None,
   [ ("node_modules/@scope/package.json", "@scope");
     ("node_modules/@scope/index.js", "module.exports = {}");
     ("node_modules/@scope/core/package.json", "@scope/core");
     ("node_modules/@scope/core/index.js", "module.exports = {}") ]).

Definition scopedManifest (content : string) : error + NpmPackage :=
  scopedRegistry content "".

Definition scoped : Collaborators :=
  let H := Sample.collaborators Sample.plain in
  {| moduleSlice_String := @moduleSlice_String H;
     dbFault := @dbFault H;
     json_Unmarshal := @json_Unmarshal H;
     MustEncodeJSON := @MustEncodeJSON H;
     getPackageInfo := scopedRegistry;
     TempDir := @TempDir H;
     TempDir_rooted := @TempDir_rooted H;
     randomHex := @randomHex H;
     chdirFault := @chdirFault H;
     createFault := @createFault H;
     copyFault := @copyFault H;
     yarnAdd := scopedInstall;
     parseManifest := scopedManifest;
     parseESModuleExports := @parseESModuleExports H;
     parseCJSModuleExports := @parseCJSModuleExports H;
     copyDTS := @copyDTS H;
     ensureExt := @ensureExt H;
     builtInNodeModules := @builtInNodeModules H;
     denoStdNodeModules := @denoStdNodeModules H;
     polyfilledBuiltInNodeModules := @polyfilledBuiltInNodeModules H;
     embedFS_Open := @embedFS_Open H;
     EOL := @EOL H;
     api_Build := @api_Build H |}.

(** The embedded files: two polyfills and a type declaration. *)
Definition embedded : Embedded :=
  {| VERSION := 1;
     openStore := λ _, None;
     embed_ReadDir := λ d,
       if decide (d = "embed/polyfills") then inr ["node_process.js"; "node_buffer.js"]
       else if decide (d = "embed/types") then inr ["node.ns.d.ts"]
       else inl (ErrNotExist d);
     embed_Open := λ p, inr ("/* " +:+ p +:+ " */") |}.

End Cases.

(** * Properties *)

(** ** The embedding on known values *)

(** FIPS 180-1, appendix A: the digest of ["abc"]. *)
Example sha1_abc :
  SHA1.sum_string "abc" =
    [169; 153; 62; 54; 71; 6; 129; 106; 186; 62; 37; 113; 120; 80; 194; 108; 156; 208; 216; 157]%Z.
Proof. vm_compute. reflexivity. Qed.

(** RFC 4648, section 10 *)
Example base32_foobar :
  Base32.EncodeToString (map Z.of_N (Str.bytes "foobar")) = "MZXW6YTBOI======" ∧
  Base32.EncodeToString (map Z.of_N (Str.bytes "fooba")) = "MZXW6YTB" ∧
  Base32.EncodeToString (map Z.of_N (Str.bytes "f")) = "MY======".
Proof. vm_compute. auto. Qed.

Example path_examples :
  Path.Base "@scope/name" = "name" ∧ Path.Base "" = "." ∧ Path.Base "a/b/" = "b" ∧
  Path.Join ["server"; "index.js"] = "server/index.js" ∧
  Path.Join ["server"; "./index.js"] = "server/index.js" ∧
  Path.Join ["server"; "../cjs/server.js"] = "cjs/server.js" ∧
  Path.Join ["/storage"; "builds"; "v1/preact@10.5.0/es2020/preact.js"] =
    "/storage/builds/v1/preact@10.5.0/es2020/preact.js" ∧
  Path.Dir "v1/preact@10.5.0/es2020/preact" = "v1/preact@10.5.0/es2020" ∧
  Path.Clean "a//b/./c/.." = "a/b".
Proof. vm_compute. repeat split. Qed.

(** The identifiers of three requests: a package, a submodule of a package
    in development mode with an external override, and a bundle of two. *)
Example fingerprint_examples :
  let H := Sample.collaborators Sample.plain in
  (@fingerprint H (Sample.request [Sample.preactRef] [] false)).1 =
    "v1/preact@10.5.0/es2020/preact" ∧
  (@fingerprint H (Sample.request [Sample.reactDomServer]
                     [Module_ "@scope/react" "17.0.2" ""] true)).1 =
    "v1/react-dom@17.0.2/external=@scope_react@17.0.2/es2020/server.development" ∧
  (@fingerprint H (Sample.request [Module_ "react-dom" "17.0.2" ""; Sample.preactRef]
                     [] false)).1 =
    "bundle-mc67ivirt2uf46c4zqvltsbg5g3t6uhi".
Proof. vm_compute. repeat split. Qed.

(** ** The order on modules and [sort.Sort] *)

Lemma string_compare_refl (s : string) : String.compare s s = Eq.
Proof.
  induction s as [|c s IH]; simpl; [done|].
  unfold Ascii.compare. by rewrite N.compare_refl.
Qed.

Lemma string_compare_lt_gt (a b : string) :
  String.compare a b = Lt ↔ String.compare b a = Gt.
Proof.
  rewrite (String.compare_antisym a b).
  destruct (String.compare b a); simpl; split; congruence.
Qed.

Lemma string_compare_lt_trans (a b c : string) :
  String.compare a b = Lt → String.compare b c = Lt → String.compare a c = Lt.
Proof.
  intros Hab Hbc.
  assert (String.le a c) as Hac.
  { transitivity b; unfold String.le, String.leb; [by rewrite Hab | by rewrite Hbc]. }
  unfold String.le, String.leb in Hac.
  destruct (String.compare a c) eqn:E; [|done|done].
  apply String.compare_eq_iff in E as ->.
  apply string_compare_lt_gt in Hab. congruence.
Qed.

Lemma module_compare_refl (a : module) : module_compare a a = Eq.
Proof. unfold module_compare. by rewrite !string_compare_refl. Qed.

Lemma module_compare_eq (a b : module) : module_compare a b = Eq → a = b.
Proof.
  unfold module_compare. destruct a as [n v s], b as [n' v' s']; simpl.
  destruct (String.compare n n') eqn:E1; try done.
  destruct (String.compare v v') eqn:E2; try done.
  intros E3.
  apply String.compare_eq_iff in E1, E2, E3. by subst.
Qed.

Lemma module_compare_antisym (a b : module) :
  module_compare a b = CompOpp (module_compare b a).
Proof.
  unfold module_compare.
  rewrite (String.compare_antisym (name a)), (String.compare_antisym (version a)),
          (String.compare_antisym (submodule a)).
  destruct (String.compare (name b) (name a)); simpl; try done.
  destruct (String.compare (version b) (version a)); simpl; done.
Qed.

Lemma module_compare_lt_trans (a b c : module) :
  module_compare a b = Lt → module_compare b c = Lt → module_compare a c = Lt.
Proof.
  unfold module_compare. destruct a as [n1 v1 s1], b as [n2 v2 s2], c as [n3 v3 s3]; simpl.
  destruct (String.compare n1 n2) eqn:N12; try done.
  - apply String.compare_eq_iff in N12 as ->.
    destruct (String.compare n2 n3) eqn:N23; try done.
    destruct (String.compare v1 v2) eqn:V12; try done.
    + apply String.compare_eq_iff in V12 as ->.
      destruct (String.compare v2 v3) eqn:V23; try done.
      apply string_compare_lt_trans.
    + intros _. destruct (String.compare v2 v3) eqn:V23; try done.
      * apply String.compare_eq_iff in V23 as <-. by rewrite V12.
      * by rewrite (string_compare_lt_trans _ _ _ V12 V23).
  - intros _. destruct (String.compare n2 n3) eqn:N23; try done.
    + apply String.compare_eq_iff in N23 as <-. by rewrite N12.
    + by rewrite (string_compare_lt_trans _ _ _ N12 N23).
Qed.

Global Instance notAfter_trans : Transitive notAfter.
Proof.
  intros a b c. unfold notAfter, Less.
  rewrite (module_compare_antisym b a), (module_compare_antisym c b),
          (module_compare_antisym c a).
  destruct (module_compare a b) eqn:Hab; simpl; try done;
    destruct (module_compare b c) eqn:Hbc; simpl; try done; intros _ _.
  - apply module_compare_eq in Hab as ->. by rewrite Hbc.
  - apply module_compare_eq in Hab as ->. by rewrite Hbc.
  - apply module_compare_eq in Hbc as <-. by rewrite Hab.
  - by rewrite (module_compare_lt_trans _ _ _ Hab Hbc).
Qed.

Global Instance notAfter_antisym : AntiSymm (=) notAfter.
Proof.
  intros a b. unfold notAfter, Less.
  rewrite (module_compare_antisym b a).
  destruct (module_compare a b) eqn:Hab; simpl; try done.
  intros _ _. by apply module_compare_eq.
Qed.

Lemma notAfter_total (a b : module) : notAfter a b ∨ notAfter b a.
Proof.
  unfold notAfter, Less. rewrite (module_compare_antisym b a).
  destruct (module_compare a b); simpl; auto.
Qed.

Lemma Sort_insert_perm (x : module) (l : moduleSlice) : Sort_insert x l ≡ₚ x :: l.
Proof.
  induction l as [|y l IH]; simpl; [done|].
  destruct (Less y x); [|done].
  rewrite IH. apply perm_swap.
Qed.

Lemma Sort_perm (l : moduleSlice) : Sort l ≡ₚ l.
Proof.
  induction l as [|x l IH]; simpl; [done|].
  by rewrite Sort_insert_perm, IH.
Qed.

Lemma Sort_insert_sorted (x : module) (l : moduleSlice) :
  Sorted notAfter l → Sorted notAfter (Sort_insert x l).
Proof.
  induction l as [|y l IH]; simpl; intros Hs.
  - repeat constructor.
  - destruct (Less y x) eqn:Hyx.
    + inversion Hs as [|? ? Hl Hhd]; subst.
      constructor; [by apply IH|].
      destruct l as [|z l]; simpl.
      * constructor. unfold notAfter.
        destruct (notAfter_total x y) as [Hn|Hn]; [|done].
        unfold notAfter in Hn. congruence.
      * destruct (Less z x) eqn:Hzx.
        -- constructor. by inversion Hhd.
        -- constructor. destruct (notAfter_total x y) as [Hn|Hn]; [|done].
           unfold notAfter in Hn. congruence.
    + constructor; [done|]. by constructor.
Qed.

Lemma Sort_sorted (l : moduleSlice) : Sorted notAfter (Sort l).
Proof.
  induction l as [|x l IH]; simpl; [constructor|]. by apply Sort_insert_sorted.
Qed.

(** Whatever procedure [sort.Sort] follows, its outcome is [Sort l]: there is
    only one ordered arrangement of a slice. *)
Lemma Sort_unique (l l' : moduleSlice) :
  Sorted notAfter l' → l' ≡ₚ l → l' = Sort l.
Proof.
  intros Hs Hp. apply (Sorted_unique notAfter); [done|apply Sort_sorted|].
  by rewrite Hp, Sort_perm.
Qed.

Lemma Sort_permutation_invariant (l l' : moduleSlice) : l ≡ₚ l' → Sort l = Sort l'.
Proof.
  intros Hp. apply Sort_unique; [apply Sort_sorted|]. by rewrite Sort_perm.
Qed.

(** ** Fingerprint *)

Lemma string_app_empty_r (s : string) : s +:+ "" = s.
Proof. induction s as [|c s IH]; [done|]. unfold String.app in *. simpl. by rewrite IH. Qed.

Section FingerprintProperties.
Context `{Collaborators}.

Lemma fingerprint_multi (o : buildOptions) :
  (2 ≤ length (packages o))%nat →
  fingerprint o = (bundleBuildID (sortOptions o), sortOptions o).
Proof.
  unfold fingerprint. destruct (packages o) as [|a [|b l]]; simpl; [lia|lia|done].
Qed.

(** C1. For a request with two or more packages the build identifier is
    [bundle-] followed by the lower-cased base32 text of the SHA-1 digest of
    [v<BV>/<sorted packages>/<sorted externals>/<target>/<dev>], the two
    lists being ordered arrangements of the lists of the request; a request
    whose lists are permutations of these gets the same identifier, and the
    rest of the build sees the same options. *)
Theorem bundle_fingerprint_permutation (o o' : buildOptions) :
  (2 ≤ length (packages o))%nat →
  packages o' ≡ₚ packages o →
  external o' ≡ₚ external o →
  target o' = target o →
  isDev o' = isDev o →
  (fingerprint o).1 =
    "bundle-" +:+ Str.ToLower (Base32.EncodeToString (SHA1.sum_string
      ("v" +:+ Str.itoa buildVersion +:+ "/" +:+ moduleSlice_String (Sort (packages o)) +:+
       "/" +:+ moduleSlice_String (Sort (external o)) +:+ "/" +:+ target o +:+
       "/" +:+ Str.of_bool (isDev o)))) ∧
  Sorted notAfter (Sort (packages o)) ∧ Sort (packages o) ≡ₚ packages o ∧
  Sorted notAfter (Sort (external o)) ∧ Sort (external o) ≡ₚ external o ∧
  fingerprint o' = fingerprint o.
Proof.
  intros Hlen Hp He Ht Hd.
  assert (2 ≤ length (packages o'))%nat as Hlen' by (by rewrite Hp).
  rewrite (fingerprint_multi o Hlen), (fingerprint_multi o' Hlen').
  split; [reflexivity|].
  split; [apply Sort_sorted|]. split; [apply Sort_perm|].
  split; [apply Sort_sorted|]. split; [apply Sort_perm|].
  unfold bundleBuildID, canonical, sortOptions.
  cbn [packages external target isDev].
  rewrite (Sort_permutation_invariant _ _ Hp), (Sort_permutation_invariant _ _ He), Ht, Hd.
  reflexivity.
Qed.

(** C3. For a request with one package the build identifier is the plain
    text [v<BV>/<name>@<version>/<targetSegment>/<filename>] of the
    specification, nothing of it hashed, and the options are left as they
    were. *)
Theorem single_fingerprint_readable (pkg : module) (o : buildOptions) :
  packages o = [pkg] →
  fingerprint o = (spec_singleBuildID pkg o, o) ∧
  spec_singleBuildID pkg o =
    "v1/" +:+ name pkg +:+ "@" +:+ version pkg +:+ "/" +:+
    (match external o with
     | [] => target o
     | _ => "external=" +:+ Str.ReplaceAll (moduleSlice_String (external o)) "/" "_" +:+
            "/" +:+ target o
     end) +:+ "/" +:+
    (if decide (submodule pkg = "") then Path.Base (name pkg) else submodule pkg) +:+
    (if isDev o then ".development" else "").
Proof.
  intros Hp. unfold fingerprint. rewrite Hp.
  unfold singleBuildID, spec_singleBuildID, spec_targetSegment, spec_filename, spec_joined.
  change (Str.itoa buildVersion) with "1".
  split.
  - f_equal.
    destruct (external o); destruct (isDev o); repeat case_decide;
      rewrite ?string_app_empty_r; solve [reflexivity | congruence].
  - destruct (external o); destruct (isDev o); repeat case_decide;
      solve [reflexivity | congruence].
Qed.

End FingerprintProperties.

Lemma bundle_fingerprint_permutation_witness :
  let o := Sample.request [Sample.litHtml; Sample.litElement]
                          [Sample.reactOverride; Sample.objectAssign] false in
  let o' := Sample.request [Sample.litElement; Sample.litHtml]
                           [Sample.objectAssign; Sample.reactOverride] false in
  (2 ≤ length (packages o))%nat ∧ packages o' ≡ₚ packages o ∧ external o' ≡ₚ external o ∧
  @fingerprint (Sample.collaborators Sample.plain) o' =
  @fingerprint (Sample.collaborators Sample.plain) o.
Proof.
  intros o o'.
  assert (2 ≤ length (packages o))%nat as H1 by (cbn; lia).
  assert (packages o' ≡ₚ packages o) as H2 by apply perm_swap.
  assert (external o' ≡ₚ external o) as H3 by apply perm_swap.
  split; [exact H1|]. split; [exact H2|]. split; [exact H3|].
  exact (proj2 (proj2 (proj2 (proj2 (proj2
    (@bundle_fingerprint_permutation (Sample.collaborators Sample.plain)
       o o' H1 H2 H3 eq_refl eq_refl)))))).
Defined.

Lemma single_fingerprint_readable_witness :
  let o := Sample.request [Sample.preactRef] [] false in
  packages o = [Sample.preactRef] ∧
  @fingerprint (Sample.collaborators Sample.plain) o = ("v1/preact@10.5.0/es2020/preact", o).
Proof.
  intros o. split; [reflexivity|].
  exact (proj1 (@single_fingerprint_readable (Sample.collaborators Sample.plain)
                  Sample.preactRef o eq_refl)).
Defined.

(** ** Cache lookup *)

Section LookupProperties.
Context `{Collaborators}.

Lemma build_nonempty (fuel : nat) (sd host : string) (o : buildOptions) (w : World) :
  packages o ≠ [] →
  build fuel sd host o w =
    match lookup sd (fingerprint o).1 w with
    | (w1, Returned r err) => (w1, Finished r err)
    | (w1, Proceed r) =>
        match buildBody fuel sd host (fingerprint o).1 (fingerprint o).2 w1 with
        | (w2, Ok (metas, css)) =>
            (w2, Finished {| buildID := (fingerprint o).1; importMeta := metas;
                             hasCSS := css |} None)
        | (w2, Failed e) => (w2, Finished r (Some e))
        | (w2, OutOfFuel) => (w2, Unfinished)
        end
    end.
Proof.
  intros Hne. unfold build.
  destruct (packages o) eqn:E; [done|].
  by destruct (fingerprint o) as [id o'].
Qed.

(** The part of the self-healing rule that the code implements: a record
    that decodes but has lost its [.js] sidecar is deleted, and the build
    goes on as after a miss. *)
Lemma lookup_orphan_record_purged (sd id : string) (w : World)
    (kv : gmap string string) (metas : gmap string ImportMeta) :
  dbFault GetRecord = None →
  dbFault DeleteOrphan = None →
  db w !! id = Some kv →
  json_Unmarshal (KV_Get kv "importMeta") = (metas, None) →
  fileExists w (sidecar sd id ".js") = false →
  ∃ r, lookup sd id w = (set_db (delete id (db w)) w, Proceed r).
Proof.
  intros Hg Hd Hkv Hj Hjs. unfold lookup, db_Get, db_Delete.
  rewrite Hg, Hkv, Hj, Hjs, Hd. eauto.
Qed.

(** C2. What [build] does on an entry whose meta does not decode while its
    [.js] sidecar is there: the record is deleted, and then the call returns
    at the "has built" test with a nil error and whatever was decoded,
    without building anything.  The specification asks for a miss here. *)
Theorem undecodable_entry_returned_as_hit (fuel : nat) (sd host : string)
    (o : buildOptions) (w : World) (kv : gmap string string)
    (partial : gmap string ImportMeta) (e : error) :
  packages o ≠ [] →
  dbFault GetRecord = None →
  dbFault DeleteUndecodable = None →
  db w !! (fingerprint o).1 = Some kv →
  json_Unmarshal (KV_Get kv "importMeta") = (partial, Some e) →
  fileExists w (sidecar sd (fingerprint o).1 ".js") = true →
  build fuel sd host o w =
    (set_db (delete (fingerprint o).1 (db w)) w,
     Finished {| buildID := (fingerprint o).1;
                 importMeta := partial;
                 hasCSS := if decide (KV_Get kv "css" = cssBit)
                           then fileExists w (sidecar sd (fingerprint o).1 ".css")
                           else false |} None).
Proof.
  intros Hne Hg Hd Hkv Hj Hjs.
  rewrite (build_nonempty _ _ _ _ _ Hne).
  unfold lookup, db_Get, db_Delete. rewrite Hg, Hkv, Hj, Hd.
  assert (∀ p, fileExists (set_db (delete (fingerprint o).1 (db w)) w) p = fileExists w p)
    as Hfe by done.
  rewrite !Hfe, Hjs.
  by case_decide.
Qed.

(** C9. A record that decodes, with its [.js] sidecar in place and its css
    bit set, is a hit even when the [.css] sidecar is gone: [build] returns
    the decoded metas with [hasCSS = false] and a nil error, and leaves the
    store and the file system as they were. *)
Theorem missing_css_sidecar_is_a_hit (fuel : nat) (sd host : string)
    (o : buildOptions) (w : World) (kv : gmap string string)
    (metas : gmap string ImportMeta) :
  packages o ≠ [] →
  dbFault GetRecord = None →
  db w !! (fingerprint o).1 = Some kv →
  json_Unmarshal (KV_Get kv "importMeta") = (metas, None) →
  KV_Get kv "css" = cssBit →
  fileExists w (sidecar sd (fingerprint o).1 ".js") = true →
  fileExists w (sidecar sd (fingerprint o).1 ".css") = false →
  build fuel sd host o w =
    (w, Finished {| buildID := (fingerprint o).1; importMeta := metas; hasCSS := false |} None).
Proof.
  intros Hne Hg Hkv Hj Hcss Hjs Hnocss.
  rewrite (build_nonempty _ _ _ _ _ Hne).
  unfold lookup, db_Get. rewrite Hg, Hkv, Hj, Hjs.
  rewrite decide_True by done. by rewrite Hnocss.
Qed.

End LookupProperties.

Lemma undecodable_entry_returned_as_hit_witness :
  let o := Sample.request [Sample.preactRef] [] false in
  let w := Sample.cachedWorld "garbage" true false in
  (db w !! Sample.preactID = Some {[ "importMeta" := "garbage"; "css" := noCssBit ]} ∧
   Sample.decodeMetas "garbage" =
     (∅, Some (Err "invalid character 'x' looking for beginning of value")) ∧
   is_Some (files w !! "/storage/builds/v1/preact@10.5.0/es2020/preact.js")) ∧
  @build (Sample.collaborators Sample.plain) 1 "/storage" "esm.sh" o w =
    (set_db (delete Sample.preactID (db w)) w,
     Finished {| buildID := Sample.preactID; importMeta := ∅; hasCSS := false |} None).
Proof.
  intros o w. split.
  - split; [reflexivity|]. split; [reflexivity|]. eexists; reflexivity.
  - assert (packages o ≠ []) as Hne by discriminate.
    exact (@undecodable_entry_returned_as_hit (Sample.collaborators Sample.plain)
             1 "/storage" "esm.sh" o w
             {[ "importMeta" := "garbage"; "css" := noCssBit ]} ∅
             (Err "invalid character 'x' looking for beginning of value")
             Hne eq_refl eq_refl eq_refl eq_refl eq_refl).
Defined.

Lemma missing_css_sidecar_is_a_hit_witness :
  let o := Sample.request [Sample.preactRef] [] false in
  let w := Sample.cachedWorld "preact" true true in
  (db w !! Sample.preactID = Some {[ "importMeta" := "preact"; "css" := cssBit ]} ∧
   is_Some (files w !! "/storage/builds/v1/preact@10.5.0/es2020/preact.js") ∧
   files w !! "/storage/builds/v1/preact@10.5.0/es2020/preact.css" = None) ∧
  @build (Sample.collaborators Sample.plain) 1 "/storage" "esm.sh" o w =
    (w, Finished {| buildID := Sample.preactID; importMeta := Sample.sampleMetas;
                    hasCSS := false |} None).
Proof.
  intros o w. split.
  - split; [reflexivity|]. split; [eexists; reflexivity|reflexivity].
  - apply (@missing_css_sidecar_is_a_hit (Sample.collaborators Sample.plain)
             1 "/storage" "esm.sh" o w
             {[ "importMeta" := "preact"; "css" := cssBit ]} Sample.sampleMetas);
      solve [discriminate | reflexivity].
Defined.

(** ** Paths made of ordinary segments *)

Lemma string_app_assoc (a b c : string) : (a +:+ b) +:+ c = a +:+ (b +:+ c).
Proof. induction a as [|x a IH]; [done|]. unfold String.app in *. simpl. by rewrite IH. Qed.

Lemma string_rev_app_spec (a b : string) : String.rev_app a b = String.rev a +:+ b.
Proof.
  unfold String.rev. revert b. induction a as [|x a IH]; intros b; simpl; [done|].
  rewrite IH, (IH (String x "")). by rewrite string_app_assoc.
Qed.

Lemma string_rev_cons (x : ascii) (a : string) :
  String.rev (String x a) = String.rev a +:+ String x "".
Proof. unfold String.rev at 1. simpl. apply string_rev_app_spec. Qed.

(** [Split_go] with a pending segment only prepends it to the first segment. *)
Lemma Split_go_pending (sep : ascii) (s cur : string) :
  Str.Split_go sep s cur =
    (String.rev cur +:+ hd "" (Str.Split_go sep s "")) :: tl (Str.Split_go sep s "").
Proof.
  revert cur. induction s as [|c s IH]; intros cur; simpl.
  - by rewrite string_app_empty_r.
  - destruct (Ascii.eqb c sep); simpl.
    + by rewrite string_app_empty_r.
    + rewrite (IH (String c cur)), (IH (String c "")). simpl.
      rewrite string_rev_cons, string_app_assoc. reflexivity.
Qed.

Lemma Split_cons (sep c : ascii) (s : string) :
  Str.Split (String c s) sep =
    if Ascii.eqb c sep then "" :: Str.Split s sep
    else String c (hd "" (Str.Split s sep)) :: tl (Str.Split s sep).
Proof.
  unfold Str.Split. simpl. destruct (Ascii.eqb c sep); [done|].
  rewrite Split_go_pending. reflexivity.
Qed.

Lemma Split_not_nil (sep : ascii) (s : string) : Str.Split s sep ≠ [].
Proof.
  destruct s as [|c s]; [done|]. rewrite Split_cons. by destruct (Ascii.eqb c sep).
Qed.

Lemma Join_Split (sep : ascii) (s : string) :
  Str.Join (Str.Split s sep) (String sep "") = s.
Proof.
  induction s as [|c s IH]; [done|].
  rewrite Split_cons. pose proof (Split_not_nil sep s) as Hne.
  destruct (Str.Split s sep) as [|h t] eqn:E; [done|].
  destruct (Ascii.eqb c sep) eqn:Hc.
  - apply Ascii.eqb_eq in Hc as ->. simpl in *. by rewrite IH.
  - simpl in *. destruct t as [|y r]; [by rewrite IH|].
    rewrite <- IH. reflexivity.
Qed.

Lemma Split_app (sep : ascii) (a b : string) :
  Str.Split (a +:+ String sep b) sep = Str.Split a sep ++ Str.Split b sep.
Proof.
  induction a as [|c a IH].
  - change ("" +:+ String sep b) with (String sep b).
    rewrite Split_cons, Ascii.eqb_refl. reflexivity.
  - change (String c a +:+ String sep b) with (String c (a +:+ String sep b)).
    rewrite !Split_cons, IH. pose proof (Split_not_nil sep a) as Hne.
    destruct (Ascii.eqb c sep); [done|].
    by destruct (Str.Split a sep).
Qed.

Lemma clean_go_plain (rooted : bool) (comps out : list string) :
  Forall plainSegment comps → Path.clean_go rooted comps out = rev out ++ comps.
Proof.
  revert out. induction comps as [|c comps IH]; intros out Hp; simpl.
  - by rewrite app_nil_r.
  - apply Forall_cons in Hp as [(Hn & Hd & Hdd) Hp].
    rewrite decide_False by (intros [?|?]; done).
    rewrite decide_False by done.
    rewrite IH by done. simpl. by rewrite <- app_assoc.
Qed.

(** [path.Clean] leaves a plain path as it is. *)
Lemma Clean_plain (p : string) : plain p → Path.Clean p = p.
Proof.
  unfold plain. intros Hp. destruct p as [|c p].
  { apply Forall_cons in Hp as [(Hn & _) _]. done. }
  unfold Path.Clean.
  assert (Str.HasPrefix (String c p) "/" = false) as ->.
  { cbn [Str.HasPrefix]. destruct (Ascii.eqb "/" c) eqn:Hc; [|reflexivity].
    apply Ascii.eqb_eq in Hc as <-.
    rewrite Split_cons in Hp. change (Ascii.eqb "/" Path.slash) with true in Hp.
    cbv iota in Hp. apply Forall_cons in Hp as [(Hn & _) _]. done. }
  cbv zeta iota. rewrite clean_go_plain by done. simpl rev. rewrite app_nil_l.
  change "/" with (String Path.slash ""). rewrite Join_Split. reflexivity.
Qed.

(** Under a plain directory, a plain path is kept as it is. *)
Lemma Clean_under (a b : string) :
  plain a → plain b → Path.Clean (a +:+ "/" +:+ b) = a +:+ "/" +:+ b.
Proof.
  intros Ha Hb. apply Clean_plain. unfold plain.
  change (a +:+ "/" +:+ b) with (a +:+ String Path.slash b).
  rewrite Split_app. by apply Forall_app.
Qed.

(** [path.Join] of two plain paths puts the first in front of the second. *)
Lemma Join_plain (a b : string) :
  plain a → plain b → Path.Join [a; b] = a +:+ "/" +:+ b.
Proof.
  intros Ha Hb.
  assert (a ≠ "" ∧ b ≠ "") as [Hna Hnb].
  { split; intros ->; [apply Forall_cons in Ha as [(Hn & _) _]
                      |apply Forall_cons in Hb as [(Hn & _) _]]; done. }
  unfold Path.Join. rewrite !filter_cons_True by done. rewrite filter_nil.
  change (Str.Join [a; b] "/") with (a +:+ "/" +:+ b).
  by apply Clean_under.
Qed.

(** ** Texts byte by byte *)

Lemma chars_app (s t : string) : chars (s +:+ t) = chars s ++ chars t.
Proof.
  induction s as [|c s IH]; [done|].
  change (String c s +:+ t) with (String c (s +:+ t)). unfold chars in *. simpl. by rewrite IH.
Qed.

Lemma chars_length (s : string) : length (chars s) = String.length s.
Proof. induction s as [|c s IH]; [done|]. unfold chars in *. simpl. by rewrite IH. Qed.

Lemma chars_ToLower (s : string) : chars (Str.ToLower s) = map Str.lower_byte (chars s).
Proof. induction s as [|c s IH]; [done|]. unfold chars in *. simpl. by rewrite IH. Qed.

Lemma HasPrefix_nil (s : string) : Str.HasPrefix s "" = true.
Proof. by destruct s. Qed.

Lemma HasPrefix_app (p s : string) : Str.HasPrefix (p +:+ s) p = true.
Proof.
  induction p as [|c p IH]; [apply HasPrefix_nil|].
  change (String c p +:+ s) with (String c (p +:+ s)). simpl.
  by rewrite Ascii.eqb_refl.
Qed.

(** A text without the separator is one piece. *)
Lemma Split_none (sep : ascii) (s : string) : sep ∉ chars s → Str.Split s sep = [s].
Proof.
  induction s as [|c s IH]; [done|]. unfold chars in *. simpl. intros Hn.
  rewrite Split_cons. destruct (Ascii.eqb c sep) eqn:Hc.
  - apply Ascii.eqb_eq in Hc as ->. exfalso. apply Hn, list_elem_of_here.
  - rewrite IH; [done|]. intros Hin. apply Hn. by apply list_elem_of_further.
Qed.

(** Replacing one byte by another, as [strings.ReplaceAll] does it. *)
Lemma ReplaceAll_go_byte (c d : ascii) (fuel : nat) (s : string) :
  (String.length s ≤ fuel)%nat →
  chars (Str.ReplaceAll_go fuel s (String c "") (String d "")) =
    map (λ x, if decide (x = c) then d else x) (chars s).
Proof.
  revert s. induction fuel as [|fuel IH]; intros [|x s] Hlen; simpl in *; try done; [lia|].
  rewrite HasPrefix_nil. destruct (Ascii.eqb c x) eqn:Hx.
  - apply Ascii.eqb_eq in Hx as <-.
    change (String d "" +:+ ?t) with (String d t).
    unfold chars in *. simpl. rewrite decide_True by done. f_equal. apply IH. lia.
  - apply Ascii.eqb_neq in Hx. unfold chars in *. simpl.
    rewrite decide_False by congruence. f_equal. apply IH. lia.
Qed.

Lemma ReplaceAll_byte (c d : ascii) (s : string) :
  chars (Str.ReplaceAll s (String c "") (String d "")) =
    map (λ x, if decide (x = c) then d else x) (chars s).
Proof. unfold Str.ReplaceAll. by apply ReplaceAll_go_byte. Qed.

(** ** Absolute paths and the current directory *)

(** A path joined to an absolute one is absolute. *)
Lemma Join_rooted (a : string) (l : list string) :
  Str.HasPrefix a "/" = true → Str.HasPrefix (Path.Join (a :: l)) "/" = true.
Proof.
  destruct a as [|c a]; [done|]. cbn [Str.HasPrefix].
  destruct (Ascii.eqb "/" c) eqn:Hc; [|done]. apply Ascii.eqb_eq in Hc as <-. intros _.
  unfold Path.Join. rewrite filter_cons_True by done.
  assert (∃ s, Str.Join (String "/" a :: filter (λ e, e ≠ "") l) "/" = String "/" s)
    as [s ->] by (destruct (filter _ l); eexists; reflexivity).
  unfold Path.Clean.
  assert (Str.HasPrefix (String "/" s) "/" = true) as -> by (by destruct s).
  cbv zeta iota. generalize (Str.Join (Path.clean_go true (Str.Split (String "/" s) Path.slash) []) "/").
  intros body. by destruct body.
Qed.

(** An absolute path names the same file whatever the current directory. *)
Lemma resolve_rooted (w : World) (p : string) :
  Str.HasPrefix p "/" = true → resolve w p = p.
Proof. unfold resolve. by intros ->. Qed.

(** What a path names depends on the world through the current directory
    only. *)
Lemma resolve_same (w w' : World) (p : string) :
  cwd w' = cwd w → resolve w' p = resolve w p.
Proof. unfold resolve. by intros ->. Qed.

Section WorkingDirectory.
Context `{Collaborators}.

Lemma buildDirOf_rooted : Str.HasPrefix buildDirOf "/" = true.
Proof. apply Join_rooted, TempDir_rooted. Qed.

Lemma resolve_buildDirOf (w : World) : resolve w buildDirOf = buildDirOf.
Proof. apply resolve_rooted, buildDirOf_rooted. Qed.

Lemma sidecar_rooted (sd id ext : string) :
  Str.HasPrefix sd "/" = true → Str.HasPrefix (sidecar sd id ext) "/" = true.
Proof. apply Join_rooted. Qed.

End WorkingDirectory.

(** ** Steps that respect a relation between the world before and after *)

Section Preservation.
Context (P : relation World) `{!Reflexive P, !Transitive P}.

Lemma preserves_pure {A : Type} (a : A) : preserves P (pure a).
Proof. intros w w' r [= <- _]. reflexivity. Qed.

Lemma preserves_fail {A : Type} (e : error) : preserves P (@fail A e).
Proof. intros w w' r [= <- _]. reflexivity. Qed.

Lemma preserves_getWorld : preserves P getWorld.
Proof. intros w w' r [= <- _]. reflexivity. Qed.

Lemma preserves_ask {A : Type} (f : World → A) : preserves P (ask f).
Proof. intros w w' r [= <- _]. reflexivity. Qed.

Lemma preserves_const {A : Type} (r : outcome A) : preserves P (λ w, (w, r)).
Proof. intros w w' r' [= <- _]. reflexivity. Qed.

Lemma preserves_lift {A : Type} (r : error + A) : preserves P (lift r).
Proof. destruct r; [apply preserves_fail | apply preserves_pure]. Qed.

Lemma preserves_check (e : option error) : preserves P (check e).
Proof. destruct e; [apply preserves_fail | apply preserves_pure]. Qed.

Lemma preserves_update (f : World → World) :
  (∀ w, P w (f w)) → preserves P (update f).
Proof. intros Hf w w' r [= <- _]. apply Hf. Qed.

Lemma preserves_effect (f : World → World * option error) :
  (∀ w, P w (f w).1) → preserves P (effect f).
Proof.
  intros Hf w w' r. unfold effect. specialize (Hf w).
  destruct (f w) as [w1 [e|]]; intros [= <- _]; exact Hf.
Qed.

Lemma preserves_bind {A B : Type} (m : M A) (k : A → M B) :
  preserves P m → (∀ a, preserves P (k a)) → preserves P (bind m k).
Proof.
  intros Hm Hk w w' r. unfold bind.
  destruct (m w) as [w1 [a| e |]] eqn:E.
  - intros Hka. transitivity w1; [by eapply Hm | by eapply Hk].
  - intros [= <- _]. by eapply Hm.
  - intros [= <- _]. by eapply Hm.
Qed.

Lemma preserves_forM {A S : Type} (l : list A) (s : S) (body : A → S → M S) :
  (∀ x s', preserves P (body x s')) → preserves P (forM l s body).
Proof.
  intros Hb. revert s. induction l as [|x l IH]; intros s; simpl.
  - apply preserves_pure.
  - apply preserves_bind; [apply Hb | intros s'; apply IH].
Qed.

Lemma preserves_deferred {A : Type} (f : World → World) (m : M A) :
  (∀ w, P w (f w)) → preserves P m → preserves P (deferred f m).
Proof.
  intros Hf Hm w w' r. unfold deferred.
  destruct (m w) as [w1 r1] eqn:E. intros [= <- _].
  transitivity w1; [by eapply Hm | apply Hf].
Qed.

End Preservation.

(** The phases of the build that are compositions of smaller steps. *)
Create HintDb build_steps.
#[global] Hint Unfold collectMeta collectOne typesPackage install metaOf probeAll
  probeOne probeEntry typesAll typesOne computeExternals peerOne postProcess
  outputOne assemble : build_steps.

(** Breaks a monadic step into its parts, leaving the leaves that change
    the world. *)
Ltac preserve_step :=
  first
    [ apply preserves_pure | apply preserves_fail | apply preserves_getWorld
    | apply preserves_ask | apply preserves_lift | apply preserves_check
    | apply preserves_const | apply preserves_bind | apply preserves_forM
    | match goal with
      | |- preserves _ (match ?x with _ => _ end) => destruct x
      | |- preserves _ (let '(_, _) := ?x in _) => destruct x
      end
    | progress cbv zeta
    | progress autounfold with build_steps ];
  try apply _; intros.

Ltac preserve := repeat preserve_step.

Global Instance sameStore_refl : Reflexive sameStore.
Proof. by intros w. Qed.
Global Instance sameStore_trans : Transitive sameStore.
Proof. intros w1 w2 w3 H1 H2. unfold sameStore in *. congruence. Qed.
Global Instance sameWorld_refl : Reflexive sameWorld.
Proof. by intros w. Qed.
Global Instance sameWorld_trans : Transitive sameWorld.
Proof. intros w1 w2 w3 H1 H2. unfold sameWorld in *. congruence. Qed.

Section BuildPreservation.
Context `{Collaborators}.

Lemma collectMeta_sameWorld (o : buildOptions) : preserves sameWorld (collectMeta o).
Proof. preserve. Qed.


Lemma writeHere_sameStore (l : list (string * string)) (w : World) :
  sameStore w (writeHere l w).
Proof. done. Qed.

Lemma Chdir_sameStore (d : string) (w : World) : sameStore w (Chdir d w).1.
Proof. unfold Chdir. by destruct (chdirFault d). Qed.

Lemma writeFiles_sameStore (l : list (string * string)) (w : World) :
  sameStore w (writeFiles l w).
Proof. done. Qed.

Lemma ensureDir_sameStore (d : string) (w : World) : sameStore w (ensureDir d w).
Proof. done. Qed.

Lemma RemoveAll_sameStore (d : string) (w : World) : sameStore w (RemoveAll d w).
Proof. done. Qed.

Lemma createAndCopy_sameStore (p content : string) (w : World) :
  sameStore w (createAndCopy p content w).1.
Proof. unfold createAndCopy. by destruct (createFault p), (copyFault p). Qed.

(** Closes the leaves [preserve] leaves behind when the relation is
    [sameStore]. *)
Ltac same_store :=
  preserve;
  first [ apply preserves_update; intros ?; unfold sameStore; reflexivity
        | apply preserves_effect; intros ?; apply createAndCopy_sameStore
        | apply preserves_effect; intros ?; apply Chdir_sameStore ].

Lemma postProcess_sameStore (sd id : string) (o : buildOptions)
    (ms : gmap string ImportMeta) (result : BuildResult) (side : gmap string string) :
  preserves sameStore (postProcess sd id o ms result side).
Proof. same_store. Qed.

Lemma assemble_sameStore (fuel : nat) (sd host id : string) (o : buildOptions)
    (st : metaState) (pp : gmap string NpmPackage) (il : list string) :
  preserves sameStore (assemble fuel sd host id o st pp il).
Proof. same_store. Qed.

Lemma failsClean_preserves {A : Type} (m : M A) : preserves sameStore m → failsClean m.
Proof. intros Hm w w' e Hr. by eapply Hm. Qed.

Lemma failsClean_bind {A B : Type} (m : M A) (k : A → M B) :
  preserves sameStore m → (∀ a, failsClean (k a)) → failsClean (bind m k).
Proof.
  intros Hm Hk w w' e. unfold bind.
  destruct (m w) as [w1 [a| e1 |]] eqn:E; [|intros [= <- _]; by eapply Hm|done].
  intros Hka. rewrite (Hk a _ _ _ Hka). by eapply Hm.
Qed.

Lemma commit_failsClean (sd id : string) (ms : gmap string ImportMeta)
    (js : string) (css : bool) : failsClean (commit sd id ms js css).
Proof.
  intros w w' e. unfold commit, bind, update, effect, pure.
  destruct (createAndCopy _ _ _) as [w1 [e1|]] eqn:E; [|done].
  intros [= <- _].
  change w1 with (w1, Some e1).1. rewrite <- E.
  apply (createAndCopy_sameStore _ _ (ensureDir _ w)).
Qed.

Lemma buildIn_failsClean (fuel : nat) (sd host id : string) (o : buildOptions)
    (st : metaState) (pp : gmap string NpmPackage) (il : list string) :
  failsClean (buildIn fuel sd host id o st pp il).
Proof.
  unfold buildIn. apply failsClean_bind; [apply assemble_sameStore|].
  intros r. apply commit_failsClean.
Qed.

(** After [os.RemoveAll d] there is nothing at [d] or under it. *)
Lemma RemoveAll_gone (d : string) (w : World) (p : string) :
  under (resolve w d) p = true →
  files (RemoveAll d w) !! p = None ∧ p ∉ dirs (RemoveAll d w).
Proof.
  intros Hu. unfold RemoveAll; simpl. split.
  - apply map_lookup_filter_None. right. intros x _. simpl. congruence.
  - rewrite elem_of_filter. intros [Hn _]. congruence.
Qed.

(** A failing build proper: the store is as before, and either nothing
    happened at all or the working directory is gone. *)
Lemma buildBody_failed (fuel : nat) (sd host id : string) (o : buildOptions)
    (w w' : World) (e : error) :
  buildBody fuel sd host id o w = (w', Failed e) →
  db w' = db w ∧
  (w' = w ∨ ∀ p, under buildDirOf p = true → files w' !! p = None ∧ p ∉ dirs w').
Proof.
  unfold buildBody, bind.
  destruct (collectMeta o w) as [w1 [st| e1 |]] eqn:Ec; [| |done].
  - assert (w1 = w) as -> by (by eapply collectMeta_sameWorld).
    destruct (classifyPeers _ _ _ _) as [pp il].
    unfold update, deferred.
    destruct (buildIn _ _ _ _ _ _ _ _ _) as [w2 r] eqn:Eb.
    intros [= <- ->]. split.
    + apply buildIn_failsClean in Eb. simpl. by rewrite Eb.
    + right. intros p Hp. apply RemoveAll_gone. by rewrite resolve_buildDirOf.
  - intros [= <- _]. assert (w1 = w) as -> by (by eapply collectMeta_sameWorld). auto.
Qed.

(** What the lookup does to the world, and where its errors come from. *)
Ltac lookup_case :=
  intros [= <- <-]; simpl; split_and!;
  [ reflexivity
  | reflexivity
  | first [ by left | right; by rewrite ?delete_delete_eq ]
  | intros ? Hr; first [ discriminate Hr | by rewrite ?lookup_delete_eq | assumption ]
  | intros ? ? He; first [ discriminate He
                         | injection He as _ <-; do 2 eexists;
                           split; [|split; [eassumption|reflexivity]]; discriminate ] ].

Lemma lookup_effect (sd id : string) (w w' : World) (res : lookupResult) :
  lookup sd id w = (w', res) →
  files w' = files w ∧ dirs w' = dirs w ∧
  (db w' = db w ∨ db w' = delete id (db w)) ∧
  (∀ r, res = Proceed r → db w' !! id = None) ∧
  (∀ r e, res = Returned r (Some e) →
     ∃ call msg, call ≠ PutRecord ∧ dbFault call = Some msg ∧ e = Err msg).
Proof.
  unfold lookup, db_Get, db_Delete.
  destruct (dbFault GetRecord) as [msg|] eqn:Hg; [lookup_case|].
  destruct (db w !! id) as [kv|] eqn:Hkv; [|lookup_case].
  destruct (json_Unmarshal _) as [decoded [ue|]].
  - destruct (dbFault DeleteUndecodable) as [msg|] eqn:Hd1; [lookup_case|].
    destruct (fileExists _ (sidecar sd id ".js")); [lookup_case|].
    destruct (dbFault DeleteOrphan) as [msg|] eqn:Hd2; lookup_case.
  - destruct (fileExists _ (sidecar sd id ".js")); [lookup_case|].
    destruct (dbFault DeleteOrphan) as [msg|] eqn:Hd2; lookup_case.
Qed.

(** C5, as the code has it.  A call of [build] that ends in an error has
    put no record: the store holds nothing it did not hold before.  The
    working directory, if the call got as far as creating it, is gone with
    everything under it.  The store has no record for the build identifier
    afterwards, unless the error is a failure of the store's own [Get] or
    [Delete] during the lookup, which leaves a record that was there. *)
Theorem failed_build_writes_nothing (fuel : nat) (sd host : string) (o : buildOptions)
    (w w' : World) (r : buildResult) (e : error) :
  build fuel sd host o w = (w', Finished r (Some e)) →
  db w' ⊆ db w ∧
  ((files w' = files w ∧ dirs w' = dirs w) ∨
   (∀ p, under buildDirOf p = true → files w' !! p = None ∧ p ∉ dirs w')) ∧
  (packages o ≠ [] →
   db w' !! (fingerprint o).1 = None ∨
   ∃ call msg, call ≠ PutRecord ∧ dbFault call = Some msg ∧ e = Err msg).
Proof.
  destruct (decide (packages o = [])) as [Hnil|Hne].
  { unfold build. rewrite Hnil. intros [= <- _ _]. split_and!; [done|by left|done]. }
  rewrite (build_nonempty _ _ _ _ _ Hne).
  destruct (lookup sd (fingerprint o).1 w) as [w1 res] eqn:El.
  destruct (lookup_effect _ _ _ _ _ El) as (Hf & Hd & Hdb & Hproceed & Hreturned).
  assert (db w1 ⊆ db w) as Hsub.
  { destruct Hdb as [-> | ->]; [done|apply delete_subseteq]. }
  destruct res as [r1 err|r1].
  - intros [= <- <- ->]. split_and!; [done|by left|].
    intros _. right. by eapply Hreturned.
  - destruct (buildBody _ _ _ _ _ w1) as [w2 [[ms css]| e2 |]] eqn:Eb; [done| |done].
    intros [= <- _ <-].
    destruct (buildBody_failed _ _ _ _ _ _ _ _ Eb) as [Hdb2 Hdir].
    split_and!.
    + by rewrite Hdb2.
    + destruct Hdir as [-> | Hgone]; [by left|by right].
    + intros _. left. rewrite Hdb2. by eapply Hproceed.
Qed.

(** C10. When the build has come to the commit and the [.js] artifact is
    written, [build] returns the metas and the css flag it computed with a
    nil error, whether or not the store accepts the record: a store that
    fails leaves the record out and nothing else changes. *)
Theorem put_result_ignored (fuel : nat) (sd host : string) (o : buildOptions)
    (w w1 w2 : World) (r0 : buildResult) (st : metaState)
    (pp : gmap string NpmPackage) (il : list string)
    (ms : gmap string ImportMeta) (js : string) (css : bool) :
  packages o ≠ [] →
  lookup sd (fingerprint o).1 w = (w1, Proceed r0) →
  collectMeta (fingerprint o).2 w1 = (w1, Ok st) →
  classifyPeers (fingerprint o).2 (metas st) (map_to_list (peerDependencies st))
                (installList st) = (pp, il) →
  assemble fuel sd host (fingerprint o).1 (fingerprint o).2 st pp il
           (ensureDir buildDirOf w1) = (w2, Ok (ms, (js, css))) →
  createFault (sidecar sd (fingerprint o).1 ".js") = None →
  copyFault (sidecar sd (fingerprint o).1 ".js") = None →
  ∃ w',
    build fuel sd host o w =
      (w', Finished {| buildID := (fingerprint o).1; importMeta := ms; hasCSS := css |} None) ∧
    db w' = match dbFault PutRecord with
            | Some _ => db w1
            | None => <[(fingerprint o).1 :=
                          {[ "importMeta" := MustEncodeJSON ms;
                             "css" := if css then cssBit else noCssBit ]}]> (db w1)
            end.
Proof.
  intros Hne Hl Hc Hp Ha Hcreate Hcopy.
  assert (db w2 = db w1) as Hdb.
  { exact (assemble_sameStore _ _ _ _ _ _ _ _ _ _ _ Ha). }
  rewrite (build_nonempty _ _ _ _ _ Hne), Hl.
  unfold buildBody, bind at 1. rewrite Hc, Hp.
  unfold update, deferred, buildIn, bind. cbv beta iota. rewrite Ha. cbv beta iota.
  unfold commit, bind, update, effect, createAndCopy, pure. cbn [fst snd].
  rewrite Hcreate, Hcopy. unfold db_Put.
  destruct (dbFault PutRecord); eexists; (split; [reflexivity|]); simpl; by rewrite Hdb.
Qed.

End BuildPreservation.

Lemma failed_build_writes_nothing_witness :
  let o := Sample.request [Sample.preactRef] [] false in
  let H := Sample.collaborators Sample.bundlerFails in
  let w' := set_cwd "/tmp/esmd-build/0123456789abcdef" Sample.emptyWorld in
  let e := Err "esbuild: Unexpected token" in
  @build H 3 "/storage" "esm.sh" o Sample.emptyWorld =
    (w', Finished {| buildID := Sample.preactID; importMeta := ∅; hasCSS := false |} (Some e)) ∧
  db w' ⊆ db Sample.emptyWorld ∧
  ((files w' = files Sample.emptyWorld ∧ dirs w' = dirs Sample.emptyWorld) ∨
   (∀ p, @under "/tmp/esmd-build/0123456789abcdef" p = true →
         files w' !! p = None ∧ p ∉ dirs w')) ∧
  (packages o ≠ [] →
   db w' !! Sample.preactID = None ∨
   ∃ call msg, call ≠ PutRecord ∧ @dbFault H call = Some msg ∧ e = Err msg).
Proof.
  intros o H w' e.
  assert (@build H 3 "/storage" "esm.sh" o Sample.emptyWorld =
            (w', Finished {| buildID := Sample.preactID; importMeta := ∅; hasCSS := false |}
                          (Some e))) as Hb
    by (vm_compute; reflexivity).
  split; [exact Hb|].
  exact (@failed_build_writes_nothing H 3 "/storage" "esm.sh" o _ _ _ _ Hb).
Defined.

(** C5 as stated fails: here [build] ends in an error and the record of the
    build identifier is still in the store.  The record was there before, it
    does not decode, and the store fails to delete it. *)
Lemma failed_build_leaves_record :
  let o := Sample.request [Sample.preactRef] [] false in
  let w := Sample.cachedWorld "garbage" true false in
  ∃ w' r e,
    @build (Sample.collaborators Sample.deleteFails) 3 "/storage" "esm.sh" o w =
      (w', Finished r (Some e)) ∧
    buildID r = Sample.preactID ∧
    is_Some (db w' !! Sample.preactID).
Proof.
  intros o w. exists w. do 2 eexists.
  split; [vm_compute; reflexivity|].
  split; [reflexivity|]. eexists. reflexivity.
Qed.

Lemma put_result_ignored_witness :
  let o := Sample.request [Sample.preactRef] [] false in
  let H := Sample.collaborators Sample.putFails in
  @dbFault H PutRecord = Some "database not open" ∧
  ∃ w',
    @build H 3 "/storage" "esm.sh" o Sample.emptyWorld =
      (w', Finished {| buildID := Sample.preactID; importMeta := Sample.sampleMetas;
                       hasCSS := false |} None) ∧
    db w' = ∅.
Proof.
  intros o H. split; [reflexivity|].
  pose (st := {| installList := ["preact@10.5.0"];
                 metas := {[ "preact" := manifestRules Sample.preactRef
                               {| Npm := Sample.preact; Exports := []; Dts := "" |} ]};
                 peerDependencies := ∅ |}).
  pose (r0 := {| buildID := Sample.preactID; importMeta := ∅; hasCSS := false |}).
  pose (w2 := (@assemble H 3 "/storage" "esm.sh" Sample.preactID o st ∅ ["preact@10.5.0"]
                 (ensureDir (@buildDirOf H) Sample.emptyWorld)).1).
  pose (js := @banner H o +:+ "export{h};").
  assert (packages o ≠ []) as Hne by discriminate.
  assert (@lookup H "/storage" (@fingerprint H o).1 Sample.emptyWorld
          = (Sample.emptyWorld, Proceed r0)) as Hl by (vm_compute; reflexivity).
  assert (@collectMeta H (@fingerprint H o).2 Sample.emptyWorld
          = (Sample.emptyWorld, Ok st)) as Hc by (vm_compute; reflexivity).
  assert (classifyPeers (@fingerprint H o).2 (metas st)
            (map_to_list (peerDependencies st)) (installList st)
          = (∅, ["preact@10.5.0"])) as Hp by (vm_compute; reflexivity).
  assert (@assemble H 3 "/storage" "esm.sh" (@fingerprint H o).1 (@fingerprint H o).2 st ∅
            ["preact@10.5.0"] (ensureDir (@buildDirOf H) Sample.emptyWorld)
          = (w2, Ok (Sample.sampleMetas, (js, false)))) as Ha by (vm_compute; reflexivity).
  destruct (@put_result_ignored H 3 "/storage" "esm.sh" o Sample.emptyWorld Sample.emptyWorld
              w2 r0 st ∅ ["preact@10.5.0"] Sample.sampleMetas js false
              Hne Hl Hc Hp Ha eq_refl eq_refl) as (w' & Hb & Hdb).
  exists w'. split; [exact Hb|exact Hdb].
Defined.

(** ** Peer classification *)

(** Texts between double quotes. *)













Section EntryStub.
Context `{Collaborators}.




End EntryStub.


Lemma bind_Ok_inv {A B : Type} (m : M A) (k : A → M B) (w w' : World) (b : B) :
  bind m k w = (w', Ok b) → ∃ w1 a, m w = (w1, Ok a) ∧ k a w1 = (w', Ok b).
Proof.
  unfold bind. destruct (m w) as [w1 [a| e |]]; [eauto|done|done].
Qed.

Lemma forM_cons_Ok_inv {A S : Type} (x : A) (l : list A) (s s' : S)
    (body : A → S → M S) (w w' : World) :
  forM (x :: l) s body w = (w', Ok s') →
  ∃ w1 s1, body x s w = (w1, Ok s1) ∧ forM l s1 body w1 = (w', Ok s').
Proof. apply bind_Ok_inv. Qed.

Section PeerProperties.
Context `{Collaborators}.

Lemma recordPeers_dom (p : NpmPackage) (peers : gmap string string) (q : string) :
  q ∈ dom (recordPeers p peers) ↔ q ∈ dom (PeerDependencies p) ∨ q ∈ dom peers.
Proof.
  unfold recordPeers. rewrite dom_union, elem_of_union.
  rewrite !elem_of_dom, map_lookup_imap.
  destruct (PeerDependencies p !! q); simpl; split; intros [[? ?]|?]; eauto; done.
Qed.

Lemma collectOne_Ok (pkg : module) (st st' : metaState) (w w' : World) :
  collectOne pkg st w = (w', Ok st') →
  ∃ p, getPackageInfo (name pkg) (version pkg) = inr p ∧
       metas st' = <[ImportPath pkg :=
                       manifestRules pkg {| Npm := p; Exports := []; Dts := "" |}]> (metas st) ∧
       peerDependencies st' = recordPeers p (peerDependencies st).
Proof.
  unfold collectOne. intros Hc.
  apply bind_Ok_inv in Hc as (w1 & p & Hp & Hc).
  destruct (getPackageInfo (name pkg) (version pkg)) as [e|p'] eqn:Hg; [done|].
  injection Hp as <- <-.
  apply bind_Ok_inv in Hc as (w2 & il & _ & Hc).
  injection Hc as _ <-. eauto.
Qed.

(** The loop of lines 137-176: the metas are keyed by the import paths of
    the packages, and the peers collected are those their manifests declare. *)
Lemma collect_loop (l : moduleSlice) (st0 st : metaState) (w w' : World) :
  forM l st0 collectOne w = (w', Ok st) →
  (∀ k, k ∈ dom (metas st) ↔ k ∈ dom (metas st0) ∨ ∃ pkg, pkg ∈ l ∧ k = ImportPath pkg) ∧
  (∀ q, q ∈ dom (peerDependencies st) ↔
        q ∈ dom (peerDependencies st0) ∨
        ∃ pkg p, pkg ∈ l ∧ getPackageInfo (name pkg) (version pkg) = inr p ∧
                 q ∈ dom (PeerDependencies p)).
Proof.
  revert st0 w. induction l as [|pkg l IH]; intros st0 w Hf.
  - injection Hf as _ <-. split; intros x; split; auto.
    + intros [?|(? & Hin & _)]; [done|]. by apply elem_of_nil in Hin.
    + intros [?|(? & ? & Hin & _)]; [done|]. by apply elem_of_nil in Hin.
  - apply forM_cons_Ok_inv in Hf as (w1 & st1 & H1 & Hf).
    apply collectOne_Ok in H1 as (p & Hp & Hm & Hpeers).
    destruct (IH _ _ Hf) as [IHm IHp]. split.
    + intros k. rewrite IHm, Hm, dom_insert, elem_of_union, elem_of_singleton.
      split.
      * intros [[->|?]|(pkg' & Hin & ->)]; [right|by left|right].
        -- exists pkg. split; [apply list_elem_of_here|done].
        -- exists pkg'. split; [by apply list_elem_of_further|done].
      * intros [?|(pkg' & Hin & ->)]; [by left; right|].
        apply elem_of_cons in Hin as [->|Hin]; [by left; left|].
        right. eauto.
    + intros q. rewrite IHp, Hpeers, recordPeers_dom. split.
      * intros [[?|?]|(pkg' & p' & Hin & Hg & Hq)]; [right|by left|right].
        -- exists pkg, p. split; [apply list_elem_of_here|done].
        -- exists pkg', p'. split; [by apply list_elem_of_further|done].
      * intros [?|(pkg' & p' & Hin & Hg & Hq)]; [by left; right|].
        apply elem_of_cons in Hin as [->|Hin].
        -- left. left. congruence.
        -- right. eauto.
Qed.





(** The loop of lines 341-350 appends every peer to the externals. *)
Lemma peers_loop (buildDir : string) (l : list (string * NpmPackage))
    (acc acc' : gmap string NpmPackage) (exts exts' : list string) (w w' : World) :
  forM l (acc, exts) (peerOne buildDir) w = (w', Ok (acc', exts')) →
  exts' = exts ++ l.*1.
Proof.
  revert acc exts w. induction l as [|[n p] l IH]; intros acc exts w Hf.
  - injection Hf as _ _ <-. by rewrite app_nil_r.
  - apply forM_cons_Ok_inv in Hf as (w1 & [acc1 exts1] & H1 & Hf).
    unfold peerOne in H1.
    apply bind_Ok_inv in H1 as (w2 & w0 & _ & H1).
    apply bind_Ok_inv in H1 as (w3 & p' & _ & H1).
    injection H1 as _ _ <-.
    rewrite (IH _ _ _ Hf). simpl. by rewrite <- app_assoc.
Qed.



End PeerProperties.


(** C4 as stated fails: here the package [@scope] declares the peer
    [@scope/core], and its submodule [core] is requested.  The peer is not
    the name of a requested package and no requested package depends on it:
    it is a true peer, installed and external.  The entry imports from
    [@scope/core] and exports what it imports: the true peer is re-exported,
    by a build that ends without error. *)
Lemma true_peer_named_in_the_entry :
  let H := Cases.scoped in
  let o := Sample.request [Cases.scopeRef] [] false in
  let q := "@scope/core" in
  let st := {| installList := ["@scope@1.0.0"];
               metas := {[ q := manifestRules Cases.scopeRef
                                  {| Npm := Cases.scope; Exports := []; Dts := "" |} ]};
               peerDependencies := {[ q := "^2.0.0" ]} |} in
  let pp : gmap string NpmPackage := {[ q := namedPackage q ]} in
  let il := ["@scope@1.0.0"; "@scope/core@^2.0.0"] in
  let stub :=
    "import ___scope_core_default from " +:+ dq +:+ q +:+ dq +:+ ";" +:+ Sample.newline +:+
    "import * as ___scope_core_star from " +:+ dq +:+ q +:+ dq +:+ ";" +:+ Sample.newline +:+
    "export const { render } = ___scope_core_star;" +:+ Sample.newline +:+
    "export default ___scope_core_default;" in
  @collectMeta H o Sample.emptyWorld = (Sample.emptyWorld, Ok st) ∧
  @classifyPeers o (metas st) (map_to_list (peerDependencies st)) (installList st) = (pp, il) ∧
  q ∈ dom (peerDependencies st) ∧
  (∀ pkg, pkg ∈ packages o → name pkg ≠ q) ∧
  (∀ pkg meta, pkg ∈ packages o → metas st !! ImportPath pkg = Some meta →
               q ∉ dom (Dependencies (Npm meta))) ∧
  q ∈ dom pp ∧
  (∃ c, @loopOf H "/storage" "esm.sh" o Sample.emptyWorld =
          Some (c, "v1/@scope@1.0.0/es2020/core", stub, [q; "fs"; "path"])) ∧
  quoted stub = [q; q] ∧
  ∃ w' ret, @build H 3 "/storage" "esm.sh" o Sample.emptyWorld = (w', Finished ret None).
Proof.
  intros H o q st pp il stub.
  split; [vm_compute; reflexivity|]. split; [vm_compute; reflexivity|].
  split; [apply elem_of_dom; eexists; reflexivity|].
  split. { intros pkg Hin. apply list_elem_of_singleton in Hin as ->. discriminate. }
  split. { intros pkg meta Hin. apply list_elem_of_singleton in Hin as ->.
           intros [= <-]. apply not_elem_of_dom. reflexivity. }
  split; [apply elem_of_dom; eexists; reflexivity|].
  split.
  { destruct (@loopOf H "/storage" "esm.sh" o Sample.emptyWorld)
      as [[[[c id] stub'] ext]|] eqn:E; [|vm_compute in E; discriminate E].
    exists c.
    assert (option_map (λ x, (x.1.1.2, x.1.2, x.2)) (@loopOf H "/storage" "esm.sh" o Sample.emptyWorld)
            = Some ("v1/@scope@1.0.0/es2020/core", stub, [q; "fs"; "path"])) as E'
      by (vm_compute; reflexivity).
    rewrite E in E'. injection E' as -> -> ->. reflexivity. }
  split; [vm_compute; reflexivity|].
  destruct (@build H 3 "/storage" "esm.sh" o Sample.emptyWorld) as [w' [ret [e|]|]] eqn:Hb;
    [vm_compute in Hb; discriminate Hb| |vm_compute in Hb; discriminate Hb].
  by exists w', ret.
Qed.

(** ** The bundler retry loop *)

Lemma returns_pure {A : Type} (a : A) : returns (pure a).
Proof. by intros w. Qed.

Lemma returns_fail {A : Type} (e : error) : returns (@fail A e).
Proof. by intros w. Qed.

Lemma returns_getWorld : returns getWorld.
Proof. by intros w. Qed.

Lemma returns_ask {A : Type} (f : World → A) : returns (ask f).
Proof. by intros w. Qed.

Lemma returns_update (f : World → World) : returns (update f).
Proof. by intros w. Qed.

Lemma returns_lift {A : Type} (r : error + A) : returns (lift r).
Proof. by destruct r; intros w. Qed.

Lemma returns_check (e : option error) : returns (check e).
Proof. by destruct e; intros w. Qed.

Lemma returns_effect (f : World → World * option error) : returns (effect f).
Proof. intros w. unfold effect. by destruct (f w) as [w1 [e|]]. Qed.

Lemma returns_bind {A B : Type} (m : M A) (k : A → M B) :
  returns m → (∀ a, returns (k a)) → returns (bind m k).
Proof.
  intros Hm Hk w. unfold bind. specialize (Hm w).
  destruct (m w) as [w1 [a| e |]]; [apply Hk|done|done].
Qed.

Lemma returns_forM {A S : Type} (l : list A) (s : S) (body : A → S → M S) :
  (∀ x s', returns (body x s')) → returns (forM l s body).
Proof.
  intros Hb. revert s. induction l as [|x l IH]; intros s; simpl.
  - apply returns_pure.
  - apply returns_bind; [apply Hb | intros s'; apply IH].
Qed.

Lemma returns_deferred {A : Type} (f : World → World) (m : M A) :
  returns m → returns (deferred f m).
Proof. intros Hm w. unfold deferred. specialize (Hm w). by destruct (m w). Qed.

Ltac returns_step :=
  first
    [ apply returns_pure | apply returns_fail | apply returns_getWorld
    | apply returns_ask | apply returns_lift | apply returns_check
    | apply returns_update | apply returns_effect
    | apply returns_bind | apply returns_forM | apply returns_deferred
    | match goal with
      | |- returns (match ?x with _ => _ end) => destruct x
      | |- returns (let '(_, _) := ?x in _) => destruct x
      end
    | progress cbv zeta
    | progress autounfold with build_steps ];
  intros.

Section RetryLoop.
Context `{Collaborators}.

(** What one scan of the errors adds: the names it extracts from
    resolution failures that are not empty and were not noted before, each
    once. *)
Lemma scanErrors_spec (errs : list string) (ind ind' : gset string)
    (extra extra' : list string) :
  scanErrors errs ind extra = inr (ind', extra') →
  ∃ new,
    extra' = extra ++ new ∧ ind' = list_to_set new ∪ ind ∧ NoDup new ∧
    ∀ m, m ∈ new →
      (m ∉ ind) ∧ (m ≠ "") ∧
      (∃ text, text ∈ errs ∧ Str.HasPrefix text resolutionPrefix = true ∧
               m = missingModule text).
Proof.
  revert ind extra. induction errs as [|text errs IH]; intros ind extra; simpl.
  - intros [= <- <-]. exists []. rewrite app_nil_r.
    split_and!; [done|by rewrite list_to_set_nil, union_empty_l_L|constructor|].
    intros m Hm. by apply elem_of_nil in Hm.
  - fold resolutionPrefix. destruct (Str.HasPrefix text resolutionPrefix) eqn:Hpre; [|done].
    case_decide as Hm.
    + intros Hs. destruct (IH _ _ Hs) as (new & -> & -> & Hnd & Hnew).
      destruct Hm as [Hne Hfresh].
      exists (missingModule text :: new). split_and!.
      * by rewrite <- app_assoc.
      * rewrite list_to_set_cons. apply set_eq. intros x.
        rewrite !elem_of_union. tauto.
      * constructor; [|done]. intros Hin. apply Hnew in Hin as [Hin _].
        apply Hin, elem_of_union. left. by apply elem_of_singleton.
      * intros m Hin. apply elem_of_cons in Hin as [->|Hin].
        -- split_and!; [done|done|]. exists text. split_and!; [apply list_elem_of_here|done|done].
        -- destruct (Hnew _ Hin) as (Hf & Hn & t & Ht & Hp & Hmt).
           split_and!; [|done|].
           { intros Hi. apply Hf, elem_of_union. by right. }
           exists t.
           split_and!; [by apply list_elem_of_further|done|done].
    + intros Hs. destruct (IH _ _ Hs) as (new & -> & -> & Hnd & Hnew).
      exists new. split_and!; [done|done|done|].
      intros m Hin. destruct (Hnew _ Hin) as (Hf & Hn & t & Ht & Hp & Hmt).
      split_and!; [done|done|]. exists t. split_and!; [by apply list_elem_of_further|done|done].
Qed.

(** The scan stops at the first error that is not a resolution failure. *)
Lemma scanErrors_fatal (pre post : list string) (text : string)
    (ind : gset string) (extra : list string) :
  Forall (λ t, Str.HasPrefix t resolutionPrefix = true) pre →
  Str.HasPrefix text resolutionPrefix = false →
  scanErrors (pre ++ text :: post) ind extra = inl (Err ("esbuild: " +:+ text)).
Proof.
  intros Hpre Htext. revert ind extra.
  induction Hpre as [|t pre Ht _ IH]; intros ind extra; simpl.
  - fold resolutionPrefix. by rewrite Htext.
  - fold resolutionPrefix. rewrite Ht. by case_decide.
Qed.

Lemma scanErrors_fatal_inv (errs : list string) (ind : gset string)
    (extra : list string) (e : error) :
  scanErrors errs ind extra = inl e →
  ∃ pre text post,
    errs = pre ++ text :: post ∧
    Forall (λ t, Str.HasPrefix t resolutionPrefix = true) pre ∧
    Str.HasPrefix text resolutionPrefix = false ∧
    e = Err ("esbuild: " +:+ text).
Proof.
  revert ind extra. induction errs as [|t errs IH]; intros ind extra; simpl; [done|].
  fold resolutionPrefix. destruct (Str.HasPrefix t resolutionPrefix) eqn:Ht.
  - intros Hs.
    assert (∃ ind1 extra1, scanErrors errs ind1 extra1 = inl e) as (ind1 & extra1 & Hs1)
      by (case_decide; eauto).
    destruct (IH _ _ Hs1) as (pre & text & post & -> & Hpre & Htext & ->).
    exists (t :: pre), text, post. split_and!; [done|by constructor|done|done].
  - intros [= <-]. exists [], t, errs. split_and!; [done|constructor|done|done].
Qed.

(** The scan adds nothing exactly when every error is a resolution failure
    whose name is empty or was noted before. *)
Lemma scanErrors_nothing_new (errs : list string) (ind : gset string) (extra : list string) :
  Forall (λ t, Str.HasPrefix t resolutionPrefix = true ∧
               (missingModule t = "" ∨ missingModule t ∈ ind)) errs ↔
  scanErrors errs ind extra = inr (ind, extra).
Proof.
  revert ind extra. induction errs as [|t errs IH]; intros ind extra; simpl.
  - split; [done|constructor].
  - fold resolutionPrefix. rewrite Forall_cons.
    destruct (Str.HasPrefix t resolutionPrefix) eqn:Ht; [|split; [intros [[? _] _]|]; done].
    case_decide as Hm.
    + split.
      * intros [[_ [?|?]] _]; tauto.
      * intros Hs. apply scanErrors_spec in Hs as (new & Hex & _).
        apply (f_equal length) in Hex. rewrite !length_app in Hex. simpl in Hex. lia.
    + rewrite <- IH. split; [tauto|]. intros Hall. split; [|done]. split; [done|].
      destruct (decide (missingModule t = "")); [by left|].
      destruct (decide (missingModule t ∈ ind)); [by right|]. tauto.
Qed.

Lemma esbuildRun_retry (c : resolveContext) (id stub : string)
    (ext ext' : list string) (ind ind' : gset string) :
  esbuildRun c id stub ext ind = Retry ext' ind' →
  ∃ new,
    new ≠ [] ∧ NoDup new ∧ ext' = ext ++ new ∧ ind' = list_to_set new ∪ ind ∧
    ∀ m, m ∈ new →
      (m ∉ ind) ∧ (m ≠ "") ∧
      (∃ text, text ∈ runErrors c id stub ext ∧
               Str.HasPrefix text resolutionPrefix = true ∧ m = missingModule text).
Proof.
  unfold esbuildRun, runErrors.
  destruct (api_Build _ _) as [result calls]. simpl.
  destruct (scanErrors _ _ _) as [e|[ind1 extra]] eqn:Hs; [done|].
  apply scanErrors_spec in Hs as (new & Hex & -> & Hnd & Hnew). simpl in Hex. subst extra.
  destruct new as [|m new]; [done|].
  intros [= <- <-]. exists (m :: new). split_and!; done.
Qed.

(** A run all of whose errors are resolution failures, one of them with a
    name that is new, is followed by a retry. *)
Lemma esbuildRun_retries (c : resolveContext) (id stub : string)
    (ext : list string) (ind : gset string) :
  Forall (λ t, Str.HasPrefix t resolutionPrefix = true) (runErrors c id stub ext) →
  (∃ text, text ∈ runErrors c id stub ext ∧
           missingModule text ≠ "" ∧ missingModule text ∉ ind) →
  ∃ ext' ind', esbuildRun c id stub ext ind = Retry ext' ind'.
Proof.
  unfold esbuildRun, runErrors.
  destruct (api_Build _ _) as [result calls]. simpl. intros Hall (text & Hin & Hne & Hnew).
  destruct (scanErrors (Errors result) ind []) as [e|[ind1 extra]] eqn:Hs.
  - apply scanErrors_fatal_inv in Hs as (pre & t & post & Herrs & _ & Ht & _).
    rewrite Herrs in Hall. apply Forall_app in Hall as [_ Hall].
    apply Forall_cons in Hall as [Hp _]. congruence.
  - destruct extra as [|x extra]; [|eauto].
    pose proof Hs as Hs'.
    apply scanErrors_spec in Hs' as (new & Hex & -> & _). simpl in Hex. subst new.
    rewrite list_to_set_nil, union_empty_l_L in Hs.
    apply scanErrors_nothing_new in Hs. rewrite Forall_forall in Hs.
    destruct (Hs text Hin) as [_ [?|?]]; done.
Qed.

(** A retry of a loop whose names are drawn from [U] uses up one of them. *)
Lemma retry_consumes (U : gset string) (c : resolveContext) (id stub : string)
    (ext ext' : list string) (ind ind' : gset string) :
  namesWithin U c id stub ext ind →
  esbuildRun c id stub ext ind = Retry ext' ind' →
  ∃ new,
    new ≠ [] ∧ NoDup new ∧ ext' = ext ++ new ∧ ind' = list_to_set new ∪ ind ∧
    (∀ m, m ∈ new → (m ∉ ind) ∧ (m ∈ U)) ∧
    (length ext < length ext')%nat ∧
    (size (U ∖ ind') < size (U ∖ ind))%nat.
Proof.
  intros HU Hr.
  apply esbuildRun_retry in Hr as (new & Hne & Hnd & -> & -> & Hnew).
  assert (∀ m, m ∈ new → (m ∉ ind) ∧ (m ∈ U)) as Hin.
  { intros m Hm. destruct (Hnew m Hm) as (Hfresh & Hnz & text & Ht & Hp & ->).
    split; [done|]. eapply HU; [apply reaches_first|done..]. }
  exists new. split_and!; try done.
  - rewrite length_app. destruct new; [done|simpl; lia].
  - apply subset_size. destruct new as [|m new]; [done|].
    destruct (Hin m (list_elem_of_here _ _)) as [Hfresh HmU].
    apply (strict_spec_alt (U ∖ (list_to_set (m :: new) ∪ ind)) (U ∖ ind)). split.
    + intros x. rewrite !elem_of_difference, elem_of_union. tauto.
    + intros Heq. assert (m ∈ U ∖ ind) as Hm by (by apply elem_of_difference).
      rewrite <- Heq in Hm. apply elem_of_difference in Hm as [_ Hm]. apply Hm.
      apply elem_of_union. left. apply elem_of_list_to_set, list_elem_of_here.
Qed.

(** The runs that follow a retry are runs of the loop. *)
Lemma namesWithin_retry (U : gset string) (c : resolveContext) (id stub : string)
    (ext ext' : list string) (ind ind' : gset string) :
  namesWithin U c id stub ext ind →
  esbuildRun c id stub ext ind = Retry ext' ind' →
  namesWithin U c id stub ext' ind'.
Proof.
  intros HU Hr e i text Hreach Hin Hp Hnz.
  eapply HU; [by eapply reaches_retry|done..].
Qed.

Lemma esbuildLoop_returns (U : gset string) (c : resolveContext) (id stub : string)
    (fuel : nat) (ext : list string) (ind : gset string) :
  namesWithin U c id stub ext ind →
  (size (U ∖ ind) < fuel)%nat →
  esbuildLoop fuel c id stub ext ind ≠ OutOfFuel.
Proof.
  revert ext ind. induction fuel as [|fuel IH]; intros ext ind HU Hlt; [lia|].
  simpl. destruct (esbuildRun c id stub ext ind) as [ext' ind'| |] eqn:Hr; [|done|done].
  apply IH; [by eapply namesWithin_retry|].
  destruct (retry_consumes U _ _ _ _ _ _ _ HU Hr) as (_ & _ & _ & _ & _ & _ & _ & Hs).
  lia.
Qed.

(** [assemble] is the steps that lead to the loop, the loop, and
    post-processing. *)
Lemma assemble_loopEntry (fuel : nat) (sd host id : string) (o : buildOptions)
    (st : metaState) (pp : gmap string NpmPackage) (il : list string) (w : World) :
  assemble fuel sd host id o st pp il w =
    match loopEntry sd host o st pp il w with
    | (w1, Ok (c, stub, ext)) =>
        match esbuildLoop fuel c id stub ext ∅ with
        | Ok bundled =>
            (do out <- postProcess sd id o (rcMetas c) bundled.1 bundled.2;
             pure (rcMetas c, out)) w1
        | Failed e => (w1, Failed e)
        | OutOfFuel => (w1, OutOfFuel)
        end
    | (w1, Failed e) => (w1, Failed e)
    | (w1, OutOfFuel) => (w1, OutOfFuel)
    end.
Proof.
  unfold assemble, loopEntry, bind. cbv zeta.
  destruct (install buildDirOf il w) as [wa [[]| e |]]; [|done|done].
  destruct (probeAll buildDirOf o (metas st) wa) as [wb [ms1| e |]]; [|done|done].
  destruct (typesAll sd host buildDirOf o ms1 wb) as [wc [ms| e |]]; [|done|done].
  destruct (computeExternals buildDirOf o pp wc) as [wd [ext| e |]]; [|done|done].
  cbn [getWorld pure rcMetas]. by destruct (esbuildLoop _ _ _ _ _ _).
Qed.

Lemma loopEntry_returns (sd host : string) (o : buildOptions) (st : metaState)
    (pp : gmap string NpmPackage) (il : list string) :
  returns (loopEntry sd host o st pp il).
Proof. unfold loopEntry. repeat returns_step. Qed.

(** A call of [build] can only be cut short inside the loop it enters. *)
Lemma build_unfinished (fuel : nat) (sd host : string) (o : buildOptions) (w : World) :
  (build fuel sd host o w).2 = Unfinished →
  ∃ c id stub ext,
    loopOf sd host o w = Some (c, id, stub, ext) ∧
    esbuildLoop fuel c id stub ext ∅ = OutOfFuel.
Proof.
  unfold build, loopOf. destruct (packages o) as [|pkg pkgs]; [done|].
  destruct (fingerprint o) as [id o'].
  destruct (lookup sd id w) as [w1 [r err|r]]; [done|].
  unfold buildBody, bind.
  destruct (collectMeta o' w1) as [w2 [st| e |]] eqn:Hc; [|done|].
  2: { exfalso. assert (returns (collectMeta o')) as Hret by (repeat returns_step).
       specialize (Hret w1). by rewrite Hc in Hret. }
  destruct (classifyPeers _ _ _ _) as [pp il].
  unfold update, deferred, buildIn, bind. cbv beta iota. rewrite assemble_loopEntry.
  pose proof (loopEntry_returns sd host o' st pp il (ensureDir buildDirOf w2)) as Hret.
  destruct (loopEntry sd host o' st pp il (ensureDir buildDirOf w2))
    as [w3 [[[c stub] ext]| e |]]; [|done|done].
  destruct (esbuildLoop fuel c id stub ext ∅) as [bundled| e |] eqn:Hloop; [|done|].
  - assert (returns (postProcess sd id o' (rcMetas c) bundled.1 bundled.2)) as Hpost
      by (repeat returns_step).
    specialize (Hpost w3). unfold bind.
    destruct (postProcess sd id o' (rcMetas c) bundled.1 bundled.2 w3)
      as [w4 [out| e |]]; [|done|done].
    cbn [pure fst snd].
    assert (returns (commit sd id (rcMetas c) out.1 out.2)) as Hcommit
      by (unfold commit; repeat returns_step).
    specialize (Hcommit w4).
    by destruct (commit sd id (rcMetas c) out.1 out.2 w4) as [w5 [[ms css]| e |]].
  - intros _. by exists c, id, stub, ext.
Qed.

(** C6. Let the module names that the runs of a loop fail to resolve be
    drawn from a finite set [U], the names occurring in the sources.  Then the
    loop ends within [size U] retries, and so does the call of [build] that
    enters this loop; a call that does not get as far as the loop ends
    whatever the bundler would do.  A retry is taken only with new names: each
    was extracted from a resolution failure of this run, is not empty, was
    not among the indirect requires, and is now added to them and appended,
    once, to the externals, which grow; the names of [U] still to be found
    become fewer.  When every name reported is already among the indirect
    requires there is no retry; when the errors are all resolution failures
    and one of them names a module that is new, there is one. *)
Theorem retry_loop_terminates (U : gset string) (c : resolveContext) (id stub : string)
    (ext : list string) (ind : gset string) :
  namesWithin U c id stub ext ind →
  (∀ fuel, (size (U ∖ ind) < fuel)%nat → esbuildLoop fuel c id stub ext ind ≠ OutOfFuel) ∧
  (∀ fuel sd host o w,
     loopOf sd host o w = Some (c, id, stub, ext) → ind = ∅ → (size U < fuel)%nat →
     (build fuel sd host o w).2 ≠ Unfinished) ∧
  (∀ fuel sd host o w,
     loopOf sd host o w = None → (build fuel sd host o w).2 ≠ Unfinished) ∧
  (∀ ext' ind',
     esbuildRun c id stub ext ind = Retry ext' ind' →
     ∃ new,
       new ≠ [] ∧ NoDup new ∧ ext' = ext ++ new ∧ ind' = list_to_set new ∪ ind ∧
       (∀ m, m ∈ new →
          (m ∉ ind) ∧ (m ∈ U) ∧ (m ≠ "") ∧
          (∃ text, text ∈ runErrors c id stub ext ∧
                   Str.HasPrefix text resolutionPrefix = true ∧ m = missingModule text)) ∧
       (length ext < length ext')%nat ∧
       (size (U ∖ ind') < size (U ∖ ind))%nat ∧
       namesWithin U c id stub ext' ind') ∧
  ((∀ text, text ∈ runErrors c id stub ext →
            Str.HasPrefix text resolutionPrefix = true →
            missingModule text = "" ∨ missingModule text ∈ ind) →
   ∀ ext' ind', esbuildRun c id stub ext ind ≠ Retry ext' ind') ∧
  (Forall (λ t, Str.HasPrefix t resolutionPrefix = true) (runErrors c id stub ext) →
   (∃ text, text ∈ runErrors c id stub ext ∧
            missingModule text ≠ "" ∧ missingModule text ∉ ind) →
   ∃ ext' ind', esbuildRun c id stub ext ind = Retry ext' ind').
Proof.
  intros HU. split_and!.
  - intros fuel. by apply esbuildLoop_returns.
  - intros fuel sd host o w Hloop -> Hlt Hcut.
    apply build_unfinished in Hcut as (c' & id' & stub' & ext' & Hloop' & Hout).
    rewrite Hloop in Hloop'. injection Hloop' as <- <- <- <-.
    revert Hout. apply (esbuildLoop_returns U); [done|].
    by rewrite difference_empty_L.
  - intros fuel sd host o w Hnone Hcut.
    apply build_unfinished in Hcut as (c' & id' & stub' & ext' & Hloop' & _). congruence.
  - intros ext' ind' Hr.
    destruct (retry_consumes U _ _ _ _ _ _ _ HU Hr) as (new & Hne & Hnd & He & Hi & HinU & Hl & Hs).
    destruct (esbuildRun_retry _ _ _ _ _ _ _ Hr) as (new' & _ & _ & He' & _ & Hnew).
    assert (new' = new) as -> by (subst ext'; by eapply app_inv_head).
    exists new. split_and!; try done.
    + intros m Hm. destruct (HinU m Hm) as [? ?]. destruct (Hnew m Hm) as (_ & ? & ?). done.
    + by eapply namesWithin_retry.
  - intros Hknown ext' ind' Hr.
    apply esbuildRun_retry in Hr as (new & Hne & _ & _ & _ & Hnew).
    destruct new as [|m new]; [done|].
    destruct (Hnew m (list_elem_of_here _ _)) as (Hfresh & Hnz & text & Ht & Hp & ->).
    destruct (Hknown text Ht Hp); done.
  - apply esbuildRun_retries.
Qed.

End RetryLoop.

Lemma retry_loop_terminates_witness :
  let H := Sample.collaborators Sample.indirectFs in
  let o := Sample.request [Sample.preactRef] [] false in
  ∃ c id stub ext,
    @loopOf H "/storage" "esm.sh" o Sample.emptyWorld = Some (c, id, stub, ext) ∧
    @namesWithin H {[ "fs" ]} c id stub ext ∅ ∧
    @esbuildLoop H 2 c id stub ext ∅ ≠ OutOfFuel ∧
    (@build H 2 "/storage" "esm.sh" o Sample.emptyWorld).2 ≠ Unfinished.
Proof.
  intros H o.
  assert (∀ c id stub ext ind, @namesWithin H {[ "fs" ]} c id stub ext ind) as HU.
  { intros c id stub ext ind ext' ind' text _ Hin Hp Hnz. unfold runErrors in Hin. simpl in Hin.
    destruct (Str.Contains _ "|fs)$"); simpl in Hin.
    - by apply elem_of_nil in Hin.
    - apply list_elem_of_singleton in Hin as ->. apply elem_of_singleton. reflexivity. }
  destruct (@loopOf H "/storage" "esm.sh" o Sample.emptyWorld)
    as [[[[c id] stub] ext]|] eqn:E; [|vm_compute in E; discriminate E].
  exists c, id, stub, ext. split; [reflexivity|]. split; [apply HU|].
  destruct (@retry_loop_terminates H {[ "fs" ]} c id stub ext ∅ (HU c id stub ext ∅))
    as (Hloop & Hbuild & _).
  split.
  - apply Hloop. rewrite difference_empty_L, size_singleton. lia.
  - apply (Hbuild 2%nat "/storage" "esm.sh" o Sample.emptyWorld E eq_refl).
    rewrite size_singleton. lia.
Defined.

(** The loop at work: the bundler cannot resolve [fs], the first run is
    followed by a retry with [fs] among the externals, and the second run
    ends the loop.  One unit of fuel does not suffice, two do. *)
Example retry_adds_the_missing_module :
  let H := Sample.collaborators Sample.indirectFs in
  let c := Cases.preactContext in
  @esbuildRun H c Sample.preactID "" ["path"] ∅ = Retry ["path"; "fs"] ({[ "fs" ]} ∪ ∅) ∧
  @esbuildLoop H 1 c Sample.preactID "" ["path"] ∅ = OutOfFuel ∧
  @esbuildLoop H 2 c Sample.preactID "" ["path"] ∅ = Ok (Sample.jsOutput "export{h};", ∅).
Proof. intros H c. split_and!; vm_compute; reflexivity. Qed.

(** ** Post-processing *)

Section ShimProperties.
Context `{Collaborators}.

Lemma rewirePeers_preludes (eol : string) (entries : list (string * string))
    (acc : list string) (out : string) (x : string) :
  x ∈ (fold_left (λ acc entry,
          let '(name, importPath) := entry in
          if decide (importPath ≠ "") then
            (acc.1 ++ [peerPrelude eol name importPath],
             Str.ReplaceAll acc.2 ("require(" +:+ dq +:+ name +:+ dq +:+ ")")
                                  ("__" +:+ identify name +:+ "$"))
          else acc) entries (acc, out)).1 →
  x ∈ acc ∨ ∃ name importPath, x = peerPrelude eol name importPath.
Proof.
  revert acc out. induction entries as [|[n u] entries IH]; intros acc out; simpl; [auto|].
  case_decide.
  - intros Hx. apply IH in Hx as [Hx|Hx]; [|by right].
    simpl in Hx. apply elem_of_app in Hx as [Hx|Hx]; [by left|].
    apply list_elem_of_singleton in Hx. right. eauto.
  - apply IH.
Qed.

Lemma rewirePeers_without_urls (eol : string) (entries : list (string * string))
    (acc : list string) (out : string) :
  (∀ name importPath, (name, importPath) ∈ entries → importPath = "") →
  fold_left (λ acc entry,
      let '(name, importPath) := entry in
      if decide (importPath ≠ "") then
        (acc.1 ++ [peerPrelude eol name importPath],
         Str.ReplaceAll acc.2 ("require(" +:+ dq +:+ name +:+ dq +:+ ")")
                              ("__" +:+ identify name +:+ "$"))
      else acc) entries (acc, out) = (acc, out).
Proof.
  revert acc out. induction entries as [|[n u] entries IH]; intros acc out Hall; simpl; [done|].
  rewrite decide_False.
  - apply IH. intros n' u' Hin. eapply Hall. by apply list_elem_of_further.
  - intros Hu. apply Hu. eapply Hall. apply list_elem_of_here.
Qed.

Lemma shim_is_no_import (eol name importPath : string) :
  setImmediateShim eol ≠ peerPrelude eol name importPath.
Proof. discriminate. Qed.

(** C8, as the code has it.  The text tested for the doubled token is the
    [.js] output after the [require] calls of the CommonJS peers have been
    replaced: the shim is among the lines put before the output exactly when
    that text contains [__setImmediate$$].  When no CommonJS peer has a URL
    the text is the output of the bundler itself.  The artifact is the
    buffer, the lines, and that text. *)
Theorem setImmediate_shim_condition (o : buildOptions) (side : gmap string string)
    (contents buf : string) :
  let rewired := (rewirePeers (eolOf o) (map_to_list side) contents).2 in
  (setImmediateShim (eolOf o) ∈ (jsPreludes o side contents).1 ↔
   Str.Contains rewired "__setImmediate$$" = true) ∧
  ((∀ name importPath, side !! name = Some importPath → importPath = "") →
   rewired = contents) ∧
  processJS o side contents buf =
    buf +:+ fold_right String.app "" (jsPreludes o side contents).1 +:+ rewired.
Proof.
  intros rewired. unfold processJS, jsPreludes. subst rewired.
  destruct (rewirePeers (eolOf o) (map_to_list side) contents) as [p3 out] eqn:Hr.
  cbn [fst snd]. split_and!; [|intros Hall|done].
  - rewrite !elem_of_app. split.
    + intros [Hx|[Hx|[Hx|[Hx|[Hx|Hx]]]]].
      * destruct (Str.Contains contents "__process$");
          [apply list_elem_of_singleton in Hx; discriminate Hx|by apply elem_of_nil in Hx].
      * destruct (Str.Contains contents "__Buffer$");
          [apply list_elem_of_singleton in Hx; discriminate Hx|by apply elem_of_nil in Hx].
      * assert (p3 = (rewirePeers (eolOf o) (map_to_list side) contents).1) as ->
          by (by rewrite Hr).
        apply rewirePeers_preludes in Hx as [Hx|(n & u & Hx)];
          [by apply elem_of_nil in Hx|by apply shim_is_no_import in Hx].
      * destruct (Str.Contains out "__global$");
          [apply list_elem_of_singleton in Hx; discriminate Hx|by apply elem_of_nil in Hx].
      * destruct (Str.Contains out "__setImmediate$$"); [done|by apply elem_of_nil in Hx].
      * destruct (Str.Contains out "__rResolve$");
          [apply list_elem_of_singleton in Hx; discriminate Hx|by apply elem_of_nil in Hx].
    + intros ->. do 4 right. left. apply list_elem_of_here.
  - unfold rewirePeers in Hr. rewrite rewirePeers_without_urls in Hr; [by injection Hr|].
    intros n u Hin. apply elem_of_map_to_list in Hin. by eapply Hall.
Qed.

End ShimProperties.

Lemma setImmediate_shim_condition_witness :
  let H := Sample.collaborators Sample.plain in
  let o := Sample.request [Sample.preactRef] [] false in
  let contents := "__setImmediate$$(f);__setImmediate$(g);" in
  (∀ name importPath, (∅ : gmap string string) !! name = Some importPath → importPath = "") ∧
  Str.Contains contents "__setImmediate$$" = true ∧
  setImmediateShim (@eolOf H o) ∈ (@jsPreludes H o ∅ contents).1 ∧
  @processJS H o ∅ contents "" = @setImmediateShim "" +:+ contents.
Proof.
  intros H o contents.
  assert (∀ name importPath,
            (∅ : gmap string string) !! name = Some importPath → importPath = "") as Hnone.
  { intros name importPath Hl. by rewrite lookup_empty in Hl. }
  destruct (@setImmediate_shim_condition H o ∅ contents "") as (Hiff & Hsame & Hjs).
  split; [exact Hnone|]. split; [reflexivity|]. split.
  - apply (proj2 Hiff). rewrite (Hsame Hnone). reflexivity.
  - rewrite Hjs, (Hsame Hnone). reflexivity.
Defined.

(** C8 as stated fails: the output of the bundler does not contain the
    doubled token, and yet the artifact gets the shim.  A CommonJS file
    requires the external override [setImmediate]; the replacement of that
    call by [__setImmediate$], in front of a dollar sign, makes the token. *)
Lemma shim_without_token_in_bundler_output :
  let H := Sample.collaborators Sample.requiresSetImmediate in
  let o := Sample.request [Sample.reactOverride] [Module_ "setImmediate" "1.0.0" ""] false in
  let contents := "var s='require(" +:+ dq +:+ "setImmediate" +:+ dq +:+ ")$';" in
  let side : gmap string string :=
    {[ "setImmediate" := "/v1/setImmediate@1.0.0/es2020/setImmediate.js" ]} in
  Sample.bundler Sample.requiresSetImmediate
    (bundlerOptions {| rcWorld := Sample.emptyWorld; rcHostname := "esm.sh"; rcOptions := o;
                          rcMetas := ∅; rcBuildDir := ""; rcPeers := ∅ |} "" "" []) =
    Sample.jsOutput contents ∧
  Str.Contains contents "__setImmediate$$" = false ∧
  (@jsPreludes H o side contents).1 =
    [ peerPrelude "" "setImmediate" "/v1/setImmediate@1.0.0/es2020/setImmediate.js";
      setImmediateShim "" ] ∧
  (@build H 2 "/storage" "esm.sh" o Sample.emptyWorld).2 =
    Finished {| buildID := "v1/react@17.0.2/external=setImmediate@1.0.0/es2020/react";
                importMeta := {[ "react" := {| Npm := Sample.react;
                                               Exports := ["default"; "render"];
                                               Dts := "" |} ]};
                hasCSS := false |} None ∧
  files (@build H 2 "/storage" "esm.sh" o Sample.emptyWorld).1
    !! "/storage/builds/v1/react@17.0.2/external=setImmediate@1.0.0/es2020/react.js" =
    Some (@banner H o +:+
          peerPrelude "" "setImmediate" "/v1/setImmediate@1.0.0/es2020/setImmediate.js" +:+
          setImmediateShim "" +:+ "var s='__setImmediate$$';").
Proof.
  intros H o contents side.
  split; [reflexivity|]. split; [reflexivity|]. split; [vm_compute; reflexivity|].
  split; vm_compute; reflexivity.
Qed.

(** ** Manifest rules *)

Section MetaProperties.
Context `{Collaborators}.

Lemma Join_two (a b : string) :
  a ≠ "" → b ≠ "" → Path.Join [a; b] = Path.Clean (a +:+ "/" +:+ b).
Proof.
  intros Ha Hb. unfold Path.Join.
  rewrite !filter_cons_True by done. rewrite filter_nil. reflexivity.
Qed.

(** Lines 238-258: with a manifest in the submodule directory, the entry is
    probed with the meta that [submoduleManifest] derives from it. *)
Lemma probeOne_submodule_manifest (pkg : module) (meta : ImportMeta) (p' : NpmPackage)
    (buildDir : string) (ms : gmap string ImportMeta) (w : World) :
  submodule pkg ≠ "" →
  ms !! ImportPath pkg = Some meta →
  fileExists w (Path.Join [Path.Join [nodeModulesOf buildDir; Name (Npm meta)];
                           submodule pkg; "package.json"]) = true →
  ParseJSONFile w (Path.Join [Path.Join [nodeModulesOf buildDir; Name (Npm meta)];
                              submodule pkg; "package.json"]) = inr p' →
  probeOne buildDir pkg ms w =
    (do final <- probeEntry buildDir pkg (submoduleManifest pkg p' meta);
     pure (<[ImportPath pkg := final]> ms)) w.
Proof.
  intros Hsub Hms Hex Hparse.
  unfold probeOne, metaOf. rewrite Hms.
  unfold bind, pure, ask, getWorld. cbv beta iota zeta.
  rewrite decide_True by done. rewrite Hex, Hparse. reflexivity.
Qed.

(** C7, as the code has it.  The rules are applied in the order of the
    specification: [module] from [type], then [module] from the [import]
    export, then the submodule, which takes over [main] and clears [module],
    [types] and [typings].  When the submodule directory has a manifest of
    its own, each of the four fields that this manifest declares is replaced
    by [path.Join] of the submodule and the declared value, that is the value
    prefixed by the submodule path and cleaned, which is the plain prefixing
    whenever both are made of ordinary segments; [module] falls back on the
    declared [main] when the package is of type [module]; a field the
    manifest leaves empty stays as the submodule rule left it. *)
Theorem manifest_rules_in_order (pkg : module) (p p' : NpmPackage) :
  let meta0 := {| Npm := p; Exports := []; Dts := "" |} in
  let r := manifestRules pkg meta0 in
  let r2 := submoduleManifest pkg p' r in
  let imp := default "" (DefinedExports p !! "import") in
  let sub := submodule pkg in
  let under_sub v := Path.Clean (sub +:+ "/" +:+ v) in
  let manifest buildDir :=
    Path.Join [Path.Join [nodeModulesOf buildDir; Name p]; sub; "package.json"] in
  r = applySubmodule pkg (moduleFromExports (moduleFromType meta0)) ∧
  (Name (Npm r) = Name p ∧ Version (Npm r) = Version p ∧ Type_ (Npm r) = Type_ p ∧
   DefinedExports (Npm r) = DefinedExports p ∧ Dependencies (Npm r) = Dependencies p ∧
   PeerDependencies (Npm r) = PeerDependencies p) ∧
  (sub = "" →
   Main (Npm r) = Main p ∧ Types (Npm r) = Types p ∧ Typings (Npm r) = Typings p ∧
   Module (Npm r) =
     if decide (Module p ≠ "") then Module p
     else if decide (Type_ p = "module" ∧ Main p ≠ "") then Main p
     else imp) ∧
  (sub ≠ "" →
   (Main (Npm r) = sub ∧ Module (Npm r) = "" ∧ Types (Npm r) = "" ∧ Typings (Npm r) = "") ∧
   Main (Npm r2) = (if decide (Main p' ≠ "") then under_sub (Main p') else sub) ∧
   Module (Npm r2) =
     (if decide (Module p' ≠ "") then under_sub (Module p')
      else if decide (Type_ p = "module" ∧ Main p' ≠ "") then under_sub (Main p')
      else "") ∧
   Types (Npm r2) = (if decide (Types p' ≠ "") then under_sub (Types p') else "") ∧
   Typings (Npm r2) = (if decide (Typings p' ≠ "") then under_sub (Typings p') else "") ∧
   (∀ v, plain sub → plain v → under_sub v = sub +:+ "/" +:+ v) ∧
   ∀ buildDir ms w,
     ms !! ImportPath pkg = Some r →
     fileExists w (manifest buildDir) = true →
     ParseJSONFile w (manifest buildDir) = inr p' →
     probeOne buildDir pkg ms w =
       (do final <- probeEntry buildDir pkg r2; pure (<[ImportPath pkg := final]> ms)) w).
Proof.
  intros meta0 r r2 imp sub under_sub manifest.
  assert (Name (Npm r) = Name p ∧ Type_ (Npm r) = Type_ p) as [HName HType].
  { subst r. unfold manifestRules, applySubmodule, moduleFromExports, moduleFromType.
    by repeat case_decide. }
  split; [done|]. split.
  { subst r. unfold manifestRules, applySubmodule, moduleFromExports, moduleFromType.
    by repeat case_decide. }
  split.
  - intros Hsub. subst r imp sub.
    unfold manifestRules, applySubmodule, moduleFromExports, moduleFromType.
    repeat case_decide; simpl in *; split_and!; try done;
      destruct (decide (Main p = "")),
               (decide (default "" (DefinedExports p !! "import") = ""));
      intuition congruence.
  - intros Hsub.
    assert (Main (Npm r) = sub ∧ Module (Npm r) = "" ∧ Types (Npm r) = "" ∧ Typings (Npm r) = "")
      as (HMain & HModule & HTypes & HTypings).
    { subst r sub. unfold manifestRules, applySubmodule. by rewrite decide_True. }
    split; [done|].
    assert (∀ v, v ≠ "" → Path.Join [sub; v] = under_sub v) as HJ
      by (intros v Hv; by apply Join_two).
    split_and!; [subst r2; unfold submoduleManifest; fold sub..|].
    + repeat case_decide; simpl; rewrite ?HJ by done; simpl; try done; intuition congruence.
    + rewrite <- HType.
      repeat case_decide; simpl in *; rewrite ?HJ by tauto; simpl; try done;
        intuition congruence.
    + repeat case_decide; simpl; rewrite ?HJ by done; simpl; try done; intuition congruence.
    + repeat case_decide; simpl; rewrite ?HJ by done; simpl; try done; intuition congruence.
    + intros v Hs Hv. by apply Clean_under.
    + intros buildDir ms w Hms Hex Hparse. subst manifest. cbv beta in Hex, Hparse.
      rewrite <- HName in Hex, Hparse.
      by apply probeOne_submodule_manifest.
Qed.

End MetaProperties.

Lemma manifest_rules_in_order_witness :
  let H := Sample.collaborators Sample.plain in
  let pkg := Sample.reactDomServer in
  let r := manifestRules pkg {| Npm := Sample.reactDom; Exports := []; Dts := "" |} in
  let r2 := submoduleManifest pkg Sample.serverManifest r in
  submodule pkg ≠ "" ∧
  (Main (Npm r) = "server" ∧ Module (Npm r) = "" ∧ Types (Npm r) = "" ∧ Typings (Npm r) = "") ∧
  Main (Npm r2) = Path.Clean ("server" +:+ "/" +:+ "../cjs/server.js") ∧
  Module (Npm r2) = "".
Proof.
  intros H pkg r r2.
  assert (submodule pkg ≠ "") as Hsub by discriminate.
  destruct (@manifest_rules_in_order H pkg Sample.reactDom Sample.serverManifest)
    as (_ & _ & _ & Hrules).
  destruct (Hrules Hsub) as (Hcleared & HMain & HModule & _).
  split; [exact Hsub|]. split; [exact Hcleared|]. split; [exact HMain|exact HModule].
Defined.

(** C7 as stated fails on "each derived value prefixed by the submodule
    path": for [react-dom/server], whose manifest declares the main
    [../cjs/server.js], the main derived is [cjs/server.js]. *)
Lemma derived_main_not_prefixed :
  let H := Sample.collaborators Sample.plain in
  let pkg := Sample.reactDomServer in
  let r := manifestRules pkg {| Npm := Sample.reactDom; Exports := []; Dts := "" |} in
  let meta := setExports ["default"; "render"]
                (submoduleManifest pkg Sample.serverManifest r) in
  @probeOne H "/tmp/esmd-build/0123456789abcdef" pkg {[ ImportPath pkg := r ]}
            Sample.serverWorld =
    (Sample.serverWorld, Ok {[ ImportPath pkg := meta ]}) ∧
  Main (Npm meta) = "cjs/server.js" ∧
  Str.HasPrefix (Main (Npm meta)) (submodule pkg) = false.
Proof.
  intros H pkg r meta.
  split; [vm_compute; reflexivity|].
  split; reflexivity.
Qed.

(** ** The externals in an identifier *)

Section ExternalsSegment.
Context `{Collaborators}.

(** X1. In the identifier of a one-package request that names externals,
    the text of the externals goes in with each of its slashes replaced by
    an underscore, byte for byte: the segment [external=...] is one path
    segment, as long as the text it was made from. *)
Theorem external_segment_is_flat (pkg : module) (o : buildOptions) :
  packages o = [pkg] →
  external o ≠ [] →
  ∃ joined filename,
    (fingerprint o).1 =
      "v1/" +:+ name pkg +:+ "@" +:+ version pkg +:+ "/external=" +:+ joined +:+
      "/" +:+ target o +:+ "/" +:+ filename ∧
    chars joined =
      map (λ c, if decide (c = "/"%char) then "_"%char else c)
          (chars (moduleSlice_String (external o))) ∧
    String.length joined = String.length (moduleSlice_String (external o)) ∧
    "/"%char ∉ chars joined.
Proof.
  intros Hp He.
  exists (Str.ReplaceAll (moduleSlice_String (external o)) "/" "_").
  exists (let f := if decide (submodule pkg ≠ "") then submodule pkg else Path.Base (name pkg) in
          if isDev o then f +:+ ".development" else f).
  pose proof (ReplaceAll_byte "/" "_" (moduleSlice_String (external o))) as Hc.
  split_and!.
  - unfold fingerprint. rewrite Hp. cbn [fst]. unfold singleBuildID.
    destruct (external o) as [|e l]; [done|].
    change (Str.itoa buildVersion) with "1". cbv zeta.
    rewrite !string_app_assoc. reflexivity.
  - exact Hc.
  - rewrite <- !chars_length, Hc. apply length_map.
  - rewrite Hc. intros Hin. apply list_elem_of_fmap in Hin as (x & Hx & _).
    case_decide; [discriminate|congruence].
Qed.

End ExternalsSegment.

Lemma external_segment_is_flat_witness :
  let H := Sample.collaborators Sample.plain in
  let o := Sample.request [Sample.preactRef] [Cases.jsxRuntime] false in
  packages o = [Sample.preactRef] ∧ external o ≠ [] ∧
  ∃ joined filename,
    (@fingerprint H o).1 =
      "v1/" +:+ "preact" +:+ "@" +:+ "10.5.0" +:+ "/external=" +:+ joined +:+
      "/" +:+ "es2020" +:+ "/" +:+ filename ∧
    chars joined =
      map (λ c, if decide (c = "/"%char) then "_"%char else c)
          (chars "react@17.0.2/jsx-runtime") ∧
    String.length joined = 24%nat ∧
    "/"%char ∉ chars joined.
Proof.
  intros H o.
  assert (external o ≠ []) as He by discriminate.
  split; [reflexivity|]. split; [exact He|].
  exact (@external_segment_is_flat H Sample.preactRef o eq_refl He).
Defined.

(** ** The identifier of a bundle *)

Lemma be_bytes_length (n : nat) (x : Z) : length (SHA1.be_bytes n x) = n.
Proof. induction n as [|n IH]; [done|]. cbn [SHA1.be_bytes length]. by rewrite IH. Qed.

(** A SHA-1 digest is twenty bytes long. *)
Lemma sha1_sum_length (msg : list Z) : length (SHA1.sum msg) = 20%nat.
Proof. unfold SHA1.sum. cbv zeta. rewrite !length_app, !be_bytes_length. reflexivity. Qed.

Lemma bits_of_length (n : nat) (x : Z) : length (Base32.bits_of n x) = n.
Proof. induction n as [|n IH]; [done|]. cbn [Base32.bits_of length]. by rewrite IH. Qed.

Lemma bits_length (src : list Z) :
  length (concat (map (Base32.bits_of 8) src)) = (8 * length src)%nat.
Proof.
  induction src as [|x src IH]; [done|].
  cbn [map concat]. rewrite length_app, bits_of_length, IH. cbn [length]. lia.
Qed.

(** A whole number of groups of five bits needs no completion. *)
Lemma quintets_exact (k fuel : nat) (bs : list bool) :
  length bs = (5 * k)%nat → (5 * k ≤ fuel)%nat →
  length (Base32.quintets fuel bs) = k ∧
  Forall (λ g, length g = 5%nat) (Base32.quintets fuel bs).
Proof.
  revert fuel bs. induction k as [|k IH]; intros fuel bs Hlen Hfuel.
  - destruct bs; [|done]. by destruct fuel.
  - destruct fuel as [|fuel]; [lia|].
    destruct bs as [|b0 [|b1 [|b2 [|b3 [|b4 bs]]]]]; simpl in Hlen; try lia.
    cbn [Base32.quintets firstn skipn length Nat.sub repeat app].
    rewrite drop_0, take_0.
    destruct (IH fuel bs) as [IHl IHf]; [lia|lia|].
    split; [by rewrite IHl|]. by constructor.
Qed.

Lemma digit_lower (g : list bool) :
  length g = 5%nat → lowerBase32 (Str.lower_byte (Base32.digit g)).
Proof.
  destruct g as [|b0 [|b1 [|b2 [|b3 [|b4 [|b5 g]]]]]]; try done. intros _.
  apply (bool_decide_unpack _).
  by destruct b0, b1, b2, b3, b4; vm_compute.
Qed.

(** The base32 text of twenty bytes: thirty-two digits, no padding. *)
Lemma base32_of_digest (src : list Z) :
  length src = 20%nat →
  String.length (Str.ToLower (Base32.EncodeToString src)) = 32%nat ∧
  Forall lowerBase32 (chars (Str.ToLower (Base32.EncodeToString src))).
Proof.
  intros Hlen. unfold Base32.EncodeToString. cbv zeta.
  pose proof (bits_length src) as Hb. rewrite Hlen in Hb.
  destruct (quintets_exact 32 (length (concat (map (Base32.bits_of 8) src)))
              (concat (map (Base32.bits_of 8) src))) as [Hq Hf]; [lia|lia|].
  rewrite length_map, Hq.
  change ((8 - 32 mod 8) mod 8)%nat with 0%nat. cbn [repeat]. rewrite app_nil_r.
  rewrite <- chars_length, chars_ToLower. unfold chars.
  rewrite list_ascii_of_string_of_list_ascii, !length_map, Hq.
  split; [done|].
  rewrite Forall_map, Forall_map. eapply Forall_impl; [exact Hf|].
  intros g. apply digit_lower.
Qed.

Lemma Dir_flat (p : string) : "/"%char ∉ chars p → Path.Dir p = ".".
Proof. intros Hn. unfold Path.Dir. by rewrite (Split_none Path.slash p Hn). Qed.

Section BundleIdentifier.
Context `{Collaborators}.

(** X2. The identifier of a request with two or more packages is
    [bundle-] followed by thirty-two bytes of the lower-case base32
    alphabet, thirty-nine bytes in all.  It holds no slash: the artifacts of
    a bundle lie directly in the [builds] directory, the directory part of
    the identifier is [.], and the identifier is that of no one-package
    request, all of which start with [v]. *)
Theorem bundle_identifier_shape (o : buildOptions) :
  (2 ≤ length (packages o))%nat →
  ∃ digest,
    (fingerprint o).1 = "bundle-" +:+ digest ∧
    String.length digest = 32%nat ∧
    Forall lowerBase32 (chars digest) ∧
    String.length (fingerprint o).1 = 39%nat ∧
    ("/"%char ∉ chars (fingerprint o).1) ∧
    Path.Dir (fingerprint o).1 = "." ∧
    ∀ o' pkg, packages o' = [pkg] → (fingerprint o').1 ≠ (fingerprint o).1.
Proof.
  intros Hlen. rewrite (fingerprint_multi o Hlen). cbn [fst].
  set (o1 := sortOptions o). unfold bundleBuildID.
  set (digest := Str.ToLower (Base32.EncodeToString (SHA1.sum_string (canonical o1)))).
  destruct (base32_of_digest (SHA1.sum_string (canonical o1))) as [Hl Hc];
    [apply sha1_sum_length|].
  fold digest in Hl, Hc.
  assert ("/"%char ∉ chars ("bundle-" +:+ digest)) as Hflat.
  { rewrite chars_app, elem_of_app. intros [Hin|Hin].
    - revert Hin. apply (bool_decide_unpack _). by vm_compute.
    - rewrite Forall_forall in Hc. specialize (Hc _ Hin).
      revert Hc. apply (bool_decide_unpack _). by vm_compute. }
  exists digest. split_and!; [reflexivity|exact Hl|exact Hc| |exact Hflat| |].
  - rewrite <- chars_length, chars_app, length_app, !chars_length, Hl. reflexivity.
  - by apply Dir_flat.
  - intros o' pkg Hp. unfold fingerprint. rewrite Hp. cbn [fst]. unfold singleBuildID.
    change (Str.itoa buildVersion) with "1". discriminate.
Qed.

End BundleIdentifier.

Lemma bundle_identifier_shape_witness :
  let H := Sample.collaborators Sample.plain in
  let o := Sample.request [Sample.litHtml; Sample.litElement] [] false in
  (2 ≤ length (packages o))%nat ∧
  String.length (@fingerprint H o).1 = 39%nat ∧
  Path.Dir (@fingerprint H o).1 = ".".
Proof.
  intros H o.
  assert (2 ≤ length (packages o))%nat as Hlen by (simpl; lia).
  destruct (@bundle_identifier_shape H o Hlen) as (digest & _ & _ & _ & H39 & _ & Hdir & _).
  split; [exact Hlen|]. split; [exact H39|exact Hdir].
Defined.

(** ** The directory of an identifier *)

Lemma clean_go_plain_prefix (rooted : bool) (comps rest out : list string) :
  Forall plainSegment comps →
  Path.clean_go rooted (comps ++ rest) out = Path.clean_go rooted rest (rev comps ++ out).
Proof.
  revert out. induction comps as [|c comps IH]; intros out Hp; [done|].
  apply Forall_cons in Hp as [(Hn & Hd & Hdd) Hp]. simpl.
  rewrite decide_False by (intros [?|?]; done).
  rewrite decide_False by done.
  rewrite IH by done. by rewrite <- app_assoc.
Qed.

Lemma plain_not_rooted (a : string) : plain a → Str.HasPrefix a "/" = false.
Proof.
  unfold plain. destruct a as [|c a]; [done|]. intros Hp. cbn [Str.HasPrefix].
  destruct (Ascii.eqb "/" c) eqn:Hc; [|reflexivity].
  apply Ascii.eqb_eq in Hc as <-.
  rewrite Split_cons in Hp. change (Ascii.eqb "/" Path.slash) with true in Hp.
  cbv iota in Hp. apply Forall_cons in Hp as [(Hn & _) _]. done.
Qed.

(** A plain path with a slash at its end is cleaned to the path itself. *)
Lemma Clean_trailing_slash (a : string) : plain a → Path.Clean (a +:+ "/") = a.
Proof.
  intros Hp. pose proof (plain_not_rooted a Hp) as Hr.
  destruct a as [|c a]; [by apply Forall_cons in Hp as [(Hn & _) _]|].
  change (String c a +:+ "/") with (String c (a +:+ "/")).
  unfold Path.Clean.
  assert (Str.HasPrefix (String c (a +:+ "/")) "/" = false) as ->.
  { revert Hr. cbn [Str.HasPrefix]. destruct (Ascii.eqb "/" c); [|done].
    by rewrite !HasPrefix_nil. }
  cbv zeta iota.
  change (String c (a +:+ "/")) with (String c a +:+ String Path.slash "").
  rewrite Split_app. change (Str.Split "" Path.slash) with [""].
  rewrite clean_go_plain_prefix by exact Hp. rewrite app_nil_r. simpl Path.clean_go.
  rewrite rev_involutive.
  change "/" with (String Path.slash ""). rewrite Join_Split. reflexivity.
Qed.

(** The directory of a file directly under a plain path is that path. *)
Lemma Dir_under (a b : string) :
  plain a → "/"%char ∉ chars b → Path.Dir (a +:+ "/" +:+ b) = a.
Proof.
  intros Ha Hb. unfold Path.Dir.
  change (a +:+ "/" +:+ b) with (a +:+ String Path.slash b).
  rewrite Split_app, (Split_none Path.slash b Hb), rev_app_distr. cbn [rev app].
  pose proof (Split_not_nil Path.slash a) as Hne.
  destruct (rev (Str.Split a Path.slash)) as [|x front] eqn:Hrev.
  { apply (f_equal (@rev string)) in Hrev. rewrite rev_involutive in Hrev. done. }
  rewrite <- Hrev, rev_involutive.
  change "/" with (String Path.slash "") at 1. rewrite Join_Split.
  by apply Clean_trailing_slash.
Qed.

Section DefineTable.
Context `{Collaborators}.

(** X3. The table of definitions handed to the bundler replaces
    [__filename] by the URL of the artifact being built and [__dirname] by
    the URL of the directory part of the identifier.  For a one-package
    request without externals whose name, version and target make a plain
    path, that directory is [v1/<name>@<version>/<target>], the directory
    that holds the artifact. *)
Theorem define_table_locates_the_artifact (hostname : string) (pkg : module)
    (o : buildOptions) :
  packages o = [pkg] →
  external o = [] →
  let id := (fingerprint o).1 in
  let dir := "v1/" +:+ name pkg +:+ "@" +:+ version pkg +:+ "/" +:+ target o in
  let filename := (if decide (submodule pkg ≠ "") then submodule pkg else Path.Base (name pkg))
                  +:+ (if isDev o then ".development" else "") in
  plain dir →
  "/"%char ∉ chars filename →
  id = dir +:+ "/" +:+ filename ∧
  Path.Dir id = dir ∧
  ("__filename", dq +:+ "https://" +:+ hostname +:+ "/" +:+ id +:+ ".js" +:+ dq)
    ∈ defineTable hostname id o ∧
  ("__dirname", dq +:+ "https://" +:+ hostname +:+ "/" +:+ dir +:+ dq)
    ∈ defineTable hostname id o.
Proof.
  intros Hp He id dir filename Hdir Hfile.
  assert (id = dir +:+ "/" +:+ filename) as Hid.
  { subst id dir filename. unfold fingerprint. rewrite Hp. cbn [fst].
    unfold singleBuildID. rewrite He. change (Str.itoa buildVersion) with "1". cbv zeta.
    destruct (isDev o); rewrite ?string_app_empty_r, !string_app_assoc; reflexivity. }
  assert (Path.Dir id = dir) as Hd by (rewrite Hid; by apply Dir_under).
  split_and!; [done|done| |].
  - apply list_elem_of_here.
  - unfold defineTable. rewrite Hd. apply list_elem_of_further, list_elem_of_here.
Qed.

End DefineTable.

Lemma define_table_locates_the_artifact_witness :
  let H := Sample.collaborators Sample.plain in
  let o := Sample.request [Sample.preactRef] [] false in
  (@fingerprint H o).1 = "v1/preact@10.5.0/es2020" +:+ "/" +:+ "preact" ∧
  Path.Dir (@fingerprint H o).1 = "v1/preact@10.5.0/es2020" ∧
  ("__dirname", dq +:+ "https://esm.sh/v1/preact@10.5.0/es2020" +:+ dq)
    ∈ defineTable "esm.sh" (@fingerprint H o).1 o.
Proof.
  intros H o.
  assert (plain "v1/preact@10.5.0/es2020") as Hdir.
  { unfold plain. change (Str.Split "v1/preact@10.5.0/es2020" Path.slash)
      with ["v1"; "preact@10.5.0"; "es2020"].
    repeat (constructor; [split_and!; discriminate|]). constructor. }
  assert ("/"%char ∉ chars "preact") as Hfile.
  { apply (bool_decide_unpack _). vm_compute. exact I. }
  destruct (@define_table_locates_the_artifact H "esm.sh" Sample.preactRef o
              eq_refl eq_refl Hdir Hfile) as (Hid & Hd & _ & Hdn).
  split; [exact Hid|]. split; [exact Hd|exact Hdn].
Defined.

(** ** Identifiers *)

Lemma identify_app (s t : string) : identify (s +:+ t) = identify s +:+ identify t.
Proof.
  induction s as [|c s IH]; [done|].
  change (String c s +:+ t) with (String c (s +:+ t)). simpl. by rewrite IH.
Qed.

Lemma identify_plain (s : string) :
  Forall (λ c, ¬ separator c) (chars s) → identify s = s.
Proof.
  induction s as [|c s IH]; [done|]. unfold chars. simpl.
  intros [Hc Hs]%Forall_cons. rewrite decide_False by exact Hc. by rewrite IH.
Qed.

Lemma identify_no_separator (s : string) :
  Forall (λ c, ¬ separator c) (chars (identify s)).
Proof.
  induction s as [|c s IH]; [constructor|]. unfold chars in *. simpl.
  constructor; [|done].
  case_decide as Hc; [|exact Hc].
  unfold separator. intros [?|[?|[?|?]]]; discriminate.
Qed.

(** X4. [identify] turns an import path into a JavaScript identifier
    byte by byte: the result is as long as the path, holds none of the
    bytes [/], [-], [@] and [.], is the path itself when the path holds none
    of them, and so does not change when identified again; the identifier of
    a concatenation is the concatenation of the identifiers. *)
Theorem identify_replaces_separators (s : string) :
  String.length (identify s) = String.length s ∧
  Forall (λ c, ¬ separator c) (chars (identify s)) ∧
  (Forall (λ c, ¬ separator c) (chars s) → identify s = s) ∧
  identify (identify s) = identify s ∧
  ∀ t, identify (s +:+ t) = identify s +:+ identify t.
Proof.
  split_and!.
  - induction s as [|c s IH]; [done|]. simpl. by rewrite IH.
  - apply identify_no_separator.
  - apply identify_plain.
  - apply identify_plain, identify_no_separator.
  - apply identify_app.
Qed.

(** X5. Import paths that differ only in their separators get the same
    identifier: the submodule [b] of a package [a] and the package [a-b]
    have different import paths and one identifier, the one that names their
    exports in the entry of a bundle. *)
Theorem identify_merges_import_paths (a b v v' : string) :
  b ≠ "" →
  let m1 := Module_ a v b in
  let m2 := Module_ (a +:+ "-" +:+ b) v' "" in
  ImportPath m1 = a +:+ "/" +:+ b ∧
  ImportPath m2 = a +:+ "-" +:+ b ∧
  ImportPath m1 ≠ ImportPath m2 ∧
  identify (ImportPath m1) = identify (ImportPath m2).
Proof.
  intros Hb m1 m2.
  assert (ImportPath m1 = a +:+ "/" +:+ b) as E1.
  { unfold ImportPath, m1. simpl. by rewrite decide_False. }
  assert (ImportPath m2 = a +:+ "-" +:+ b) as E2 by done.
  split_and!; [done|done| |].
  - rewrite E1, E2. clear. induction a as [|c a IH]; [discriminate|].
    intros [= Heq]. by apply IH.
  - rewrite E1, E2, !identify_app. reflexivity.
Qed.

Lemma identify_merges_import_paths_witness :
  let m1 := Module_ "lodash" "4.17.21" "fp" in
  let m2 := Module_ "lodash-fp" "0.10.4" "" in
  ImportPath m1 = "lodash/fp" ∧ ImportPath m2 = "lodash-fp" ∧
  identify (ImportPath m1) = identify (ImportPath m2).
Proof.
  intros m1 m2.
  assert ("fp" ≠ "") as Hb by discriminate.
  destruct (identify_merges_import_paths "lodash" "fp" "4.17.21" "0.10.4" Hb)
    as (E1 & E2 & _ & Ei).
  split; [exact E1|]. split; [exact E2|exact Ei].
Defined.

(** ** What a call of [build] does to the store and the file system *)

Global Instance onlyRecord_refl (id : string) : Reflexive (onlyRecord id).
Proof. by intros w k. Qed.

Global Instance onlyRecord_trans (id : string) : Transitive (onlyRecord id).
Proof. intros w1 w2 w3 H1 H2 k Hk. by rewrite (H2 k Hk), (H1 k Hk). Qed.

Lemma preserves_weaken (P Q : relation World) {A : Type} (m : M A) :
  (∀ w w', P w w' → Q w w') → preserves P m → preserves Q m.
Proof. intros HPQ Hm w w' r Hr. apply HPQ. by eapply Hm. Qed.

Lemma sameStore_onlyRecord (id : string) (w w' : World) : sameStore w w' → onlyRecord id w w'.
Proof. intros Hs k _. by rewrite Hs. Qed.

Lemma sameWorld_onlyRecord (id : string) (w w' : World) : sameWorld w w' → onlyRecord id w w'.
Proof. by intros -> k _. Qed.

Section BuildEffects.
Context `{Collaborators}.

Lemma commit_onlyRecord (sd id : string) (ms : gmap string ImportMeta)
    (js : string) (css : bool) : preserves (onlyRecord id) (commit sd id ms js css).
Proof.
  unfold commit. preserve.
  - apply preserves_update. intros w. by apply sameStore_onlyRecord.
  - apply preserves_effect. intros w. apply sameStore_onlyRecord, createAndCopy_sameStore.
  - apply preserves_update. intros w k Hk. unfold db_Put.
    destruct (dbFault PutRecord); [done|]. simpl. by rewrite lookup_insert_ne.
Qed.

Lemma buildBody_onlyRecord (fuel : nat) (sd host id : string) (o : buildOptions) :
  preserves (onlyRecord id) (buildBody fuel sd host id o).
Proof.
  unfold buildBody. apply preserves_bind; try apply _; [|].
  - eapply preserves_weaken; [apply sameWorld_onlyRecord|apply collectMeta_sameWorld].
  - intros st. destruct (classifyPeers _ _ _ _) as [pp il].
    apply preserves_bind; try apply _; [|].
    + apply preserves_update. intros w. by apply sameStore_onlyRecord.
    + intros _. apply preserves_deferred; try apply _; [|].
      * intros w. by apply sameStore_onlyRecord.
      * unfold buildIn. apply preserves_bind; try apply _; [|].
        -- eapply preserves_weaken; [apply sameStore_onlyRecord|apply assemble_sameStore].
        -- intros r. apply commit_onlyRecord.
Qed.

(** X6. A call of [build] changes no record of the store but the one
    under the identifier of its request: whatever the outcome, every other
    record, built by other requests, is as it was. *)
Theorem build_touches_only_its_record (fuel : nat) (sd host : string) (o : buildOptions)
    (w : World) (k : string) :
  k ≠ (fingerprint o).1 →
  db (build fuel sd host o w).1 !! k = db w !! k.
Proof.
  intros Hk. destruct (decide (packages o = [])) as [Hnil|Hne].
  { unfold build. by rewrite Hnil. }
  rewrite (build_nonempty _ _ _ _ _ Hne).
  destruct (lookup sd (fingerprint o).1 w) as [w1 res] eqn:El.
  destruct (lookup_effect _ _ _ _ _ El) as (_ & _ & Hdb & _).
  assert (db w1 !! k = db w !! k) as H1.
  { destruct Hdb as [-> | ->]; [done|by rewrite lookup_delete_ne]. }
  destruct res as [r err|r]; [done|].
  destruct (buildBody _ _ _ _ _ w1) as [w2 out] eqn:Eb.
  pose proof (buildBody_onlyRecord _ _ _ _ _ _ _ _ Eb k Hk) as H2.
  destruct out as [[ms css]| e |]; simpl; by rewrite H2.
Qed.

(** After the step that creates the working directory, the deferred
    removal leaves nothing at it or under it. *)
Lemma buildBody_cleans (fuel : nat) (sd host id : string) (o : buildOptions)
    (w w1 w' : World) (st : metaState) (out : outcome (gmap string ImportMeta * bool))
    (p : string) :
  collectMeta o w = (w1, Ok st) →
  buildBody fuel sd host id o w = (w', out) →
  under buildDirOf p = true →
  files w' !! p = None ∧ p ∉ dirs w'.
Proof.
  intros Hc. unfold buildBody, bind. rewrite Hc.
  destruct (classifyPeers _ _ _ _) as [pp il]. unfold update, deferred.
  destruct (buildIn _ _ _ _ _ _ _ _ _) as [w2 r]. intros [= <- _] Hp.
  apply RemoveAll_gone. by rewrite resolve_buildDirOf.
Qed.

(** X7. Once a call of [build] has created its working directory, that is
    after a miss and the collection of the metas, the directory is removed
    when the call ends, whatever its outcome: success, error, or a retry
    loop cut short.  Nothing is left at it or under it. *)
Theorem working_directory_is_removed (fuel : nat) (sd host : string) (o : buildOptions)
    (w w1 w2 : World) (r0 : buildResult) (st : metaState) (p : string) :
  packages o ≠ [] →
  lookup sd (fingerprint o).1 w = (w1, Proceed r0) →
  collectMeta (fingerprint o).2 w1 = (w2, Ok st) →
  under buildDirOf p = true →
  files (build fuel sd host o w).1 !! p = None ∧ p ∉ dirs (build fuel sd host o w).1.
Proof.
  intros Hne Hl Hc Hp. rewrite (build_nonempty _ _ _ _ _ Hne), Hl.
  destruct (buildBody _ _ _ _ _ w1) as [w' out] eqn:Eb.
  pose proof (buildBody_cleans _ _ _ _ _ _ _ _ _ _ _ Hc Eb Hp) as Hgone.
  by destruct out as [[ms css]| e |].
Qed.

End BuildEffects.

Lemma build_touches_only_its_record_witness :
  let H := Sample.collaborators Sample.plain in
  let o := Sample.request [Sample.preactRef] [] false in
  Cases.reactID ≠ (@fingerprint H o).1 ∧
  db (@build H 3 "/storage" "esm.sh" o Cases.withReactBuilt).1 !! Cases.reactID =
    Some Cases.reactRecord.
Proof.
  intros H o.
  assert (Cases.reactID ≠ (@fingerprint H o).1) as Hk by discriminate.
  split; [exact Hk|].
  exact (@build_touches_only_its_record H 3 "/storage" "esm.sh" o Cases.withReactBuilt
           Cases.reactID Hk).
Defined.

Lemma working_directory_is_removed_witness :
  let H := Sample.collaborators Sample.plain in
  let o := Sample.request [Sample.preactRef] [] false in
  let p := Cases.workDir +:+ "/node_modules/preact/package.json" in
  let st := {| installList := ["preact@10.5.0"];
               metas := {[ "preact" := manifestRules Sample.preactRef
                             {| Npm := Sample.preact; Exports := []; Dts := "" |} ]};
               peerDependencies := ∅ |} in
  @collectMeta H (@fingerprint H o).2 Sample.emptyWorld = (Sample.emptyWorld, Ok st) ∧
  under (@buildDirOf H) p = true ∧
  files (@build H 3 "/storage" "esm.sh" o Sample.emptyWorld).1 !! p = None ∧
  p ∉ dirs (@build H 3 "/storage" "esm.sh" o Sample.emptyWorld).1.
Proof.
  intros H o p st.
  pose (r0 := {| buildID := Sample.preactID; importMeta := ∅; hasCSS := false |}).
  assert (packages o ≠ []) as Hne by discriminate.
  assert (@lookup H "/storage" (@fingerprint H o).1 Sample.emptyWorld
          = (Sample.emptyWorld, Proceed r0)) as Hl by (vm_compute; reflexivity).
  assert (@collectMeta H (@fingerprint H o).2 Sample.emptyWorld
          = (Sample.emptyWorld, Ok st)) as Hc by (vm_compute; reflexivity).
  assert (under (@buildDirOf H) p = true) as Hu by (vm_compute; reflexivity).
  split; [exact Hc|]. split; [exact Hu|].
  exact (@working_directory_is_removed H 3 "/storage" "esm.sh" o Sample.emptyWorld
           Sample.emptyWorld Sample.emptyWorld r0 st p Hne Hl Hc Hu).
Defined.

(** ** The install list, the peers and the externals *)

Section InstallAndExternals.
Context `{Collaborators}.



Lemma fingerprint_packages (o : buildOptions) :
  packages (fingerprint o).2 ≡ₚ packages o ∧ external (fingerprint o).2 ≡ₚ external o ∧
  target (fingerprint o).2 = target o ∧ isDev (fingerprint o).2 = isDev o.
Proof.
  unfold fingerprint. destruct (packages o) as [|a [|b l]] eqn:Hp; cbn [snd].
  - unfold sortOptions. cbn [packages external target isDev]. rewrite Hp.
    split_and!; [done|apply Sort_perm|done|done].
  - by rewrite Hp.
  - unfold sortOptions. cbn [packages external target isDev]. rewrite Hp.
    split_and!; [apply Sort_perm|apply Sort_perm|done|done].
Qed.








(** The loop of lines 341-350: the placeholder of every peer is replaced
    by the manifest read from the installed tree. *)
Lemma peers_loop_manifests (buildDir : string) (l : list (string * NpmPackage))
    (acc acc' : gmap string NpmPackage) (exts exts' : list string) (w w' : World) :
  forM l (acc, exts) (peerOne buildDir) w = (w', Ok (acc', exts')) →
  w' = w ∧
  ∀ q, if decide (q ∈ l.*1)
       then ∃ p, ParseJSONFile w (Path.Join [nodeModulesOf buildDir; q; "package.json"]) = inr p ∧
                 acc' !! q = Some p
       else acc' !! q = acc !! q.
Proof.
  revert acc exts w. induction l as [|[n p0] l IH]; intros acc exts w Hf.
  - injection Hf as <- <- _. split; [done|]. intros q.
    rewrite decide_False; [done|]. intros Hin. by apply elem_of_nil in Hin.
  - apply forM_cons_Ok_inv in Hf as (w1 & [acc1 exts1] & H1 & Hf).
    unfold peerOne in H1. cbn [fst snd] in H1.
    apply bind_Ok_inv in H1 as (w2 & w0 & [= <- <-] & H1).
    apply bind_Ok_inv in H1 as (w3 & p & Hl & [= <- <- <-]).
    destruct (ParseJSONFile w _) as [e|p'] eqn:Hparse; [done|]. injection Hl as <- <-.
    destruct (IH _ _ _ Hf) as (-> & Hall). split; [done|].
    intros q. specialize (Hall q). rewrite fmap_cons. cbn [fst].
    destruct (decide (q ∈ l.*1)) as [Hl|Hl].
    + rewrite decide_True by (by apply list_elem_of_further). done.
    + destruct (decide (q = n)) as [->|Hn].
      * rewrite decide_True by apply list_elem_of_here.
        exists p'. split; [done|]. by rewrite Hall, lookup_insert_eq.
      * rewrite decide_False by (intros [?|?]%elem_of_cons; done).
        by rewrite Hall, lookup_insert_ne.
Qed.

(** X10. The externals first handed to the bundler are the true peers,
    then the built-in modules of Node, then the external overrides, the last
    two without the names of requested packages.  With peers that are not
    requested packages no requested package is external to its own build.
    There are at most as many externals as the slice is allocated for.  The
    placeholder of each peer has been replaced by the manifest read from the
    installed tree, and the world is as it was. *)
Theorem externals_leave_out_the_requested_packages (buildDir : string) (o : buildOptions)
    (pp pp' : gmap string NpmPackage) (exts : list string) (w w' : World) :
  computeExternals buildDir o pp w = (w', Ok (pp', exts)) →
  (∀ q, q ∈ dom pp → isRequested o q = false) →
  w' = w ∧
  exts = (map_to_list pp).*1 ++
         List.filter (λ n, negb (isRequested o n)) builtInNodeModules ++
         List.filter (λ n, negb (isRequested o n)) (map name (external o)) ∧
  Forall (λ n, isRequested o n = false) exts ∧
  (length exts ≤ size pp + length builtInNodeModules + length (external o))%nat ∧
  dom pp' = dom pp ∧
  ∀ q, q ∈ dom pp →
    ∃ p, ParseJSONFile w (Path.Join [nodeModulesOf buildDir; q; "package.json"]) = inr p ∧
         pp' !! q = Some p.
Proof.
  unfold computeExternals. intros Hc Hpeers.
  apply bind_Ok_inv in Hc as (w1 & [acc e1] & Hf & Hc).
  pose proof (peers_loop _ _ _ _ _ _ _ _ Hf) as He.
  apply peers_loop_manifests in Hf as (-> & Hman).
  cbn [fst snd] in Hc. injection Hc as <- <- <-. simpl in He. subst e1.
  assert (∀ q, q ∈ (map_to_list pp).*1 ↔ q ∈ dom pp) as Hl.
  { intros x. rewrite list_elem_of_fmap, elem_of_dom. split.
    - intros ([k v] & -> & Hin). apply elem_of_map_to_list in Hin. eauto.
    - intros [v Hv]. exists (x, v). split; [done|]. by apply elem_of_map_to_list. }
  assert (∀ (l : list string), Forall (λ n, isRequested o n = false)
            (List.filter (λ n, negb (isRequested o n)) l)) as Hfilter.
  { intros l. apply Forall_forall. intros x Hx.
    apply list_elem_of_In, filter_In in Hx as [_ Hx]. by apply negb_true_iff. }
  split_and!; [done|done| | | |].
  - rewrite !Forall_app. split_and!; [|done|done].
    apply Forall_forall. intros q Hq. by apply Hpeers, Hl.
  - rewrite !length_app, length_fmap, length_map_to_list.
    pose proof (filter_length_le (notRequested o) builtInNodeModules).
    pose proof (filter_length_le (notRequested o) (map name (external o))) as Hle.
    rewrite length_map in Hle. lia.
  - apply set_eq. intros q. specialize (Hman q). rewrite !elem_of_dom.
    destruct (decide (q ∈ (map_to_list pp).*1)) as [Hin|Hin].
    + destruct Hman as (p & _ & ->). apply Hl, elem_of_dom in Hin. split; eauto.
    + by rewrite Hman.
  - intros q Hq. specialize (Hman q). by rewrite decide_True in Hman by (by apply Hl).
Qed.

End InstallAndExternals.



Lemma externals_leave_out_the_requested_packages_witness :
  let H := Sample.collaborators Sample.plain in
  let o := Sample.request [Cases.reactDomRef] [Sample.reactOverride] false in
  let pp : gmap string NpmPackage := {[ "react" := namedPackage "react" ]} in
  let pp' : gmap string NpmPackage := {[ "react" := Sample.react ]} in
  @computeExternals H Cases.workDir o pp Cases.reactInstalled =
    (Cases.reactInstalled, Ok (pp', ["react"; "fs"; "path"; "react"])) ∧
  Forall (λ n, isRequested o n = false) ["react"; "fs"; "path"; "react"] ∧
  (4 ≤ size pp + length (@builtInNodeModules H) + length (external o))%nat.
Proof.
  intros H o pp pp'.
  assert (@computeExternals H Cases.workDir o pp Cases.reactInstalled =
            (Cases.reactInstalled, Ok (pp', ["react"; "fs"; "path"; "react"]))) as Hc
    by (vm_compute; reflexivity).
  assert (∀ q, q ∈ dom pp → isRequested o q = false) as Hpeers.
  { intros q Hq. apply elem_of_dom in Hq as [p Hp].
    apply lookup_singleton_Some in Hp as [<- _]. reflexivity. }
  split; [exact Hc|].
  destruct (@externals_leave_out_the_requested_packages H Cases.workDir o pp pp' _ _ _ Hc Hpeers)
    as (_ & _ & Hall & Hlen & _).
  split; [exact Hall|exact Hlen].
Defined.

(** ** The resolve callback of the plugin *)

Lemma hexDigit_safe (n : N) : (n < 16)%N → querySafe (hexDigit n).
Proof.
  intros Hn. left.
  assert (n ∈ (N.of_nat <$> seq 0 16)) as Hin.
  { apply list_elem_of_fmap. exists (N.to_nat n). split; [lia|]. apply elem_of_seq. lia. }
  revert Hin. generalize n. apply Forall_forall.
  apply (bool_decide_unpack _). by vm_compute.
Qed.

Lemma QueryEscape_safe (s : string) : Forall querySafe (chars (QueryEscape s)).
Proof.
  induction s as [|c s IH]; [constructor|]. unfold chars in *. simpl.
  destruct (unreserved c) eqn:Hc; [|case_decide]; simpl.
  - constructor; [by left|done].
  - constructor; [right; by left|done].
  - constructor; [right; by right|].
    pose proof (N_ascii_bounded c) as Hb.
    constructor; [|constructor; [|done]]; apply hexDigit_safe.
    + apply N.Div0.div_lt_upper_bound. lia.
    + apply N.mod_lt. lia.
Qed.

Section ResolveCallback.
Context `{Collaborators}.

Lemma onResolve_foreign (c : resolveContext) (args : OnResolveArgs) :
  foreign c args →
  match packages (rcOptions c) with
  | [pkg] => if decide (Path_ args = ImportPath pkg) then Some pkg else None
  | _ => None
  end = None.
Proof.
  intros Hf. destruct (packages (rcOptions c)) as [|pkg [|? ?]] eqn:E; [done| |done].
  rewrite decide_False; [done|]. by apply Hf.
Qed.

(** X11. The callback leaves a path inside the bundle in one case only: the
    path is the import path of the package requested alone, and the file it
    resolves to, [<main>.js] or else [<main>/index.js] in the installed
    package, exists.  Every other path it answers for without error is
    marked external; for the package itself it records no CommonJS peer and
    reports no error. *)
Theorem only_the_requested_package_is_bundled (c : resolveContext) (args : OnResolveArgs) :
  let nodeModulesDir := nodeModulesOf (rcBuildDir c) in
  (∀ res side,
     onResolve c args = ((res, None), side) → External res = false →
     ∃ pkg, packages (rcOptions c) = [pkg] ∧ Path_ args = ImportPath pkg ∧
            fileExists (rcWorld c) (ResolvedPath res) = true ∧ side = None) ∧
  (∀ pkg, packages (rcOptions c) = [pkg] → Path_ args = ImportPath pkg →
     let meta := default emptyMeta (rcMetas c !! ImportPath pkg) in
     let file := Path.Join [nodeModulesDir; Name (Npm meta); ensureExt (Main (Npm meta)) ".js"] in
     let index := Path.Join [nodeModulesDir; Name (Npm meta); Main (Npm meta); "index.js"] in
     onResolve c args =
       if fileExists (rcWorld c) file
       then (({| ResolvedPath := file; External := false |}, None), None)
       else if fileExists (rcWorld c) index
            then (({| ResolvedPath := index; External := false |}, None), None)
            else (({| ResolvedPath := Path_ args; External := true |}, None), None)).
Proof.
  intros nodeModulesDir. split.
  - intros res side. unfold onResolve.
    destruct (packages (rcOptions c)) as [|pkg [|? ?]] eqn:Hp.
    2: { case_decide as Hown.
         - repeat (match goal with
                   | |- context [if ?b then _ else _] => destruct b eqn:?
                   end);
             intros [= <- <-] Hext; try discriminate Hext;
             exists pkg; split_and!; done.
         - cbv zeta.
           repeat (match goal with
                   | |- context [match ?x with _ => _ end] => destruct x eqn:?
                   end; try (intros [= <- <-] Hext; discriminate Hext));
             intros [= <- <-] Hext; discriminate Hext. }
    all: cbv zeta;
      repeat (match goal with
              | |- context [match ?x with _ => _ end] => destruct x eqn:?
              end; try (intros [= <- <-] Hext; discriminate Hext));
      intros [= <- <-] Hext; discriminate Hext.
  - intros pkg Hp Hown meta file index. unfold onResolve. rewrite Hp.
    rewrite decide_True by done. fold nodeModulesDir meta file index. cbv zeta.
    destruct (fileExists (rcWorld c) file) eqn:Hf; [by rewrite Hf|].
    by destruct (fileExists (rcWorld c) index).
Qed.

(** X12. An entry of [peerModulesForCommonjs] is made only for an importer
    that is not an ES module.  Its key is the path the callback returns,
    which is marked external and comes without error: the path asked for,
    or the polyfill package that stands in for it.  For an importer that is
    an ES module nothing is recorded. *)
Theorem commonjs_peers_are_keyed_by_the_returned_path (c : resolveContext)
    (args : OnResolveArgs) :
  (∀ r k v,
     onResolve c args = (r, Some (k, v)) →
     fromESM c args = false ∧
     r = ({| ResolvedPath := k; External := true |}, None) ∧
     (k = Path_ args ∨ polyfilledBuiltInNodeModules !! Path_ args = Some k)) ∧
  (fromESM c args = true → (onResolve c args).2 = None).
Proof.
  split.
  - intros r k v. unfold onResolve, fromESM.
    destruct (parseESModuleExports _ _ _) as [[exports esm] e]. cbn [fst snd].
    destruct (match packages (rcOptions c) with
              | [pkg] => if decide (Path_ args = ImportPath pkg) then Some pkg else None
              | _ => None
              end) as [pkg|].
    + cbv zeta. repeat (match goal with
                        | |- context [if ?b then _ else _] => destruct b eqn:?
                        end); intros [= <- <-].
    + cbv zeta. destruct esm.
      * repeat (match goal with
                | |- context [match ?x with _ => _ end] => destruct x eqn:?
                end; try (intros [= <- <-])); intros [= <- <-].
      * repeat (match goal with
                | |- context [match ?x with _ => _ end] => destruct x eqn:?
                end; try (intros [= <- <- <-]; split_and!; [done|done|auto]));
          try (intros [= <- <-]).
  - unfold onResolve, fromESM.
    destruct (parseESModuleExports _ _ _) as [[exports esm] e]. cbn [fst snd].
    intros ->. cbv zeta.
    repeat (match goal with
            | |- context [match ?x with _ => _ end] => destruct x eqn:?
            end; try done).
Qed.

(** The branch of lines 551-565: a path whose version is known. *)
Lemma onResolve_known (c : resolveContext) (args : OnResolveArgs) (v : string) :
  foreign c args →
  knownVersion c (Path_ args) = Some v →
  let o := rcOptions c in
  let p := Path_ args in
  let packageName := if Str.HasPrefix p "@" then p else beforeFirstByte p "/" in
  let filename := if isDev o then Path.Base p +:+ ".development" else Path.Base p in
  let pathname := cdnPath packageName v (target o) (ensureExt filename ".js") in
  onResolve c args =
    if fromESM c args
    then (({| ResolvedPath := pathname; External := true |}, None), None)
    else (({| ResolvedPath := p; External := true |}, None), Some (p, pathname)).
Proof.
  intros Hf Hk o p packageName filename pathname.
  unfold onResolve. rewrite (onResolve_foreign c args Hf). cbv zeta.
  unfold knownVersion in Hk. fold (fromESM c args).
  destruct (moduleSlice_Get (external (rcOptions c)) (Path_ args)) as [m|].
  - injection Hk as ->. reflexivity.
  - destruct (rcPeers c !! Path_ args) as [pkg|]; [|done]. injection Hk as ->. reflexivity.
Qed.

(** X13. An import of a package whose version is known, from an external
    override or else from the manifest of an installed peer, is pointed,
    when the importer is an ES module, at the artifact of a build of that
    package alone: the path returned is [/], the identifier that [build]
    computes for the request of this package at this version with the same
    target and mode, and [.js].  This holds for a path that is a package
    name, scoped or without a slash. *)
Theorem external_import_points_at_its_own_build (c : resolveContext)
    (args : OnResolveArgs) (v : string) :
  let o := rcOptions c in
  let p := Path_ args in
  let filename := if isDev o then Path.Base p +:+ ".development" else Path.Base p in
  foreign c args →
  knownVersion c p = Some v →
  fromESM c args = true →
  Str.HasPrefix p "@" = true ∨ "/"%char ∉ chars p →
  ensureExt filename ".js" = filename +:+ ".js" →
  onResolve c args =
    (({| ResolvedPath := "/" +:+ (fingerprint (alone p v (target o) (isDev o))).1 +:+ ".js";
         External := true |}, None), None).
Proof.
  intros o p filename Hf Hk Hesm Hname Hext.
  rewrite (onResolve_known c args v Hf Hk). cbv zeta. rewrite Hesm.
  fold o p filename. rewrite Hext.
  assert ((if Str.HasPrefix p "@" then p else beforeFirstByte p "/") = p) as ->.
  { destruct Hname as [-> | Hn]; [done|].
    destruct (Str.HasPrefix p "@"); [done|].
    unfold beforeFirstByte. by rewrite (Split_none _ _ Hn). }
  do 3 f_equal. unfold cdnPath, fingerprint, alone, singleBuildID.
  cbn [packages external target isDev name version submodule fst].
  rewrite decide_False by (intros Hne; by apply Hne).
  change (Str.itoa buildVersion) with "1". subst filename.
  destruct (isDev o); rewrite !string_app_assoc; reflexivity.
Qed.

(** X14. A path that nothing accounts for (no override, no installed
    peer, no Deno module, no polyfill package, no embedded polyfill) is
    answered without error.  An importer that is an ES module gets the URL
    of the error module, which carries the path query-escaped, hence made of
    letters, digits and [-_.~+%] only, and has no host part on [localhost].
    Any other importer keeps the path, recorded as a CommonJS peer without a
    URL, for which post-processing adds no import and leaves the [require]
    call in place. *)
Theorem unaccounted_path_is_answered_with_the_error_module (c : resolveContext)
    (args : OnResolveArgs) (e : error) :
  let o := rcOptions c in
  let p := Path_ args in
  let sentinel := "/_error.js?type=resolve&name=" +:+ QueryEscape p in
  foreign c args →
  knownVersion c p = None →
  ¬ (target o = "deno" ∧ p ∈ denoStdNodeModules) →
  polyfilledBuiltInNodeModules !! p = None →
  embedFS_Open ("polyfills/node_" +:+ p +:+ ".js") = Some e →
  onResolve c args =
    (if fromESM c args
     then (({| ResolvedPath := if decide (rcHostname c ≠ "localhost")
                               then "https://" +:+ rcHostname c +:+ sentinel else sentinel;
               External := true |}, None), None)
     else (({| ResolvedPath := p; External := true |}, None), Some (p, ""))) ∧
  Forall querySafe (chars (QueryEscape p)) ∧
  ∀ eol out, rewirePeers eol [(p, "")] out = ([], out).
Proof.
  intros o p sentinel Hf Hk Hdeno Hpoly Hembed. split_and!.
  - subst o p sentinel.
    unfold onResolve. rewrite (onResolve_foreign c args Hf). cbv zeta.
    unfold knownVersion in Hk. fold (fromESM c args).
    destruct (moduleSlice_Get (external (rcOptions c)) (Path_ args)) as [m|]; [done|].
    destruct (rcPeers c !! Path_ args) as [pkg|]; [done|].
    rewrite decide_False by done. rewrite Hpoly, Hembed. reflexivity.
  - apply QueryEscape_safe.
  - intros eol out. reflexivity.
Qed.

End ResolveCallback.

Lemma external_import_points_at_its_own_build_witness :
  let H := Sample.collaborators Sample.plain in
  let c := Cases.reactDomContext in
  let args := {| Path_ := "react"; Importer := Cases.workDir +:+ "/node_modules/react-dom/index.js" |} in
  @knownVersion c "react" = Some "17.0.2" ∧
  @fromESM H c args = true ∧
  @onResolve H c args =
    (({| ResolvedPath := "/v1/react@17.0.2/es2020/react.js"; External := true |}, None), None).
Proof.
  intros H c args.
  assert (@foreign c args) as Hf.
  { intros pkg [= <-]. discriminate. }
  assert (Str.HasPrefix "react" "@" = true ∨ "/"%char ∉ chars "react") as Hname.
  { right. apply (bool_decide_unpack _). vm_compute. exact I. }
  split; [reflexivity|]. split; [reflexivity|].
  exact (@external_import_points_at_its_own_build H c args "17.0.2"
           Hf eq_refl eq_refl Hname eq_refl).
Defined.

Lemma unaccounted_path_is_answered_with_the_error_module_witness :
  let H := Sample.collaborators Sample.plain in
  let c := Cases.preactContext in
  let args := {| Path_ := "left pad"; Importer := Cases.workDir +:+ "/node_modules/preact/index.js" |} in
  @onResolve H c args =
    (({| ResolvedPath := "https://esm.sh/_error.js?type=resolve&name=left+pad";
         External := true |}, None), None).
Proof.
  intros H c args.
  assert (@foreign c args) as Hf.
  { intros pkg [= <-]. discriminate. }
  assert (¬ (target (rcOptions c) = "deno" ∧ "left pad" ∈ @denoStdNodeModules H)) as Hd.
  { intros [Ht _]. discriminate Ht. }
  exact (proj1 (@unaccounted_path_is_answered_with_the_error_module H c args
                  (ErrNotExist "polyfills/node_left pad.js") Hf eq_refl Hd eq_refl eq_refl)).
Defined.

(** ** The errors of a bundler run *)

Lemma missingModule_quoted (m rest : string) :
  dquote ∉ chars m → missingModule (resolutionPrefix +:+ m +:+ dq +:+ rest) = m.
Proof.
  intros Hm. unfold missingModule, resolutionPrefix, dq.
  rewrite string_app_assoc.
  change ("Could not resolve " +:+ String dquote "" +:+ (m +:+ String dquote "" +:+ rest))
    with ("Could not resolve " +:+ String dquote (m +:+ String dquote rest)).
  rewrite !Split_app, (Split_none dquote m Hm). reflexivity.
Qed.

Section RunOutcomes.
Context `{Collaborators}.

(** X15. The name of a module the bundler could not resolve is read from
    between the first two double quotes of the error text.  For a text
    [Could not resolve "<m>"<rest>] with a name free of double quotes this
    is [m] itself, and the scan notes it and marks it for the externals
    unless it is empty or was noted before. *)
Theorem missing_module_is_the_quoted_name (m rest : string) (ind : gset string)
    (extra : list string) :
  dquote ∉ chars m →
  let text := resolutionPrefix +:+ m +:+ dq +:+ rest in
  Str.HasPrefix text resolutionPrefix = true ∧
  missingModule text = m ∧
  scanErrors [text] ind extra =
    inr (if decide (m ≠ "" ∧ m ∉ ind) then ({[m]} ∪ ind, extra ++ [m]) else (ind, extra)).
Proof.
  intros Hm text.
  assert (Str.HasPrefix text resolutionPrefix = true) as Hp by apply HasPrefix_app.
  assert (missingModule text = m) as Hmm by (by apply missingModule_quoted).
  split_and!; [done|done|].
  cbn [scanErrors]. fold resolutionPrefix. rewrite Hp, Hmm. by case_decide.
Qed.

(** X16. An error of the bundler that is not a resolution failure ends the
    build: the run, and with it the retry loop whatever its fuel, fails with
    [esbuild: ] and the text of the first such error, however many
    resolution failures were reported before or after it.  A run is fatal
    in no other way. *)
Theorem other_error_ends_the_build (c : resolveContext) (id stub : string)
    (ext : list string) (ind : gset string) :
  (∀ pre text post,
     runErrors c id stub ext = pre ++ text :: post →
     Forall (λ t, Str.HasPrefix t resolutionPrefix = true) pre →
     Str.HasPrefix text resolutionPrefix = false →
     esbuildRun c id stub ext ind = Fatal (Err ("esbuild: " +:+ text)) ∧
     ∀ fuel, esbuildLoop (S fuel) c id stub ext ind = Failed (Err ("esbuild: " +:+ text))) ∧
  (∀ e, esbuildRun c id stub ext ind = Fatal e →
     ∃ text, text ∈ runErrors c id stub ext ∧
             Str.HasPrefix text resolutionPrefix = false ∧
             e = Err ("esbuild: " +:+ text)).
Proof.
  split.
  - intros pre text post Herrs Hpre Htext.
    assert (esbuildRun c id stub ext ind = Fatal (Err ("esbuild: " +:+ text))) as Hrun.
    { unfold esbuildRun. unfold runErrors in Herrs.
      destruct (api_Build _ _) as [result calls]. simpl in Herrs.
      by rewrite Herrs, scanErrors_fatal. }
    split; [done|]. intros fuel. simpl. by rewrite Hrun.
  - intros e. unfold esbuildRun, runErrors.
    destruct (api_Build _ _) as [result calls]. simpl.
    destruct (scanErrors _ _ _) as [e'|[ind1 [|x extra]]] eqn:Hs; [|done..].
    intros [= ->].
    apply scanErrors_fatal_inv in Hs as (pre & text & post & Herrs & _ & Htext & ->).
    exists text. split_and!; [|done|done].
    rewrite Herrs. apply elem_of_app. right. apply list_elem_of_here.
Qed.

(** X17. A run of the bundler is taken as it is, errors and all, exactly
    when each of its errors is a resolution failure whose module name is
    empty or already among the indirect requires: the loop then ends with
    the output of this run and the build goes on to post-processing. *)
Theorem failures_without_new_names_pass (c : resolveContext) (id stub : string)
    (ext : list string) (ind : gset string) :
  let run := api_Build (bundlerOptions c id stub ext) (λ args, (onResolve c args).1) in
  (Forall (λ t, Str.HasPrefix t resolutionPrefix = true ∧
                (missingModule t = "" ∨ missingModule t ∈ ind))
          (runErrors c id stub ext) ↔
   esbuildRun c id stub ext ind = Bundled run.1 (sideMap c run.2)) ∧
  (esbuildRun c id stub ext ind = Bundled run.1 (sideMap c run.2) →
   ∀ fuel, esbuildLoop (S fuel) c id stub ext ind = Ok (run.1, sideMap c run.2)).
Proof.
  intros run. split.
  - rewrite (scanErrors_nothing_new _ ind []).
    unfold esbuildRun, runErrors. subst run.
    destruct (api_Build _ _) as [result calls]. simpl.
    destruct (scanErrors _ _ _) as [e'|[ind1 [|x extra]]] eqn:Hs; split; try done.
    apply scanErrors_spec in Hs as (new & Hex & -> & _). simpl in Hex. subst new.
    by rewrite list_to_set_nil, union_empty_l_L.
  - intros Hrun fuel. simpl. by rewrite Hrun.
Qed.

End RunOutcomes.

Lemma missing_module_is_the_quoted_name_witness :
  let text := resolutionPrefix +:+ "fs" +:+ dq +:+
              " (mark it as external to exclude it from the bundle)" in
  missingModule text = "fs" ∧
  scanErrors [text] ∅ ["path"] = inr ({[ "fs" ]} ∪ ∅, ["path"; "fs"]).
Proof.
  intros text.
  assert (dquote ∉ chars "fs") as Hm.
  { apply (bool_decide_unpack _). vm_compute. exact I. }
  destruct (missing_module_is_the_quoted_name "fs"
              " (mark it as external to exclude it from the bundle)" ∅ ["path"] Hm)
    as (_ & Hname & Hscan).
  split; [exact Hname|]. exact Hscan.
Defined.

Lemma other_error_ends_the_build_witness :
  let H := Sample.collaborators Sample.bundlerFails in
  let c := Cases.preactContext in
  @runErrors H c Sample.preactID "" ["fs"; "path"] = ["Unexpected token"] ∧
  @esbuildLoop H 1 c Sample.preactID "" ["fs"; "path"] ∅ =
    Failed (Err "esbuild: Unexpected token").
Proof.
  intros H c. split; [reflexivity|].
  destruct (@other_error_ends_the_build H c Sample.preactID "" ["fs"; "path"] ∅) as [Hfatal _].
  destruct (Hfatal [] "Unexpected token" [] eq_refl (Forall_nil_2 _) eq_refl) as [_ Hloop].
  exact (Hloop 0%nat).
Defined.

Lemma failures_without_new_names_pass_witness :
  let H := Sample.collaborators Sample.indirectFs in
  let c := Cases.preactContext in
  let text := "Could not resolve " +:+ dq +:+ "fs" +:+ dq +:+
              " (mark it as external to exclude it from the bundle)" in
  @runErrors H c Sample.preactID "" ["path"] = [text] ∧
  @esbuildLoop H 1 c Sample.preactID "" ["path"] {[ "fs" ]} =
    Ok ({| OutputFiles := []; Warnings := []; Errors := [text] |}, ∅).
Proof.
  intros H c text. split; [reflexivity|].
  destruct (@failures_without_new_names_pass H c Sample.preactID "" ["path"] {[ "fs" ]})
    as [Hiff Hloop].
  apply (Hloop (proj1 Hiff ltac:(
    constructor; [split; [reflexivity|right; apply elem_of_singleton; reflexivity]
                 |constructor])) 0%nat).
Defined.

(** ** Post-processing of the output files *)

Lemma effect_Ok_inv (f : World → World * option error) (w w' : World) (u : unit) :
  effect f w = (w', Ok u) → f w = (w', None).
Proof. unfold effect. destruct (f w) as [w1 [e|]]; [done|]. by intros [= <-]. Qed.

Section OutputFiles.
Context `{Collaborators}.

Lemma createAndCopy_Ok (p content : string) (w w' : World) :
  createAndCopy p content w = (w', None) →
  w' = set_files (<[resolve w p := content]> (files w)) w.
Proof.
  unfold createAndCopy. destruct (createFault p); [done|].
  destruct (copyFault p); [done|]. by intros [= <-].
Qed.

Lemma outputOne_Ok (sd id : string) (o : buildOptions) (side : gmap string string)
    (f : OutputFile) (buf buf' : string) (b b' : bool) (w w' : World) :
  outputOne sd id o side f (buf, b) w = (w', Ok (buf', b')) →
  (∃ rest, buf' = buf +:+ rest) ∧
  if isStylesheet f
  then b' = true ∧
       w' = set_files (<[resolve w (sidecar sd id ".css") := Contents f]> (files w))
              (ensureDir (Path.Dir (sidecar sd id ".css")) w)
  else b' = b ∧ w' = w.
Proof.
  unfold outputOne, isStylesheet.
  destruct (Str.HasSuffix (FilePath f) ".js") eqn:Hjs; cbn [negb andb fst snd].
  - intros [= <- <- <-]. split; [|done].
    unfold processJS. destruct (jsPreludes o side (Contents f)) as [pre out]. eauto.
  - destruct (Str.HasSuffix (FilePath f) ".css") eqn:Hcss.
    + intros Hb. apply bind_Ok_inv in Hb as (w1 & [] & [= <-] & Hb).
      apply bind_Ok_inv in Hb as (w2 & [] & He & [= <- <- <-]).
      apply effect_Ok_inv, createAndCopy_Ok in He. split; [|done].
      exists "". by rewrite string_app_empty_r.
    + intros [= <- <- <-]. split; [|done]. exists "". by rewrite string_app_empty_r.
Qed.

(** The loop of lines 641-696, from any buffer and any flag. *)
Lemma outputs_loop (sd id : string) (o : buildOptions) (side : gmap string string)
    (l : list OutputFile) (buf js : string) (b css : bool) (w w' : World) :
  forM l (buf, b) (outputOne sd id o side) w = (w', Ok (js, css)) →
  (∃ rest, js = buf +:+ rest) ∧
  (css = true ↔ b = true ∨ Exists (λ f, isStylesheet f = true) l) ∧
  (Exists (λ f, isStylesheet f = true) l →
   ∃ f, f ∈ l ∧ isStylesheet f = true ∧
        files w' !! resolve w' (sidecar sd id ".css") = Some (Contents f)) ∧
  (Forall (λ f, isStylesheet f = false) l → w' = w) ∧
  cwd w' = cwd w.
Proof.
  revert buf b w. induction l as [|f l IH]; intros buf b w Hf.
  - injection Hf as <- <- <-. split_and!.
    + exists "". by rewrite string_app_empty_r.
    + rewrite Exists_nil. tauto.
    + by intros ?%Exists_nil.
    + done.
    + done.
  - apply forM_cons_Ok_inv in Hf as (w1 & [buf1 b1] & H1 & Hf).
    apply outputOne_Ok in H1 as [[rest1 ->] H1].
    destruct (IH _ _ _ Hf) as ([rest ->] & Hcss & Hfile & Hsame & Hcwd).
    assert (cwd w1 = cwd w) as Hcwd1.
    { by destruct (isStylesheet f); destruct H1 as [_ ->]. }
    split_and!.
    + exists (rest1 +:+ rest). by rewrite string_app_assoc.
    + rewrite Hcss, Exists_cons.
      destruct (isStylesheet f); destruct H1 as [-> _]; intuition congruence.
    + intros Hex.
      destruct (decide (Exists (λ f, isStylesheet f = true) l)) as [Hl|Hl].
      * destruct (Hfile Hl) as (f' & Hin & Hs & Hc).
        exists f'. split_and!; [by apply list_elem_of_further|done|done].
      * apply Exists_cons in Hex as [Hs|?]; [|done].
        rewrite Hs in H1. destruct H1 as [_ ->].
        rewrite Hsame.
        -- exists f. split_and!; [apply list_elem_of_here|done|].
           rewrite (resolve_same w) by done. cbn [files set_files].
           by rewrite lookup_insert_eq.
        -- apply Forall_forall. intros x Hx. apply not_true_is_false. intros Hxs.
           apply Hl, Exists_exists. eauto.
    + intros [Hs Hl]%Forall_cons. rewrite Hs in H1. destruct H1 as [_ ->]. by apply Hsame.
    + congruence.
Qed.

(** X18. Post-processing that succeeds returns the css flag set exactly
    when the bundler emitted a stylesheet, an output file whose path ends in
    [.css]; the [.css] sidecar then holds the content of one of them (the
    last).  Without a stylesheet the file system is left as it was.  The
    text of the artifact starts with the banner and the list of bundled
    dependencies: the loop only appends. *)
Theorem css_flag_tells_of_a_stylesheet (sd id : string) (o : buildOptions)
    (ms : gmap string ImportMeta) (result : BuildResult) (side : gmap string string)
    (w w' : World) (js : string) (css : bool) :
  postProcess sd id o ms result side w = (w', Ok (js, css)) →
  (css = true ↔ ∃ f, f ∈ OutputFiles result ∧ isStylesheet f = true) ∧
  (css = true →
   ∃ f, f ∈ OutputFiles result ∧ isStylesheet f = true ∧
        files w' !! resolve w' (sidecar sd id ".css") = Some (Contents f)) ∧
  (css = false → w' = w) ∧
  ∃ rest, js = banner o +:+ bundledDependencies o ms +:+ rest.
Proof.
  unfold postProcess. intros Hf.
  apply outputs_loop in Hf as ([rest ->] & Hcss & Hfile & Hsame & _).
  assert (css = true ↔ Exists (λ f, isStylesheet f = true) (OutputFiles result)) as Hiff.
  { rewrite Hcss. intuition congruence. }
  split_and!.
  - rewrite Hiff. apply Exists_exists.
  - intros Hc. by apply Hfile, Hiff.
  - intros Hc. apply Hsame. apply Forall_forall. intros f Hin.
    apply not_true_is_false. intros Hs.
    assert (css = true) by (apply Hiff, Exists_exists; eauto). congruence.
  - exists rest. by rewrite string_app_assoc.
Qed.

End OutputFiles.

Lemma css_flag_tells_of_a_stylesheet_witness :
  let H := Sample.collaborators Sample.plain in
  let o := Sample.request [Sample.preactRef] [] false in
  let w' := (@postProcess H "/storage" Sample.preactID o Sample.sampleMetas
               Cases.scriptAndStyle ∅ Sample.emptyWorld).1 in
  @postProcess H "/storage" Sample.preactID o Sample.sampleMetas Cases.scriptAndStyle ∅
     Sample.emptyWorld = (w', Ok (@banner H o +:+ "export{h};", true)) ∧
  ∃ f, f ∈ OutputFiles Cases.scriptAndStyle ∧ isStylesheet f = true ∧
       files w' !! "/storage/builds/v1/preact@10.5.0/es2020/preact.css" = Some (Contents f).
Proof.
  intros H o w'.
  assert (@postProcess H "/storage" Sample.preactID o Sample.sampleMetas Cases.scriptAndStyle ∅
            Sample.emptyWorld = (w', Ok (@banner H o +:+ "export{h};", true))) as Hp
    by (vm_compute; reflexivity).
  split; [exact Hp|].
  destruct (@css_flag_tells_of_a_stylesheet H "/storage" Sample.preactID o Sample.sampleMetas
              Cases.scriptAndStyle ∅ _ _ _ _ Hp) as (_ & Hfile & _).
  exact (Hfile eq_refl).
Defined.

(** ** Rooted paths *)

(** Cleaning below the root leaves ordinary segments only: [..] cannot
    climb out. *)
Lemma clean_go_rooted (comps out : list string) :
  Forall plainSegment out → Forall plainSegment (Path.clean_go true comps out).
Proof.
  revert out. induction comps as [|c comps IH]; intros out Hout; simpl.
  - by apply Forall_rev.
  - case_decide as Hc; [by apply IH|].
    case_decide as Hdd.
    + destruct out as [|o out']; [by apply IH|].
      apply Forall_cons in Hout as [Ho Hout'].
      case_decide as Ho'; [|by apply IH].
      by destruct Ho as (_ & _ & ?).
    + apply IH. constructor; [|done]. unfold plainSegment. tauto.
Qed.

Lemma Join_under_root (t : string) :
  ∃ segs, Forall plainSegment segs ∧ Path.Join ["/"; t] = "/" +:+ Str.Join segs "/".
Proof.
  destruct (decide (t = "")) as [->|Ht].
  - exists []. split; [constructor|reflexivity].
  - unfold Path.Join. rewrite !filter_cons_True by done. rewrite filter_nil.
    change (Str.Join ["/"; t] "/") with (String "/" (String "/" t)).
    eexists. split; [|reflexivity]. apply clean_go_rooted. constructor.
Qed.

Section TypesPath.
Context `{Collaborators}.

(** X19. The path [getTypesPath] builds for the declarations of a package
    is the name and version of the package followed by the extension-ensured
    form of a rooted, cleaned path: whatever the manifest declares as [types],
    [typings] or [main], and whatever the subpath, the segments are ordinary
    ones, so that no [..] leads out of the package. *)
Theorem types_path_stays_inside_the_package (w : World) (nodeModulesDir : string)
    (p : NpmPackage) (subpath : string) :
  ∃ segs,
    Forall plainSegment segs ∧
    getTypesPath w nodeModulesDir p subpath =
      Name p +:+ "@" +:+ Version p +:+ ensureExt ("/" +:+ Str.Join segs "/") ".d.ts".
Proof.
  unfold getTypesPath. cbv zeta.
  match goal with
  | |- context [ensureExt (Path.Join ["/"; ?t]) _] =>
      destruct (Join_under_root t) as (segs & Hsegs & ->)
  end.
  by exists segs.
Qed.

End TypesPath.

(** ** Imports put before the output *)

Section Preludes.
Context `{Collaborators}.

(** The loop of lines 651-664 keeps the imports it has and adds one for
    every entry that has a URL. *)
Lemma rewirePeers_imports (eol : string) (entries : list (string * string))
    (acc : list string) (out : string) :
  let imports := (fold_left (λ acc entry,
          let '(name, importPath) := entry in
          if decide (importPath ≠ "") then
            (acc.1 ++ [peerPrelude eol name importPath],
             Str.ReplaceAll acc.2 ("require(" +:+ dq +:+ name +:+ dq +:+ ")")
                                  ("__" +:+ identify name +:+ "$"))
          else acc) entries (acc, out)).1 in
  (∀ x, x ∈ acc → x ∈ imports) ∧
  (∀ name url, (name, url) ∈ entries → url ≠ "" → peerPrelude eol name url ∈ imports).
Proof.
  revert acc out. induction entries as [|[n u] entries IH]; intros acc out; simpl.
  - split; [done|]. intros name url Hin. by apply elem_of_nil in Hin.
  - case_decide as Hu.
    + destruct (IH (acc ++ [peerPrelude eol n u])
                   (Str.ReplaceAll out ("require(" +:+ dq +:+ n +:+ dq +:+ ")")
                                       ("__" +:+ identify n +:+ "$"))) as [IHa IHe].
      split.
      * intros x Hx. apply IHa, elem_of_app. by left.
      * intros name url Hin Hurl. apply elem_of_cons in Hin as [[= -> ->]|Hin].
        -- apply IHa, elem_of_app. right. apply list_elem_of_here.
        -- by apply IHe.
    + destruct (IH acc out) as [IHa IHe]. split; [done|].
      intros name url Hin Hurl. apply elem_of_cons in Hin as [[= -> ->]|Hin]; [|by apply IHe].
      by destruct Hurl.
Qed.

(** X20. A CommonJS peer named [process] is imported under the name
    [__process$], which is also the name the polyfill of the [process]
    global is imported under.  Whatever the other CommonJS peers, when the
    output of the bundler uses that global and the peer has a URL, the lines
    put before the output hold both imports, two declarations of the same
    name. *)
Theorem process_peer_is_imported_twice (o : buildOptions) (side : gmap string string)
    (url contents : string) :
  side !! "process" = Some url →
  url ≠ "" →
  Str.Contains contents "__process$" = true →
  let imports := (jsPreludes o side contents).1 in
  processPrelude (eolOf o) (envOf o) ∈ imports ∧
  peerPrelude (eolOf o) "process" url ∈ imports ∧
  (∃ rest, processPrelude (eolOf o) (envOf o) = "import __process$ from " +:+ rest) ∧
  (∃ rest, peerPrelude (eolOf o) "process" url = "import __process$ from " +:+ rest).
Proof.
  intros Hside Hurl Hc imports. subst imports. unfold jsPreludes.
  rewrite Hc.
  destruct (rewirePeers (eolOf o) (map_to_list side) contents) as [p3 out] eqn:Hr.
  cbn [fst snd].
  assert (peerPrelude (eolOf o) "process" url ∈ p3) as Hpeer.
  { assert (p3 = (rewirePeers (eolOf o) (map_to_list side) contents).1) as ->
      by (by rewrite Hr).
    unfold rewirePeers.
    destruct (rewirePeers_imports (eolOf o) (map_to_list side) [] contents) as [_ Hall].
    apply Hall; [|done]. by apply elem_of_map_to_list. }
  split_and!.
  - apply elem_of_app. left. apply list_elem_of_here.
  - rewrite !elem_of_app. do 2 right. by left.
  - eexists. reflexivity.
  - eexists. reflexivity.
Qed.

End Preludes.

Lemma process_peer_is_imported_twice_witness :
  let H := Sample.collaborators Sample.plain in
  let o := Sample.request [Sample.preactRef] [] false in
  let url := "/v1/_node_process.js" in
  let side : gmap string string := {[ "process" := url; "fs" := ""; "util" := "/v1/_node_util.js" ]} in
  let contents := "if(__process$.browser)module.exports=__process$;" in
  Str.Contains contents "__process$" = true ∧
  processPrelude (@eolOf H o) (envOf o) ∈ (@jsPreludes H o side contents).1 ∧
  peerPrelude (@eolOf H o) "process" url ∈ (@jsPreludes H o side contents).1.
Proof.
  intros H o url side contents.
  assert (url ≠ "") as Hu by discriminate.
  destruct (@process_peer_is_imported_twice H o side url contents eq_refl Hu eq_refl)
    as (H1 & H2 & _).
  split; [reflexivity|]. split; [exact H1|exact H2].
Defined.

(** ** A successful build, step by step *)

Global Instance sameDir_refl : Reflexive sameDir.
Proof. by intros w. Qed.

Global Instance sameDir_trans : Transitive sameDir.
Proof. intros w1 w2 w3 H1 H2. unfold sameDir in *. congruence. Qed.

Section SuccessfulBuild.
Context `{Collaborators}.

Lemma createAndCopy_sameDir (p content : string) (w : World) :
  sameDir w (createAndCopy p content w).1.
Proof. unfold createAndCopy. by destruct (createFault p), (copyFault p). Qed.

(** Closes a goal [preserves sameDir m] for a step that does not change
    directory. *)
Ltac dir_kept :=
  preserve;
  first [ apply preserves_update; intros ?; unfold sameDir; reflexivity
        | apply preserves_effect; intros ?; apply createAndCopy_sameDir ].

(** The installation leaves the process in the working directory; the steps
    after it do not change directory. *)
Lemma install_Ok (buildDir : string) (il : list string) (w w' : World) :
  install buildDir il w = (w', Ok tt) → cwd w' = resolve w buildDir.
Proof.
  unfold install. intros Hi.
  apply bind_Ok_inv in Hi as (w1 & [] & Hcd & Hi).
  apply effect_Ok_inv in Hcd. unfold Chdir in Hcd.
  destruct (chdirFault buildDir); [done|]. injection Hcd as <-.
  destruct (yarnAdd il) as [err tree].
  apply bind_Ok_inv in Hi as (w2 & [] & [= <-] & Hi).
  destruct err; [done|]. by injection Hi as <-.
Qed.

Lemma probeAll_sameDir (buildDir : string) (o : buildOptions) (ms : gmap string ImportMeta) :
  preserves sameDir (probeAll buildDir o ms).
Proof. dir_kept. Qed.

Lemma typesAll_sameDir (sd host buildDir : string) (o : buildOptions)
    (ms : gmap string ImportMeta) : preserves sameDir (typesAll sd host buildDir o ms).
Proof. dir_kept. Qed.

Lemma computeExternals_sameDir (buildDir : string) (o : buildOptions)
    (pp : gmap string NpmPackage) : preserves sameDir (computeExternals buildDir o pp).
Proof. dir_kept. Qed.

Lemma postProcess_sameDir (sd id : string) (o : buildOptions)
    (ms : gmap string ImportMeta) (result : BuildResult) (side : gmap string string) :
  preserves sameDir (postProcess sd id o ms result side).
Proof. dir_kept. Qed.

Lemma commit_sameDir (sd id : string) (ms : gmap string ImportMeta) (js : string)
    (css : bool) : preserves sameDir (commit sd id ms js css).
Proof.
  unfold commit. preserve.
  - by apply preserves_update.
  - apply preserves_effect. intros w. apply createAndCopy_sameDir.
  - apply preserves_update. intros w. unfold db_Put. by destruct (dbFault PutRecord).
Qed.

Lemma assemble_Ok (fuel : nat) (sd host id : string) (o : buildOptions) (st : metaState)
    (pp : gmap string NpmPackage) (il : list string) (w w' : World)
    (ms : gmap string ImportMeta) (js : string) (css : bool) :
  assemble fuel sd host id o st pp il w = (w', Ok (ms, (js, css))) →
  ∃ wa wb wc wd ms1 ext bundled,
    install buildDirOf il w = (wa, Ok tt) ∧
    probeAll buildDirOf o (metas st) wa = (wb, Ok ms1) ∧
    typesAll sd host buildDirOf o ms1 wb = (wc, Ok ms) ∧
    computeExternals buildDirOf o pp wc = (wd, Ok ext) ∧
    esbuildLoop fuel {| rcWorld := wd; rcHostname := host; rcOptions := o; rcMetas := ms;
                        rcBuildDir := buildDirOf; rcPeers := ext.1 |}
                id (entryStub o ms) ext.2 ∅ = Ok bundled ∧
    postProcess sd id o ms bundled.1 bundled.2 wd = (w', Ok (js, css)).
Proof.
  unfold assemble. intros Ha.
  apply bind_Ok_inv in Ha as (wa & [] & Hi & Ha).
  apply bind_Ok_inv in Ha as (wb & ms1 & Hp & Ha).
  apply bind_Ok_inv in Ha as (wc & ms2 & Ht & Ha).
  apply bind_Ok_inv in Ha as (wd & ext & He & Ha).
  apply bind_Ok_inv in Ha as (wd' & w0 & [= <- <-] & Ha).
  apply bind_Ok_inv in Ha as (wd' & bundled & Hb & Ha).
  apply bind_Ok_inv in Ha as (w2 & out & Hpost & Ha).
  injection Hb as <- Hb. injection Ha as <- <- <-.
  exists wa, wb, wc, wd, ms1, ext, bundled. split_and!; done.
Qed.

Lemma commit_Ok (sd id : string) (ms ms' : gmap string ImportMeta) (js : string)
    (css css' : bool) (w w' : World) :
  commit sd id ms js css w = (w', Ok (ms', css')) →
  ms' = ms ∧ css' = css ∧
  files w' = <[resolve w (sidecar sd id ".js") := js]> (files w) ∧
  db w' = match dbFault PutRecord with
          | Some _ => db w
          | None => <[id := {[ "importMeta" := MustEncodeJSON ms;
                               "css" := if css then cssBit else noCssBit ]}]> (db w)
          end.
Proof.
  unfold commit. intros Hc.
  apply bind_Ok_inv in Hc as (w1 & [] & [= <-] & Hc).
  apply bind_Ok_inv in Hc as (w2 & [] & He & Hc).
  apply bind_Ok_inv in Hc as (w3 & [] & [= <-] & [= <- <- <-]).
  apply effect_Ok_inv, createAndCopy_Ok in He as ->.
  unfold db_Put. destruct (dbFault PutRecord); split_and!; done.
Qed.

(** What a call that went past the lookup and ended well has done. *)
Lemma build_Ok_inv (fuel : nat) (sd host : string) (o : buildOptions)
    (w w1 w' : World) (r0 ret : buildResult) :
  packages o ≠ [] →
  lookup sd (fingerprint o).1 w = (w1, Proceed r0) →
  build fuel sd host o w = (w', Finished ret None) →
  let id := (fingerprint o).1 in
  let o' := (fingerprint o).2 in
  ∃ st pp il w2 w3 js,
    collectMeta o' w1 = (w1, Ok st) ∧
    classifyPeers o' (metas st) (map_to_list (peerDependencies st)) (installList st)
      = (pp, il) ∧
    assemble fuel sd host id o' st pp il (ensureDir buildDirOf w1)
      = (w2, Ok (importMeta ret, (js, hasCSS ret))) ∧
    commit sd id (importMeta ret) js (hasCSS ret) w2 = (w3, Ok (importMeta ret, hasCSS ret)) ∧
    w' = RemoveAll buildDirOf w3 ∧
    buildID ret = id.
Proof.
  intros Hne Hl. rewrite (build_nonempty _ _ _ _ _ Hne), Hl.
  unfold buildBody, bind.
  destruct (collectMeta _ w1) as [w1' [st| e |]] eqn:Hc; [| |done].
  2: { intros ?; discriminate. }
  assert (w1' = w1) as -> by (by eapply collectMeta_sameWorld).
  destruct (classifyPeers _ _ _ _) as [pp il] eqn:Hp.
  unfold update, deferred. cbv beta iota.
  destruct (buildIn fuel sd host (fingerprint o).1 (fingerprint o).2 st pp il
              (ensureDir buildDirOf w1)) as [w3 r] eqn:Hb.
  destruct r as [[ms css]| e |]; [|intros ?; discriminate|done].
  intros [= <- <-]. cbn [importMeta hasCSS buildID].
  unfold buildIn in Hb.
  apply bind_Ok_inv in Hb as (w2 & [ms1 [js css1]] & Ha & Hcommit).
  cbn [fst snd] in Hcommit.
  destruct (commit_Ok _ _ _ _ _ _ _ _ _ Hcommit) as (-> & -> & _).
  exists st, pp, il, w2, w3, js. split_and!; done.
Qed.

Lemma RemoveAll_keeps (d p : string) (w : World) :
  under (resolve w d) p = false → files (RemoveAll d w) !! p = files w !! p.
Proof.
  intros Hu. unfold RemoveAll. simpl.
  destruct (files w !! p) as [c|] eqn:Hp.
  - by apply map_lookup_filter_Some.
  - apply map_lookup_filter_None. by left.
Qed.

(** Where a call that went past the lookup and ended well leaves the world:
    the process is in the working directory, the artifact has been written
    from there, the record has been put, and the working directory has been
    removed. *)
Lemma build_Ok_end (fuel : nat) (sd host : string) (o : buildOptions)
    (w w1 w' : World) (r0 ret : buildResult) :
  packages o ≠ [] →
  lookup sd (fingerprint o).1 w = (w1, Proceed r0) →
  build fuel sd host o w = (w', Finished ret None) →
  ∃ w2 w3 js,
    w' = RemoveAll buildDirOf w3 ∧
    cwd w2 = buildDirOf ∧ cwd w3 = buildDirOf ∧
    files w3 = <[resolve w2 (sidecar sd (fingerprint o).1 ".js") := js]> (files w2) ∧
    db w3 = match dbFault PutRecord with
            | Some _ => db w2
            | None => <[(fingerprint o).1 :=
                          {[ "importMeta" := MustEncodeJSON (importMeta ret);
                             "css" := if hasCSS ret then cssBit else noCssBit ]}]> (db w2)
            end ∧
    (hasCSS ret = true →
     is_Some (files w2 !! resolve w2 (sidecar sd (fingerprint o).1 ".css"))) ∧
    buildID ret = (fingerprint o).1.
Proof.
  intros Hne Hl Hb.
  destruct (build_Ok_inv _ _ _ _ _ _ _ _ _ Hne Hl Hb)
    as (st & pp & il & w2 & w3 & js & Hc & Hp & Ha & Hcommit & -> & Hid).
  destruct (commit_Ok _ _ _ _ _ _ _ _ _ Hcommit) as (_ & _ & Hfiles & Hdb).
  destruct (assemble_Ok _ _ _ _ _ _ _ _ _ _ _ _ _ Ha)
    as (wa & wb & wc & wd & ms1 & ext & bundled & Hinst & Hprobe & Htypes & Hext & _ & Hpost).
  assert (cwd w2 = buildDirOf) as Hcwd.
  { rewrite (postProcess_sameDir _ _ _ _ _ _ _ _ _ Hpost),
      (computeExternals_sameDir _ _ _ _ _ _ Hext),
      (typesAll_sameDir _ _ _ _ _ _ _ _ Htypes),
      (probeAll_sameDir _ _ _ _ _ _ Hprobe),
      (install_Ok _ _ _ _ Hinst).
    apply resolve_buildDirOf. }
  exists w2, w3, js. split_and!; [done|done| |done|done| |done].
  - by rewrite (commit_sameDir _ _ _ _ _ _ _ _ Hcommit).
  - intros Hflag.
    unfold postProcess in Hpost. apply outputs_loop in Hpost as (_ & Hiff & Hfile & _).
    destruct Hfile as (f & _ & _ & Hf); [|eauto].
    apply Hiff in Hflag as [?|?]; done.
Qed.

(** X21. What a call of [build] has built, the next call serves, when
    the storage directory is given by an absolute path.  After a call that
    went past the lookup and ended without error, with a store that takes
    the record, a codec that reads back the metas it wrote, and sidecars
    outside the working directory, a second call with the same request
    returns the same result as a hit, whatever its fuel, and leaves the store
    and the file system untouched.  The first call has left the process in
    its working directory, which is gone: the second call finds the sidecars
    because their paths do not depend on the current directory. *)
Theorem rebuilt_request_is_a_hit (fuel fuel' : nat) (sd host : string) (o : buildOptions)
    (w w1 w' : World) (r0 ret : buildResult) :
  packages o ≠ [] →
  lookup sd (fingerprint o).1 w = (w1, Proceed r0) →
  build fuel sd host o w = (w', Finished ret None) →
  dbFault PutRecord = None →
  json_Unmarshal (MustEncodeJSON (importMeta ret)) = (importMeta ret, None) →
  Str.HasPrefix sd "/" = true →
  under buildDirOf (sidecar sd (fingerprint o).1 ".js") = false →
  under buildDirOf (sidecar sd (fingerprint o).1 ".css") = false →
  cwd w' = buildDirOf ∧
  build fuel' sd host o w' = (w', Finished ret None).
Proof.
  intros Hne Hl Hb Hput Hjson Hsd Hjs Hcss.
  destruct (build_Ok_end _ _ _ _ _ _ _ _ _ Hne Hl Hb)
    as (w2 & w3 & js & -> & Hcwd2 & Hcwd3 & Hfiles & Hdb & Hstyle & Hid).
  rewrite Hput in Hdb.
  assert (dbFault GetRecord = None) as Hget.
  { revert Hl. unfold lookup, db_Get. by destruct (dbFault GetRecord). }
  set (id := (fingerprint o).1) in *.
  set (kv := ({[ "importMeta" := MustEncodeJSON (importMeta ret);
                 "css" := if hasCSS ret then cssBit else noCssBit ]} : gmap string string)).
  assert (∀ v ext, resolve v (sidecar sd id ext) = sidecar sd id ext) as Hres.
  { intros v ext. by apply resolve_rooted, sidecar_rooted. }
  rewrite Hres in Hfiles.
  assert (fileExists (RemoveAll buildDirOf w3) (sidecar sd id ".js") = true) as Ejs.
  { unfold fileExists. rewrite Hres, RemoveAll_keeps by (by rewrite resolve_buildDirOf).
    rewrite Hfiles, lookup_insert_eq. apply bool_decide_eq_true. eauto. }
  assert (hasCSS ret = true →
          fileExists (RemoveAll buildDirOf w3) (sidecar sd id ".css") = true) as Ecss.
  { intros Hflag. apply Hstyle in Hflag as [c Hf]. rewrite Hres in Hf.
    unfold fileExists. rewrite Hres, RemoveAll_keeps by (by rewrite resolve_buildDirOf).
    rewrite Hfiles. apply bool_decide_eq_true.
    destruct (decide (sidecar sd id ".js" = sidecar sd id ".css")) as [->|Hd].
    - rewrite lookup_insert_eq. eauto.
    - rewrite lookup_insert_ne by done. rewrite Hf. eauto. }
  split; [done|].
  rewrite (build_nonempty _ _ _ _ _ Hne). fold id.
  unfold lookup, db_Get. rewrite Hget.
  change (db (RemoveAll buildDirOf w3)) with (db w3). rewrite Hdb, lookup_insert_eq.
  fold kv.
  assert (KV_Get kv "importMeta" = MustEncodeJSON (importMeta ret)) as -> by done.
  assert (KV_Get kv "css" = if hasCSS ret then cssBit else noCssBit) as -> by done.
  rewrite Hjson, Ejs.
  destruct ret as [rid rms rcss]. cbn [importMeta hasCSS buildID] in *. subst rid.
  destruct rcss.
  - rewrite decide_True by done. by rewrite Ecss.
  - by rewrite decide_False by discriminate.
Qed.

(** X29. With a storage directory given by a relative path, what a call of
    [build] writes is lost.  The call changes into its working directory
    before it writes the artifact: the [.js] sidecar, taken from there, lies
    under the working directory and is removed with it when the call ends.
    The record is in the store and the sidecar is not there, so the next call
    with the same request is no hit: it finds the record orphaned, deletes
    it, and goes on to build again. *)
Theorem relative_storage_is_rebuilt (fuel : nat) (sd host : string) (o : buildOptions)
    (w w1 w' : World) (r0 ret : buildResult) :
  packages o ≠ [] →
  lookup sd (fingerprint o).1 w = (w1, Proceed r0) →
  build fuel sd host o w = (w', Finished ret None) →
  dbFault PutRecord = None →
  dbFault DeleteOrphan = None →
  json_Unmarshal (MustEncodeJSON (importMeta ret)) = (importMeta ret, None) →
  Str.HasPrefix (sidecar sd (fingerprint o).1 ".js") "/" = false →
  under buildDirOf (Path.Join [buildDirOf; sidecar sd (fingerprint o).1 ".js"]) = true →
  cwd w' = buildDirOf ∧
  is_Some (db w' !! (fingerprint o).1) ∧
  fileExists w' (sidecar sd (fingerprint o).1 ".js") = false ∧
  ∃ r, lookup sd (fingerprint o).1 w' =
         (set_db (delete (fingerprint o).1 (db w')) w', Proceed r).
Proof.
  intros Hne Hl Hb Hput Hdel Hjson Hrel Hunder.
  destruct (build_Ok_end _ _ _ _ _ _ _ _ _ Hne Hl Hb)
    as (w2 & w3 & js & -> & Hcwd2 & Hcwd3 & Hfiles & Hdb & _ & Hid).
  rewrite Hput in Hdb.
  assert (dbFault GetRecord = None) as Hget.
  { revert Hl. unfold lookup, db_Get. by destruct (dbFault GetRecord). }
  set (id := (fingerprint o).1) in *.
  set (kv := ({[ "importMeta" := MustEncodeJSON (importMeta ret);
                 "css" := if hasCSS ret then cssBit else noCssBit ]} : gmap string string)).
  assert (db (RemoveAll buildDirOf w3) !! id = Some kv) as Hrec.
  { change (db (RemoveAll buildDirOf w3)) with (db w3). by rewrite Hdb, lookup_insert_eq. }
  assert (fileExists (RemoveAll buildDirOf w3) (sidecar sd id ".js") = false) as Hgone.
  { unfold fileExists. apply bool_decide_eq_false. intros [c Hc]. revert Hc.
    rewrite (resolve_same w3) by done. unfold resolve. rewrite Hrel, Hcwd3.
    destruct (RemoveAll_gone buildDirOf w3 (Path.Join [buildDirOf; sidecar sd id ".js"]))
      as [-> _]; [by rewrite resolve_buildDirOf|done]. }
  split_and!; [done|by rewrite Hrec|done|].
  apply (lookup_orphan_record_purged sd id _ kv (importMeta ret)); done.
Qed.

End SuccessfulBuild.

Lemma rebuilt_request_is_a_hit_witness :
  let H := Sample.collaborators Sample.plain in
  let o := Sample.request [Sample.preactRef] [] false in
  let ret := {| buildID := Sample.preactID; importMeta := Sample.sampleMetas;
                hasCSS := false |} in
  let w' := (@build H 3 "/storage" "esm.sh" o Sample.emptyWorld).1 in
  @build H 3 "/storage" "esm.sh" o Sample.emptyWorld = (w', Finished ret None) ∧
  is_Some (db w' !! Sample.preactID) ∧
  cwd Sample.emptyWorld = "/srv" ∧
  cwd w' = Cases.workDir ∧
  @build H 0 "/storage" "esm.sh" o w' = (w', Finished ret None).
Proof.
  intros H o ret w'.
  pose (r0 := {| buildID := Sample.preactID; importMeta := ∅; hasCSS := false |}).
  assert (packages o ≠ []) as Hne by discriminate.
  assert (@lookup H "/storage" (@fingerprint H o).1 Sample.emptyWorld
          = (Sample.emptyWorld, Proceed r0)) as Hl by (vm_compute; reflexivity).
  assert (@build H 3 "/storage" "esm.sh" o Sample.emptyWorld = (w', Finished ret None)) as Hb
    by (vm_compute; reflexivity).
  split; [exact Hb|]. split; [eexists; vm_compute; reflexivity|]. split; [reflexivity|].
  apply (@rebuilt_request_is_a_hit H 3 0 "/storage" "esm.sh" o Sample.emptyWorld
           Sample.emptyWorld w' r0 ret Hne Hl Hb);
    vm_compute; reflexivity.
Defined.

Lemma relative_storage_is_rebuilt_witness :
  let H := Sample.collaborators Sample.plain in
  let o := Sample.request [Sample.preactRef] [] false in
  let ret := {| buildID := Sample.preactID; importMeta := Sample.sampleMetas;
                hasCSS := false |} in
  let w' := (@build H 3 "storage" "esm.sh" o Sample.emptyWorld).1 in
  @build H 3 "storage" "esm.sh" o Sample.emptyWorld = (w', Finished ret None) ∧
  files w' = ∅ ∧
  is_Some (db w' !! Sample.preactID) ∧
  @fileExists w' "storage/builds/v1/preact@10.5.0/es2020/preact.js" = false ∧
  ∃ r, @lookup H "storage" Sample.preactID w' =
         (set_db (delete Sample.preactID (db w')) w', Proceed r).
Proof.
  intros H o ret w'.
  pose (r0 := {| buildID := Sample.preactID; importMeta := ∅; hasCSS := false |}).
  assert (packages o ≠ []) as Hne by discriminate.
  assert (@lookup H "storage" (@fingerprint H o).1 Sample.emptyWorld
          = (Sample.emptyWorld, Proceed r0)) as Hl by (vm_compute; reflexivity).
  assert (@build H 3 "storage" "esm.sh" o Sample.emptyWorld = (w', Finished ret None)) as Hb
    by (vm_compute; reflexivity).
  split; [exact Hb|]. split; [vm_compute; reflexivity|].
  assert (Str.HasPrefix (sidecar "storage" (@fingerprint H o).1 ".js") "/" = false) as Hrel
    by (vm_compute; reflexivity).
  assert (under (@buildDirOf H)
            (Path.Join [@buildDirOf H; sidecar "storage" (@fingerprint H o).1 ".js"]) = true)
    as Hunder by (vm_compute; reflexivity).
  destruct (@relative_storage_is_rebuilt H 3 "storage" "esm.sh" o Sample.emptyWorld
              Sample.emptyWorld w' r0 ret Hne Hl Hb eq_refl eq_refl eq_refl Hrel Hunder)
    as (_ & Hrec & Hgone & Hmiss).
  split; [exact Hrec|]. split; [exact Hgone|exact Hmiss].
Defined.

(** ** The metas from the registry to the result *)

Lemma fmap_insert_same {A B : Type} (f : A → B) (k : string) (old new : A)
    (m : gmap string A) :
  m !! k = Some old → f new = f old → f <$> <[k := new]> m = f <$> m.
Proof.
  intros Hk Hf. rewrite fmap_insert, Hf. apply insert_id. by rewrite lookup_fmap, Hk.
Qed.

Lemma fmap_factor {A B C : Type} (f : A → B) (g : A → C) (m1 m2 : gmap string A) :
  (∀ a b, f a = f b → g a = g b) → f <$> m1 = f <$> m2 → g <$> m1 = g <$> m2.
Proof.
  intros Hfg Hf. apply map_eq. intros k.
  apply (f_equal (λ m, m !! k)) in Hf. rewrite !lookup_fmap in Hf. rewrite !lookup_fmap.
  destruct (m1 !! k), (m2 !! k); simpl in *; try done.
  injection Hf as Hf. f_equal. by apply Hfg.
Qed.

Lemma fmap_lookup_related {A B : Type} (f : A → B) (m1 m2 : gmap string A) (k : string) (a : A) :
  f <$> m1 = f <$> m2 → m1 !! k = Some a → ∃ b, m2 !! k = Some b ∧ f a = f b.
Proof.
  intros Hf Hk. apply (f_equal (λ m, m !! k)) in Hf. rewrite !lookup_fmap, Hk in Hf.
  destruct (m2 !! k) as [b|]; [|done]. injection Hf as Hf. eauto.
Qed.

(** Closes a goal [preserves sameStore m] for a step made of the parts of
    the build. *)
Ltac store_kept :=
  preserve;
  first [ apply preserves_update; intros ?; unfold sameStore; reflexivity
        | apply preserves_effect; intros ?; apply createAndCopy_sameStore
        | apply preserves_effect; intros ?; apply Chdir_sameStore ].

Section MetaPipeline.
Context `{Collaborators}.

Lemma manifestRules_identity (pkg : module) (meta : ImportMeta) :
  identityOf (manifestRules pkg meta) = identityOf meta.
Proof.
  unfold manifestRules, applySubmodule, moduleFromExports, moduleFromType.
  by repeat case_decide.
Qed.

Lemma submoduleManifest_identity (pkg : module) (p : NpmPackage) (meta : ImportMeta) :
  identityOf (submoduleManifest pkg p meta) = identityOf meta.
Proof. unfold submoduleManifest. by repeat case_decide. Qed.

(** The loop of lines 137-176: every meta comes from the registry entry of
    a requested package with its import path. *)
Lemma collect_loop_origin (l : moduleSlice) (st0 st : metaState) (w w' : World)
    (k : string) (m : ImportMeta) :
  forM l st0 collectOne w = (w', Ok st) →
  metas st !! k = Some m →
  metas st0 !! k = Some m ∨
  ∃ pkg p, pkg ∈ l ∧ k = ImportPath pkg ∧
           getPackageInfo (name pkg) (version pkg) = inr p ∧
           m = manifestRules pkg {| Npm := p; Exports := []; Dts := "" |}.
Proof.
  revert st0 w. induction l as [|pkg l IH]; intros st0 w Hf Hk.
  - injection Hf as _ <-. by left.
  - apply forM_cons_Ok_inv in Hf as (w1 & st1 & H1 & Hf).
    apply collectOne_Ok in H1 as (p & Hp & Hm & _).
    destruct (IH _ _ Hf Hk) as [H0|(pkg' & p' & Hin & -> & Hp' & ->)].
    + rewrite Hm in H0. destruct (decide (k = ImportPath pkg)) as [->|Hne].
      * rewrite lookup_insert_eq in H0. injection H0 as <-.
        right. exists pkg, p. split_and!; [apply list_elem_of_here|done..].
      * rewrite lookup_insert_ne in H0 by done. by left.
    + right. exists pkg', p'. split_and!; [by apply list_elem_of_further|done..].
Qed.

Lemma probeEntry_Ok (buildDir : string) (pkg : module) (meta meta' : ImportMeta)
    (w w' : World) :
  probeEntry buildDir pkg meta w = (w', Ok meta') →
  w' = w ∧ identityOf meta' = identityOf meta ∧ Dts meta' = Dts meta ∧
  let es := parseESModuleExports (files w) buildDir
              (Path.Join [Name (Npm meta); Module (Npm meta)]) in
  if decide (Module (Npm meta) ≠ "" ∧ es.1.2 = true)
  then meta' = setExports es.1.1 meta
  else ∃ exports,
         parseCJSModuleExports (files w) buildDir (ImportPath pkg) = inr exports ∧
         meta' = setExports exports (if decide (Module (Npm meta) ≠ "")
                                     then setModule "" meta else meta).
Proof.
  unfold probeEntry. intros Hp.
  apply bind_Ok_inv in Hp as (w1 & fs & [= <- <-] & Hp).
  apply bind_Ok_inv in Hp as (w1 & r & Hr & Hp).
  cbv zeta.
  destruct (decide (Module (Npm meta) ≠ "")) as [Hm|Hm].
  - destruct (parseESModuleExports (files w) buildDir _) as [[exports esm] e] eqn:Hes.
    apply bind_Ok_inv in Hr as (w2 & [] & Hchk & Hr).
    destruct e as [e|]; [done|]. injection Hchk as <-.
    cbn [fst snd]. destruct esm.
    + injection Hr as <- <-. injection Hp as <- <-.
      rewrite decide_True by done. done.
    + injection Hr as <- <-.
      apply bind_Ok_inv in Hp as (w2 & ex & Hl & [= <- <-]).
      destruct (parseCJSModuleExports (files w) buildDir (ImportPath pkg)) as [e|ex'] eqn:Hcjs;
        [done|].
      injection Hl as <- <-.
      rewrite decide_False by (intros [_ ?]; done).
      split_and!; [done..|]. eauto.
  - injection Hr as <- <-.
    apply bind_Ok_inv in Hp as (w2 & ex & Hl & [= <- <-]).
    destruct (parseCJSModuleExports (files w) buildDir (ImportPath pkg)) as [e|ex'] eqn:Hcjs;
      [done|].
    injection Hl as <- <-.
    rewrite decide_False by (intros [? _]; done).
    split_and!; [done..|]. eauto.
Qed.

Lemma probeOne_Ok (buildDir : string) (pkg : module) (ms ms' : gmap string ImportMeta)
    (w w' : World) :
  probeOne buildDir pkg ms w = (w', Ok ms') →
  w' = w ∧
  ∃ meta final, ms !! ImportPath pkg = Some meta ∧
                ms' = <[ImportPath pkg := final]> ms ∧
                identityOf final = identityOf meta ∧ Dts final = Dts meta.
Proof.
  unfold probeOne, metaOf. cbv zeta. intros Hp.
  apply bind_Ok_inv in Hp as (w1 & meta & Hm & Hp).
  destruct (ms !! ImportPath pkg) as [meta0|] eqn:Hk; [|done].
  injection Hm as <- <-.
  apply bind_Ok_inv in Hp as (w1 & fs & [= <- <-] & Hp).
  apply bind_Ok_inv in Hp as (w1 & w0 & [= <- <-] & Hp).
  apply bind_Ok_inv in Hp as (w1 & r & Hr & Hp).
  apply bind_Ok_inv in Hp as (w2 & final & Hfin & [= <- <-]).
  assert (w1 = w ∧
          match r with
          | inl d => identityOf d = identityOf meta0 ∧ Dts d = Dts meta0
          | inr m => identityOf m = identityOf meta0 ∧ Dts m = Dts meta0
          end) as [-> Hr'].
  { destruct (decide (submodule pkg ≠ "")); [|by injection Hr as <- <-].
    destruct (fileExists w _).
    - apply bind_Ok_inv in Hr as (w2' & p & Hl & [= <- <-]).
      split.
      + by destruct (ParseJSONFile w _); injection Hl as <-.
      + split; [apply submoduleManifest_identity|].
        unfold submoduleManifest. by repeat case_decide.
    - destruct (parseESModuleExports (files w) buildDir _) as [[exports esm] e].
      apply bind_Ok_inv in Hr as (w2' & [] & Hchk & Hr).
      destruct e; [done|]. injection Hchk as <-.
      by destruct esm; injection Hr as <- <-. }
  destruct r as [d|m].
  - injection Hfin as <- <-. split; [done|]. exists meta0, d. by destruct Hr'.
  - apply probeEntry_Ok in Hfin as (-> & Hi & Hd & _). split; [done|].
    exists meta0, final. destruct Hr' as [Hi' Hd']. split_and!; [done|done|congruence|congruence].
Qed.

Lemma probeAll_Ok (buildDir : string) (l : moduleSlice) (ms ms' : gmap string ImportMeta)
    (w w' : World) :
  forM l ms (probeOne buildDir) w = (w', Ok ms') →
  w' = w ∧ identityOf <$> ms' = identityOf <$> ms ∧ Dts <$> ms' = Dts <$> ms.
Proof.
  revert ms w. induction l as [|pkg l IH]; intros ms w Hf.
  - by injection Hf as <- <-.
  - apply forM_cons_Ok_inv in Hf as (w1 & ms1 & H1 & Hf).
    apply probeOne_Ok in H1 as (-> & meta & final & Hk & -> & Hi & Hd).
    destruct (IH _ _ Hf) as (-> & Hi' & Hd'). split; [done|].
    rewrite Hi', Hd'. split; by eapply fmap_insert_same.
Qed.

Lemma typesOne_Ok (sd host buildDir : string) (o : buildOptions) (pkg : module)
    (ms ms' : gmap string ImportMeta) (w w' : World) :
  typesOne sd host buildDir o pkg ms w = (w', Ok ms') →
  ms' = ms ∨
  ∃ meta types, ms !! ImportPath pkg = Some meta ∧ types ≠ "" ∧
                findTypes w (nodeModulesOf buildDir) pkg meta = inr types ∧
                ms' = <[ImportPath pkg := setDts ("/" +:+ types) meta]> ms.
Proof.
  unfold typesOne, metaOf. intros Ht.
  apply bind_Ok_inv in Ht as (w1 & meta & Hm & Ht).
  destruct (ms !! ImportPath pkg) as [meta0|] eqn:Hk; [|done].
  injection Hm as <- <-.
  apply bind_Ok_inv in Ht as (w1 & w0 & [= <- <-] & Ht).
  apply bind_Ok_inv in Ht as (w1 & types & Hl & Ht).
  destruct (findTypes w (nodeModulesOf buildDir) pkg meta0) as [e|types'] eqn:Hfind; [done|].
  injection Hl as <- <-.
  case_decide as Hty; [|injection Ht as _ <-; by left].
  destruct (copyDTS _ _ _ _ _ _) as [err written].
  apply bind_Ok_inv in Ht as (w2 & [] & _ & Ht).
  destruct err; [done|]. injection Ht as _ <-.
  right. do 2 eexists. split_and!; done.
Qed.

Lemma typesAll_Ok (sd host buildDir : string) (o : buildOptions) (l : moduleSlice)
    (ms ms' : gmap string ImportMeta) (w w' : World) :
  forM l ms (typesOne sd host buildDir o) w = (w', Ok ms') →
  withoutDts <$> ms' = withoutDts <$> ms ∧
  ∀ k m', ms' !! k = Some m' →
    ∃ m, ms !! k = Some m ∧
         (Dts m' = Dts m ∨ ∃ types, types ≠ "" ∧ Dts m' = "/" +:+ types).
Proof.
  revert ms w. induction l as [|pkg l IH]; intros ms w Hf.
  - injection Hf as <- <-. split; [done|]. eauto.
  - apply forM_cons_Ok_inv in Hf as (w1 & ms1 & H1 & Hf).
    destruct (IH _ _ Hf) as [Hw Hd].
    apply typesOne_Ok in H1 as [->|(meta & types & Hk & Hty & _ & ->)]; [done|].
    split.
    + rewrite Hw. by eapply fmap_insert_same.
    + intros k m' Hk'. destruct (Hd k m' Hk') as (m1 & Hk1 & Hdts).
      destruct (decide (k = ImportPath pkg)) as [->|Hne].
      * rewrite lookup_insert_eq in Hk1. injection Hk1 as <-.
        exists meta. split; [done|]. destruct Hdts as [->|?]; [|by right].
        right. eauto.
      * rewrite lookup_insert_ne in Hk1 by done. eauto.
Qed.

(** X22. The module a manifest declares is kept only if the probe
    confirms it as an ES module, and the exports are then those the probe
    found.  A module that is not confirmed is cleared, and the package is
    taken as CommonJS with the exports the CommonJS parser reports.  The
    probe changes nothing else of the meta and nothing of the world. *)
Theorem unconfirmed_module_is_cleared (buildDir : string) (pkg : module)
    (meta meta' : ImportMeta) (w w' : World) :
  probeEntry buildDir pkg meta w = (w', Ok meta') →
  let es := parseESModuleExports (files w) buildDir
              (Path.Join [Name (Npm meta); Module (Npm meta)]) in
  w' = w ∧
  (Module (Npm meta') ≠ "" →
     Module (Npm meta') = Module (Npm meta) ∧ es.1.2 = true ∧ Exports meta' = es.1.1) ∧
  (Module (Npm meta') = "" →
     parseCJSModuleExports (files w) buildDir (ImportPath pkg) = inr (Exports meta')) ∧
  (Module (Npm meta) ≠ "" → es.1.2 = false → Module (Npm meta') = "") ∧
  Main (Npm meta') = Main (Npm meta) ∧ Types (Npm meta') = Types (Npm meta) ∧
  Typings (Npm meta') = Typings (Npm meta) ∧ identityOf meta' = identityOf meta ∧
  Dts meta' = Dts meta.
Proof.
  intros Hp es. apply probeEntry_Ok in Hp as (-> & Hi & Hd & Hcases).
  cbv zeta in Hcases. fold es in Hcases.
  split; [done|]. case_decide as Hc.
  - destruct Hc as [Hm Hesm]. subst meta'. cbn. split_and!; try done.
    intros _ Hf. congruence.
  - destruct Hcases as (exports & Hcjs & ->).
    case_decide as Hm; cbn; split_and!; done.
Qed.

(** X23. The discovery of type declarations assigns to nothing but the
    [dts] field: manifests and exports come out as they went in, and a
    [dts] that is set is [/] followed by the non-empty path found. *)
Theorem types_discovery_sets_only_dts (sd host buildDir : string) (o : buildOptions)
    (ms ms' : gmap string ImportMeta) (w w' : World) :
  typesAll sd host buildDir o ms w = (w', Ok ms') →
  dom ms' = dom ms ∧
  db w' = db w ∧
  ∀ k m', ms' !! k = Some m' →
    ∃ m, ms !! k = Some m ∧ Npm m' = Npm m ∧ Exports m' = Exports m ∧
         (Dts m' = Dts m ∨ ∃ types, types ≠ "" ∧ Dts m' = "/" +:+ types).
Proof.
  intros Ht.
  assert (db w' = db w) as Hdb.
  { revert Ht. generalize (Ok ms'). revert w w'.
    change (preserves sameStore (typesAll sd host buildDir o ms)). store_kept. }
  unfold typesAll in Ht. apply typesAll_Ok in Ht as [Hw Hd].
  split_and!; [|done|].
  - apply (f_equal dom) in Hw. by rewrite !dom_fmap_L in Hw.
  - intros k m' Hk. destruct (Hd k m' Hk) as (m & Hm & Hdts).
    destruct (fmap_lookup_related _ _ _ _ _ Hw Hk) as (m0 & Hm0 & Heq).
    assert (m0 = m) as -> by congruence.
    injection Heq as Hn He. exists m. split_and!; done.
Qed.

(** X24. The result of a call that went past the lookup and ended without
    error has one meta for each import path of the request and no other.
    Each describes a requested package of that import path as the registry
    does: name, version, type, dependencies and peer dependencies are those
    of the registry entry. *)
Theorem result_describes_the_requested_packages (fuel : nat) (sd host : string)
    (o : buildOptions) (w w1 w' : World) (r0 ret : buildResult) :
  packages o ≠ [] →
  lookup sd (fingerprint o).1 w = (w1, Proceed r0) →
  build fuel sd host o w = (w', Finished ret None) →
  (∀ k, k ∈ dom (importMeta ret) ↔ ∃ pkg, pkg ∈ packages o ∧ k = ImportPath pkg) ∧
  (∀ k m, importMeta ret !! k = Some m →
     ∃ pkg p, pkg ∈ packages o ∧ k = ImportPath pkg ∧
              getPackageInfo (name pkg) (version pkg) = inr p ∧
              identityOf m = (Name p, Version p, Type_ p, Dependencies p, PeerDependencies p)).
Proof.
  intros Hne Hl Hb.
  destruct (build_Ok_inv _ _ _ _ _ _ _ _ _ Hne Hl Hb)
    as (st & pp & il & w2 & w3 & js & Hc & _ & Ha & _).
  destruct (assemble_Ok _ _ _ _ _ _ _ _ _ _ _ _ _ Ha)
    as (wa & wb & wc & wd & ms1 & ext & bundled & _ & Hprobe & Htypes & _).
  apply probeAll_Ok in Hprobe as (_ & Hi1 & _).
  apply typesAll_Ok in Htypes as [Hw2 _].
  assert (identityOf <$> importMeta ret = identityOf <$> metas st) as Hi.
  { rewrite <- Hi1. revert Hw2. apply fmap_factor.
    intros a b [= Hn _]. unfold identityOf. by rewrite Hn. }
  destruct (fingerprint_packages o) as (Hperm & _).
  destruct (collect_loop _ _ _ _ _ Hc) as [Hkeys _]. cbn [metas] in Hkeys. split.
  - intros k.
    assert (dom (importMeta ret) = dom (metas st)) as ->.
    { apply (f_equal dom) in Hi. by rewrite !dom_fmap_L in Hi. }
    rewrite Hkeys, dom_empty, elem_of_empty.
    split; [intros [[]|(pkg & Hin & ->)]|intros (pkg & Hin & ->); right];
      exists pkg; (split; [|done]).
    + by rewrite <- Hperm.
    + by rewrite Hperm.
  - intros k m Hk.
    destruct (fmap_lookup_related _ _ _ _ _ Hi Hk) as (m0 & Hk0 & Heq).
    destruct (collect_loop_origin _ _ _ _ _ _ _ Hc Hk0)
      as [Hempty|(pkg & p & Hin & -> & Hp & ->)].
    + cbn [metas] in Hempty. by rewrite lookup_empty in Hempty.
    + exists pkg, p. split_and!; [by rewrite <- Hperm|done|done|].
      by rewrite Heq, manifestRules_identity.
Qed.

End MetaPipeline.

Lemma unconfirmed_module_is_cleared_witness :
  let H := Sample.collaborators Sample.requiresSetImmediate in
  let meta := {| Npm := Sample.preact; Exports := []; Dts := "" |} in
  let meta' := setExports ["default"; "render"] (setModule "" meta) in
  @probeEntry H Cases.workDir Sample.preactRef meta Sample.emptyWorld =
    (Sample.emptyWorld, Ok meta') ∧
  Module (Npm meta) = "dist/preact.module.js" ∧
  Module (Npm meta') = "" ∧
  Main (Npm meta') = Main (Npm meta).
Proof.
  intros H meta meta'.
  assert (@probeEntry H Cases.workDir Sample.preactRef meta Sample.emptyWorld =
            (Sample.emptyWorld, Ok meta')) as Hp by (vm_compute; reflexivity).
  split; [exact Hp|]. split; [reflexivity|].
  destruct (@unconfirmed_module_is_cleared H Cases.workDir Sample.preactRef meta meta' _ _ Hp)
    as (_ & _ & _ & Hcleared & Hmain & _).
  split; [|exact Hmain].
  apply Hcleared; [discriminate|reflexivity].
Defined.

Lemma types_discovery_sets_only_dts_witness :
  let H := Sample.collaborators Sample.plain in
  let o := Sample.request [Sample.preactRef] [] false in
  let ms' : gmap string ImportMeta :=
    {[ "preact" := {| Npm := Sample.preact; Exports := ["default"; "h"];
                      Dts := "/preact@10.5.0/index.d.ts" |} ]} in
  @typesAll H "/storage" "esm.sh" Cases.workDir o Sample.sampleMetas Cases.preactTyped =
    (Cases.preactTyped, Ok ms') ∧
  dom ms' = dom Sample.sampleMetas ∧
  ∃ m, Sample.sampleMetas !! "preact" = Some m ∧ Npm m = Sample.preact ∧
       Exports m = ["default"; "h"].
Proof.
  intros H o ms'.
  assert (@typesAll H "/storage" "esm.sh" Cases.workDir o Sample.sampleMetas Cases.preactTyped =
            (Cases.preactTyped, Ok ms')) as Ht by (vm_compute; reflexivity).
  split; [exact Ht|].
  destruct (@types_discovery_sets_only_dts H "/storage" "esm.sh" Cases.workDir o _ _ _ _ Ht)
    as (Hdom & _ & Hall).
  split; [exact Hdom|].
  destruct (Hall "preact" _ eq_refl) as (m & Hm & Hn & He & _).
  exists m. split; [exact Hm|]. split; [symmetry; exact Hn|symmetry; exact He].
Defined.

Lemma result_describes_the_requested_packages_witness :
  let H := Sample.collaborators Sample.plain in
  let o := Sample.request [Sample.preactRef] [] false in
  let ret := {| buildID := Sample.preactID; importMeta := Sample.sampleMetas;
                hasCSS := false |} in
  let w' := (@build H 3 "/storage" "esm.sh" o Sample.emptyWorld).1 in
  @build H 3 "/storage" "esm.sh" o Sample.emptyWorld = (w', Finished ret None) ∧
  (∀ k, k ∈ dom (importMeta ret) ↔ ∃ pkg, pkg ∈ packages o ∧ k = ImportPath pkg).
Proof.
  intros H o ret w'.
  pose (r0 := {| buildID := Sample.preactID; importMeta := ∅; hasCSS := false |}).
  assert (packages o ≠ []) as Hne by discriminate.
  assert (@lookup H "/storage" (@fingerprint H o).1 Sample.emptyWorld
          = (Sample.emptyWorld, Proceed r0)) as Hl by (vm_compute; reflexivity).
  assert (@build H 3 "/storage" "esm.sh" o Sample.emptyWorld = (w', Finished ret None)) as Hb
    by (vm_compute; reflexivity).
  split; [exact Hb|].
  exact (proj1 (@result_describes_the_requested_packages H 3 "/storage" "esm.sh" o
                  Sample.emptyWorld Sample.emptyWorld w' r0 ret Hne Hl Hb)).
Defined.

(** ** Server start-up *)

Global Instance grows_refl : Reflexive grows.
Proof. by intros w. Qed.

Global Instance grows_trans : Transitive grows.
Proof.
  intros w1 w2 w3 (Hf1 & Hd1 & Hs1 & Hc1) (Hf2 & Hd2 & Hs2 & Hc2).
  split_and!; [by etrans|by etrans|congruence|congruence].
Qed.

Lemma fileExists_false (w : World) (p : string) :
  fileExists w p = false → files w !! resolve w p = None.
Proof.
  unfold fileExists. intros Hf%bool_decide_eq_false. by apply eq_None_not_Some.
Qed.

Lemma fileExists_grows (w w' : World) (p : string) :
  grows w w' → fileExists w p = true → fileExists w' p = true.
Proof.
  unfold fileExists. intros (Hf & _ & _ & Hcwd) [c Hc]%bool_decide_eq_true.
  apply bool_decide_eq_true. exists c. rewrite (resolve_same w) by done.
  by eapply lookup_weaken.
Qed.

Lemma ensureDir_grows (d : string) (w : World) : grows w (ensureDir d w).
Proof. split_and!; [done| |done|done]. simpl. apply union_subseteq_r. Qed.

Lemma resolve_ensureDir (a d : string) (w : World) :
  resolve (ensureDir a w) d = resolve w d.
Proof. done. Qed.

Lemma ensureDir_again (d : string) (w : World) : resolve w d ∈ dirs w → ensureDir d w = w.
Proof.
  intros Hd. unfold ensureDir, set_dirs. destruct w as [s f ds c]. simpl in *. f_equal.
  apply subseteq_union_1_L. by apply singleton_subseteq_l.
Qed.

Section ServeProperties.
Context `{Collaborators} `{Embedded}.

Lemma installOne_cases (sd kind sub name : string) (w : World) :
  let f := embeddedTarget sd sub name in
  installOne sd kind sub name w =
    if fileExists w f then (w, Ok tt)
    else match embed_Open ("embed/" +:+ kind +:+ "/" +:+ name) with
         | inl e => (w, Failed e)
         | inr content => effect (createAndCopy f content) w
         end.
Proof.
  intros f. unfold installOne, bind, getWorld. fold f.
  destruct (fileExists w f); [done|]. by destruct (embed_Open _).
Qed.

Lemma installOne_grows (sd kind sub name : string) :
  preserves grows (installOne sd kind sub name).
Proof.
  intros w w' r. rewrite installOne_cases. cbv zeta.
  destruct (fileExists w _) eqn:Hex; [by intros [= <- _]|].
  apply fileExists_false in Hex.
  destruct (embed_Open _) as [e|content]; [by intros [= <- _]|].
  unfold effect, createAndCopy.
  destruct (createFault _); [by intros [= <- _]|].
  destruct (copyFault _); intros [= <- _];
    (split_and!; [by apply insert_subseteq|done|done|done]).
Qed.

Lemma installOne_there (sd kind sub name : string) (w w' : World) :
  installOne sd kind sub name w = (w', Ok tt) →
  fileExists w' (embeddedTarget sd sub name) = true.
Proof.
  rewrite installOne_cases. cbv zeta.
  destruct (fileExists w _) eqn:Hex; [by intros [= <-]|].
  destruct (embed_Open _) as [e|content]; [done|].
  intros He. apply effect_Ok_inv, createAndCopy_Ok in He as ->.
  unfold fileExists. rewrite (resolve_same w) by done. cbn [files set_files].
  rewrite lookup_insert_eq. apply bool_decide_eq_true. eauto.
Qed.

Lemma install_loop (sd kind sub : string) (names : list string) (w w' : World) :
  forM names tt (λ name _, installOne sd kind sub name) w = (w', Ok tt) →
  ∀ name, name ∈ names → fileExists w' (embeddedTarget sd sub name) = true.
Proof.
  revert w. induction names as [|n names IH]; intros w Hf name Hin.
  - by apply elem_of_nil in Hin.
  - apply forM_cons_Ok_inv in Hf as (w1 & [] & H1 & Hf).
    apply elem_of_cons in Hin as [->|Hin]; [|by eapply IH].
    apply installOne_there in H1.
    eapply fileExists_grows; [|exact H1].
    eapply (preserves_forM grows); [|exact Hf]. intros x []. apply installOne_grows.
Qed.

Lemma install_loop_again (sd kind sub : string) (names : list string) (w : World) :
  (∀ name, name ∈ names → fileExists w (embeddedTarget sd sub name) = true) →
  forM names tt (λ name _, installOne sd kind sub name) w = (w, Ok tt).
Proof.
  induction names as [|n names IH]; intros Hall; [done|].
  cbn [forM]. unfold bind. rewrite installOne_cases. cbv zeta.
  rewrite (Hall n) by apply list_elem_of_here.
  apply IH. intros name Hin. apply Hall. by apply list_elem_of_further.
Qed.

Lemma installEmbedded_grows (sd kind sub : string) :
  preserves grows (installEmbedded sd kind sub).
Proof.
  unfold installEmbedded. apply preserves_bind; try apply _; [apply preserves_lift; apply _|].
  intros names. apply preserves_forM; try apply _. intros x []. apply installOne_grows.
Qed.

Lemma prepareStorage_grows (etc sd : string) : preserves grows (prepareStorage etc sd).
Proof.
  unfold prepareStorage.
  repeat (apply preserves_bind; try apply _;
          [first [ apply preserves_update; [apply _..|]; intros w; apply ensureDir_grows
                 | apply preserves_check; apply _
                 | apply installEmbedded_grows ]
          |intros ?]).
  apply installEmbedded_grows.
Qed.

(** X25. Preparing the storage directory at start-up only adds to the
    file system: a file that is there is neither replaced nor removed, so an
    artifact or a polyfill already in the storage survives a restart, and
    the store is not written.  When the preparation succeeds, every embedded
    polyfill and type declaration has its file in the storage, and preparing
    again changes nothing. *)
Theorem storage_preparation_only_adds (etc sd : string) (w w' : World) (out : outcome unit) :
  prepareStorage etc sd w = (w', out) →
  (∀ p content, files w !! p = Some content → files w' !! p = Some content) ∧
  dirs w ⊆ dirs w' ∧
  db w' = db w ∧
  (out = Ok tt →
   (∀ names name, embed_ReadDir "embed/polyfills" = inr names → name ∈ names →
                  fileExists w' (embeddedTarget sd "builds" name) = true) ∧
   (∀ names name, embed_ReadDir "embed/types" = inr names → name ∈ names →
                  fileExists w' (embeddedTarget sd "types" name) = true) ∧
   prepareStorage etc sd w' = (w', Ok tt)).
Proof.
  intros Hp. destruct (prepareStorage_grows _ _ _ _ _ Hp) as (Hfiles & Hdirs & Hdb & Hcwd).
  split_and!; [|done|done|].
  { intros p content Hc. by eapply lookup_weaken. }
  intros ->. unfold prepareStorage in Hp.
  apply bind_Ok_inv in Hp as (w1 & [] & [= <-] & Hp).
  apply bind_Ok_inv in Hp as (w2 & [] & [= <-] & Hp).
  apply bind_Ok_inv in Hp as (w3 & [] & [= <-] & Hp).
  apply bind_Ok_inv in Hp as (w4 & [] & Hopen & Hp).
  destruct (openStore _) as [e|] eqn:Hstore; [done|]. injection Hopen as <-.
  set (w3 := ensureDir _ (ensureDir _ (ensureDir _ w))) in *.
  apply bind_Ok_inv in Hp as (w5 & [] & Hpoly & Htypes).
  unfold installEmbedded in Hpoly, Htypes.
  change ("embed/" +:+ "polyfills") with "embed/polyfills" in Hpoly.
  change ("embed/" +:+ "types") with "embed/types" in Htypes.
  apply bind_Ok_inv in Hpoly as (w3' & polys & Hrp & Hpoly).
  destruct (embed_ReadDir "embed/polyfills") as [e|polys'] eqn:Hdp; [done|].
  injection Hrp as <- <-.
  apply bind_Ok_inv in Htypes as (w5' & types & Hrt & Htypes).
  destruct (embed_ReadDir "embed/types") as [e|types'] eqn:Hdt; [done|].
  injection Hrt as <- <-.
  assert (grows w5 w') as Hg5.
  { eapply (preserves_forM grows); [|exact Htypes]. intros x []. apply installOne_grows. }
  assert (grows w3 w5) as Hg3.
  { eapply (preserves_forM grows); [|exact Hpoly]. intros x []. apply installOne_grows. }
  assert (∀ name, name ∈ polys' → fileExists w' (embeddedTarget sd "builds" name) = true)
    as Hpolys.
  { intros name Hin. eapply fileExists_grows; [exact Hg5|]. by eapply install_loop. }
  assert (∀ name, name ∈ types' → fileExists w' (embeddedTarget sd "types" name) = true)
    as Htys by (by eapply install_loop).
  split_and!.
  - intros names name [= <-]. apply Hpolys.
  - intros names name [= <-]. apply Htys.
  - assert (∀ d, d ∈ dirs w3 → d ∈ dirs w') as Hd.
    { intros d Hin. destruct Hg3 as (_ & Hd3 & _ & _). destruct Hg5 as (_ & Hd5 & _ & _).
      by apply Hd5, Hd3. }
    assert (∀ d, resolve w d ∈ dirs w3 → ensureDir d w' = w') as Hagain.
    { intros d Hin. apply ensureDir_again. rewrite (resolve_same w) by done. by apply Hd. }
    assert (ensureDir (Path.Join [sd; "builds/v" +:+ Str.itoa VERSION]) w' = w') as E1.
    { apply Hagain. subst w3. cbn [dirs ensureDir set_dirs]. rewrite !resolve_ensureDir.
      set_solver. }
    assert (ensureDir (Path.Join [sd; "types/v" +:+ Str.itoa VERSION]) w' = w') as E2.
    { apply Hagain. subst w3. cbn [dirs ensureDir set_dirs]. rewrite !resolve_ensureDir.
      set_solver. }
    assert (ensureDir (Path.Join [sd; "raw"]) w' = w') as E3.
    { apply Hagain. subst w3. cbn [dirs ensureDir set_dirs]. set_solver. }
    unfold prepareStorage, bind, update. rewrite E1, E2, E3, Hstore.
    cbn [check pure]. unfold installEmbedded, bind.
    change ("embed/" +:+ "polyfills") with "embed/polyfills".
    change ("embed/" +:+ "types") with "embed/types".
    rewrite Hdp, Hdt. cbn [lift pure].
    rewrite (install_loop_again _ _ _ _ _ Hpolys). by apply install_loop_again.
Qed.

End ServeProperties.

Lemma storage_preparation_only_adds_witness :
  let H := Sample.collaborators Sample.plain in
  let E := Cases.embedded in
  let w := Cases.withReactBuilt in
  let w' := (@prepareStorage H E "/etc/esmd" "/etc/esmd/storage" w).1 in
  @prepareStorage H E "/etc/esmd" "/etc/esmd/storage" w = (w', Ok tt) ∧
  files w' !! "/storage/builds/v1/react@17.0.2/es2020/react.js" = Some "export default{};" ∧
  @fileExists w' "/etc/esmd/storage/builds/v1/_node_process.js" = true ∧
  @prepareStorage H E "/etc/esmd" "/etc/esmd/storage" w' = (w', Ok tt).
Proof.
  intros H E w w'.
  assert (@prepareStorage H E "/etc/esmd" "/etc/esmd/storage" w = (w', Ok tt)) as Hp
    by (vm_compute; reflexivity).
  destruct (@storage_preparation_only_adds H E "/etc/esmd" "/etc/esmd/storage" w w' _ Hp)
    as (Hkept & _ & _ & Hok).
  destruct (Hok eq_refl) as (Hpoly & _ & Hagain).
  split; [exact Hp|]. split;
    [exact (Hkept "/storage/builds/v1/react@17.0.2/es2020/react.js" "export default{};" eq_refl)|]. split; [|exact Hagain].
  apply (Hpoly ["node_process.js"; "node_buffer.js"] "node_process.js" eq_refl).
  apply list_elem_of_here.
Defined.

(** ** Errors of the registry and of the type declarations *)

Section MetadataErrors.
Context `{Collaborators}.

(** X26. The collection of the meta of one package touches nothing and
    fails in two cases only: the registry lookup of the package fails, with
    that error; or the package is not scoped and declares no types, and the
    lookup of its [@types] package fails with an error other than the
    registry's "not found" for that package, which is tolerated. *)
Theorem registry_errors_in_collection (pkg : module) (st : metaState) (w : World) :
  (collectOne pkg st w).1 = w ∧
  (collectOne pkg st w).2 ≠ OutOfFuel ∧
  ∀ e, (collectOne pkg st w).2 = Failed e ↔
       getPackageInfo (name pkg) (version pkg) = inl e ∨
       ∃ p, getPackageInfo (name pkg) (version pkg) = inr p ∧
            Types p = "" ∧ Typings p = "" ∧ Str.HasPrefix (name pkg) "@" = false ∧
            getPackageInfo ("@types/" +:+ name pkg) "latest" = inl e ∧
            error_Error e ≠ "npm: package '@types/" +:+ name pkg +:+ "' not found".
Proof.
  unfold collectOne, bind.
  destruct (getPackageInfo (name pkg) (version pkg)) as [e0|p] eqn:Hg; cbn [lift fail pure].
  { split_and!; [done|done|]. intros e. split.
    - intros [= ->]. by left.
    - intros [[= ->]|(p & Hp & _)]; done. }
  unfold typesPackage.
  case_decide as Hcond.
  - destruct Hcond as (Ht & Hty & Hs).
    destruct (getPackageInfo ("@types/" +:+ name pkg) "latest") as [e1|info] eqn:Hi.
    + case_decide as Hmsg; cbn [fail pure fst snd]; (split_and!; [done|done|]); intros e; split.
      * intros [= ->]. right. exists p. split_and!; done.
      * intros [?|(p' & _ & _ & _ & _ & [= ->] & _)]; done.
      * done.
      * intros [?|(p' & _ & _ & _ & _ & [= ->] & Hne)]; [done|]. by destruct Hmsg.
    + case_decide; cbn [pure fst snd]; (split_and!; [done|done|]); intros e; split; try done;
        intros [?|(p' & _ & _ & _ & _ & ? & _)]; done.
  - cbn [pure fst snd]. split_and!; [done|done|]. intros e. split; [done|].
    intros [?|(p' & [= <-] & Ht & Hty & Hs & _)]; [done|]. by destruct Hcond.
Qed.

(** X27. For a package that has its meta, the discovery of its type
    declarations fails in two cases only.  The manifest of the [@types]
    package, consulted for a package that is not scoped, has no submodule,
    declares no types and has no [index.d.ts], cannot be read for a reason
    other than its absence: the error is returned as it is and nothing is
    written.  Or [copyDTS] fails: the error is [copyDTS(<types>): ] and its
    message, after the files [copyDTS] wrote. *)
Theorem types_errors_in_discovery (sd host buildDir : string) (o : buildOptions)
    (pkg : module) (ms : gmap string ImportMeta) (meta : ImportMeta) (w w' : World)
    (e : error) :
  ms !! ImportPath pkg = Some meta →
  let nodeModulesDir := nodeModulesOf buildDir in
  let saveDir := Path.Join [sd; "types"; "v" +:+ Str.itoa buildVersion] in
  typesOne sd host buildDir o pkg ms w = (w', Failed e) ↔
    (w' = w ∧
     Types (Npm meta) = "" ∧ Typings (Npm meta) = "" ∧ submodule pkg = "" ∧
     fileExists w (Path.Join [nodeModulesDir; name pkg; "index.d.ts"]) = false ∧
     Str.HasPrefix (name pkg) "@" = false ∧
     ParseJSONFile w (Path.Join [nodeModulesDir; "@types"; name pkg; "package.json"]) = inl e ∧
     IsNotExist e = false) ∨
    (∃ types err written,
       findTypes w nodeModulesDir pkg meta = inr types ∧ types ≠ "" ∧
       copyDTS (files w) (external o) host nodeModulesDir saveDir types = (Some err, written) ∧
       e = Err ("copyDTS(" +:+ types +:+ "): " +:+ error_Error err) ∧
       w' = writeFiles written w).
Proof.
  intros Hm nodeModulesDir saveDir.
  unfold typesOne, metaOf, bind, getWorld. rewrite Hm. cbn [pure].
  fold nodeModulesDir saveDir.
  destruct (findTypes w nodeModulesDir pkg meta) as [e0|types] eqn:Hf; cbn [lift fail pure].
  - assert (Types (Npm meta) = "" ∧ Typings (Npm meta) = "" ∧ submodule pkg = "" ∧
            fileExists w (Path.Join [nodeModulesDir; name pkg; "index.d.ts"]) = false ∧
            Str.HasPrefix (name pkg) "@" = false ∧
            ParseJSONFile w (Path.Join [nodeModulesDir; "@types"; name pkg; "package.json"])
              = inl e0 ∧
            IsNotExist e0 = false) as Hwhy.
    { revert Hf. unfold findTypes.
      case_decide as Hd; [done|].
      case_decide as Hs.
      - destruct (fileExists w _) eqn:Hidx; [done|].
        destruct (Str.HasPrefix (name pkg) "@") eqn:Hsc; [done|]. cbn [negb].
        destruct (ParseJSONFile w _) as [e1|info] eqn:Hp; [|done].
        destruct (IsNotExist e1) eqn:Hne; [done|]. intros [= ->].
        split_and!; try done.
        + destruct (decide (Types (Npm meta) = "")); [done|]. destruct Hd. by left.
        + destruct (decide (Typings (Npm meta) = "")); [done|]. destruct Hd. by right.
      - by repeat destruct (fileExists w _). }
    split.
    + intros [= <- <-]. left. by split.
    + intros [(-> & _ & _ & _ & _ & _ & Hp & _)|(types & err & written & [=] & _)].
      destruct Hwhy as (_ & _ & _ & _ & _ & Hp' & _). congruence.
  - case_decide as Hty.
    + destruct (copyDTS _ _ _ _ _ _) as [err written] eqn:Hcopy.
      unfold update. destruct err as [err|]; cbn [fail pure].
      * split.
        -- intros [= <- <-]. right. exists types, err, written. split_and!; done.
        -- intros [(_ & Ht & Hty' & Hs & Hidx & Hsc & Hp & Hne)|
                   (types' & err' & written' & [= <-] & _ & Hc' & -> & ->)].
           ++ exfalso. revert Hf. unfold findTypes.
              rewrite decide_False by (intros [?|?]; done).
              rewrite decide_True by done. rewrite Hidx, Hsc, Hp. cbn [negb].
              by rewrite Hne.
           ++ rewrite Hcopy in Hc'. by injection Hc' as <- <-.
      * split; [done|].
        intros [(_ & Ht & Hty' & Hs & Hidx & Hsc & Hp & Hne)|
                (types' & err' & written' & [= <-] & _ & Hc' & _)].
        -- exfalso. revert Hf. unfold findTypes.
           rewrite decide_False by (intros [?|?]; done).
           rewrite decide_True by done. rewrite Hidx, Hsc, Hp. cbn [negb].
           by rewrite Hne.
        -- rewrite Hcopy in Hc'. done.
    + split; [done|].
      intros [(_ & Ht & Hty' & Hs & Hidx & Hsc & Hp & Hne)|
              (types' & err' & written' & [= <-] & Hne' & _)]; [|done].
      exfalso. revert Hf. unfold findTypes.
      rewrite decide_False by (intros [?|?]; done).
      rewrite decide_True by done. rewrite Hidx, Hsc, Hp. cbn [negb].
      by rewrite Hne.
Qed.

End MetadataErrors.

Lemma registry_errors_in_collection_witness :
  let H := Sample.collaborators Sample.plain in
  let missing := Module_ "left-pad" "1.3.0" "" in
  let st := {| installList := []; metas := ∅; peerDependencies := ∅ |} in
  (@collectOne H missing st Sample.emptyWorld).2 =
    Failed (Err "npm: package 'left-pad' not found") ∧
  ∃ st', (@collectOne H Sample.preactRef st Sample.emptyWorld).2 = Ok st'.
Proof.
  intros H missing st. split.
  - destruct (@registry_errors_in_collection H missing st Sample.emptyWorld) as (_ & _ & Hiff).
    apply Hiff. left. reflexivity.
  - eexists. vm_compute. reflexivity.
Defined.

Lemma types_errors_in_discovery_witness :
  let H := Sample.collaborators Sample.plain in
  let o := Sample.request [Sample.preactRef] [] false in
  let e := Err "unexpected end of JSON input" in
  Sample.sampleMetas !! ImportPath Sample.preactRef =
    Some {| Npm := Sample.preact; Exports := ["default"; "h"]; Dts := "" |} ∧
  @ParseJSONFile H Cases.typesBroken
    (Cases.workDir +:+ "/node_modules/@types/preact/package.json") = inl e ∧
  @typesOne H "/storage" "esm.sh" Cases.workDir o Sample.preactRef Sample.sampleMetas
    Cases.typesBroken = (Cases.typesBroken, Failed e).
Proof.
  intros H o e.
  assert (Sample.sampleMetas !! ImportPath Sample.preactRef =
            Some {| Npm := Sample.preact; Exports := ["default"; "h"]; Dts := "" |}) as Hm
    by reflexivity.
  split; [exact Hm|]. split; [reflexivity|].
  apply (proj2 (@types_errors_in_discovery H "/storage" "esm.sh" Cases.workDir o
                  Sample.preactRef Sample.sampleMetas _ Cases.typesBroken Cases.typesBroken
                  e Hm)).
  left. repeat split; vm_compute; reflexivity.
Defined.

(** ** A request that is in the cache *)

Section CacheHit.
Context `{Collaborators}.

(** X28. A request whose record is in the store and decodes, and whose
    [.js] sidecar exists, is served from the cache: [build] returns the
    decoded metas without error, with the css flag set when the css byte of
    the record is 1 and the [.css] sidecar exists, whatever the fuel and
    whatever the registry, the installer and the bundler would do, and
    leaves the store and the file system as they are. *)
Theorem cached_request_is_served (fuel : nat) (sd host : string) (o : buildOptions)
    (w : World) (kv : gmap string string) (metas : gmap string ImportMeta) :
  packages o ≠ [] →
  dbFault GetRecord = None →
  db w !! (fingerprint o).1 = Some kv →
  json_Unmarshal (KV_Get kv "importMeta") = (metas, None) →
  fileExists w (sidecar sd (fingerprint o).1 ".js") = true →
  build fuel sd host o w =
    (w, Finished {| buildID := (fingerprint o).1;
                    importMeta := metas;
                    hasCSS := bool_decide (KV_Get kv "css" = cssBit) &&
                              fileExists w (sidecar sd (fingerprint o).1 ".css") |} None).
Proof.
  intros Hne Hg Hkv Hj Hjs.
  rewrite (build_nonempty _ _ _ _ _ Hne).
  unfold lookup, db_Get. rewrite Hg, Hkv, Hj, Hjs.
  case_decide as Hcss.
  - by rewrite bool_decide_eq_true_2.
  - by rewrite bool_decide_eq_false_2.
Qed.

End CacheHit.

Lemma cached_request_is_served_witness :
  let H := Sample.collaborators Sample.bundlerFails in
  let o := Sample.request [Sample.preactRef] [] false in
  let w := Sample.cachedWorld "preact" true false in
  db w !! Sample.preactID = Some {[ "importMeta" := "preact"; "css" := noCssBit ]} ∧
  @build H 0 "/storage" "esm.sh" o w =
    (w, Finished {| buildID := Sample.preactID; importMeta := Sample.sampleMetas;
                    hasCSS := false |} None).
Proof.
  intros H o w.
  assert (packages o ≠ []) as Hne by discriminate.
  split; [reflexivity|].
  exact (@cached_request_is_served H 0 "/storage" "esm.sh" o w
           {[ "importMeta" := "preact"; "css" := noCssBit ]} Sample.sampleMetas
           Hne eq_refl eq_refl eq_refl eq_refl).
Defined.
